(** * SGM-VFI: the training and inference wrapper [Model] of
    [src/sgmvfi/Trainer_x4k.py]

    A shallow embedding of the class [Model]: checkpoint key conversion,
    parameter freezing, checkpoint saving and loading, the flip-averaged
    inference paths, the down-scaled inference path and the training step.

    The network, the loss, autograd, the optimizer's update rule and
    [F.interpolate] are collaborators of the class: they are the fields of
    the class [Torch] below, and every theorem holds for all of them. *)

From Stdlib Require Import List String Ascii ZArith QArith Lia Bool.
Import ListNotations.
Close Scope Q_scope.
Open Scope string_scope.

Set Implicit Arguments.

(* ================================================================= *)
(** ** Python exceptions and fallible results *)

Inductive exn : Type :=
| FileNotFoundError (path : string)
| KeyError (key : string)
| IndexError
| AttributeError (attr : string)
| RuntimeError.

(** [IOError] is an alias of [OSError]; [FileNotFoundError] is its subclass. *)
Definition is_IOError (e : exn) : bool :=
  match e with
  | FileNotFoundError _ => true
  | _ => false
  end.

Inductive res (A : Type) : Type :=
| Ok (a : A)
| Raise (e : exn).
Arguments Ok {A} a.
Arguments Raise {A} e.

Definition res_bind {A B : Type} (r : res A) (k : A -> res B) : res B :=
  match r with
  | Ok a => k a
  | Raise e => Raise e
  end.

Declare Scope res_scope.
Delimit Scope res_scope with res.
Notation "x <- c1 ;; c2" := (res_bind c1 (fun x => c2))
  (at level 61, c1 at next level, right associativity) : res_scope.

Fixpoint mapM {A B : Type} (f : A -> res B) (l : list A) : res (list B) :=
  match l with
  | [] => Ok []
  | x :: l' =>
      (y <- f x ;; r <- mapM f l' ;; Ok (y :: r))%res
  end.

Fixpoint zipM {A B C : Type} (f : A -> B -> res C) (la : list A) (lb : list B)
  : res (list C) :=
  match la, lb with
  | [], [] => Ok []
  | x :: la', y :: lb' =>
      (z <- f x y ;; r <- zipM f la' lb' ;; Ok (z :: r))%res
  | _, _ => Raise RuntimeError
  end.

(* ================================================================= *)
(** ** Python code with effects

    It reads and writes a state and either returns or raises; a raise keeps
    the writes made before it. *)

Definition SE (S A : Type) : Type := S -> res A * S.

Definition ret {S A : Type} (a : A) : SE S A := fun s => (Ok a, s).

Definition bind {S A B : Type} (m : SE S A) (k : A -> SE S B) : SE S B :=
  fun s =>
    match m s with
    | (Ok a, s') => k a s'
    | (Raise e, s') => (Raise e, s')
    end.

Definition lift {S A : Type} (r : res A) : SE S A := fun s => (r, s).

Definition gets {S A : Type} (f : S -> A) : SE S A := fun s => (Ok (f s), s).

Definition modify {S : Type} (f : S -> S) : SE S unit := fun s => (Ok tt, f s).

(** [keeps f m]: running [m] leaves the part [f] of the state as it was,
    whether [m] returns or raises. *)
Definition keeps {S A X : Type} (f : S -> X) (m : SE S A) : Prop :=
  forall s, f (snd (m s)) = f s.

(** [hoare P m Q]: from a state in [P], if [m] returns then [Q] holds of
    the value and the state. *)
Definition hoare {S A : Type} (P : S -> Prop) (m : SE S A) (Q : A -> S -> Prop) : Prop :=
  forall s, P s ->
            match m s with
            | (Ok a, s') => Q a s'
            | (Raise _, _) => True
            end.

Declare Scope py_scope.
Delimit Scope py_scope with py.
Notation "x <- c1 ;; c2" := (bind c1 (fun x => c2))
  (at level 61, c1 at next level, right associativity) : py_scope.
Notation "c1 ;; c2" := (bind c1 (fun _ => c2))
  (at level 61, right associativity) : py_scope.


(* ================================================================= *)
(** ** Python strings: [in] and [str.replace] *)

Module PyStr.

(** [drop n s]: the slice [s[n:]]. *)
Fixpoint drop (n : nat) (s : string) : string :=
  match n, s with
  | O, _ => s
  | S n', String _ s' => drop n' s'
  | S _, EmptyString => EmptyString
  end.

(** [contains pat s]: the test [pat in s]. *)
Fixpoint contains (pat s : string) : bool :=
  prefix pat s ||
  match s with
  | EmptyString => false
  | String _ s' => contains pat s'
  end.

(** [replace_from old new skip s]: scan [s] left to right; [skip] counts the
    characters of an occurrence of [old] that are still to be dropped. *)
Fixpoint replace_from (old new : string) (skip : nat) (s : string) : string :=
  match s with
  | EmptyString => EmptyString
  | String c s' =>
      match skip with
      | S n => replace_from old new n s'
      | O =>
          if prefix old s
          then new ++ replace_from old new (length old - 1) s'
          else String c (replace_from old new 0 s')
      end
  end.

(** With an empty [old], [str.replace] puts [new] before every character
    and at the end. *)
Fixpoint intersperse (new s : string) : string :=
  match s with
  | EmptyString => new
  | String c s' => new ++ String c (intersperse new s')
  end.

(** [replace old new s]: [s.replace(old, new)], every non-overlapping
    occurrence, leftmost first. *)
Definition replace (old new s : string) : string :=
  match old with
  | EmptyString => intersperse new s
  | String _ _ => replace_from old new 0 s
  end.

(** The same key with a leading [p] removed, when it has one: what
    "stripping a prefix" means. *)
Definition strip_prefix (p s : string) : string :=
  if prefix p s then drop (length p) s else s.

End PyStr.

(* ================================================================= *)
(** ** Python dicts: insertion-ordered, one entry per key *)

Module PyDict.
Section Dict.
Variable V : Type.

Definition dict := list (string * V).

Fixpoint get (d : dict) (k : string) : option V :=
  match d with
  | [] => None
  | (k', v) :: d' => if String.eqb k' k then Some v else get d' k
  end.

Definition mem (d : dict) (k : string) : bool :=
  match get d k with
  | Some _ => true
  | None => false
  end.

(** [d[k] = v]: an existing key keeps its place and takes the new value, a
    new key goes to the end. *)
Fixpoint set (d : dict) (k : string) (v : V) : dict :=
  match d with
  | [] => [(k, v)]
  | (k', v') :: d' =>
      if String.eqb k' k then (k', v) :: d' else (k', v') :: set d' k v
  end.

(** [{key k: v for k, v in items if keep k}] *)
Definition comprehension (key : string -> string) (keep : string -> bool)
           (items : dict) : dict :=
  fold_left
    (fun acc kv => if keep (fst kv) then set acc (key (fst kv)) (snd kv) else acc)
    items [].

Definition keys (d : dict) : list string := map fst d.

(** The value the comprehension ends with under [k']: that of the last item
    that is kept and renamed to [k']. *)
Fixpoint last_kept (key : string -> string) (keep : string -> bool)
         (items : dict) (k' : string) : option V :=
  match items with
  | [] => None
  | (k, v) :: items' =>
      match last_kept key keep items' k' with
      | Some v' => Some v'
      | None => if keep k && String.eqb (key k) k' then Some v else None
      end
  end.

End Dict.
End PyDict.

(* ================================================================= *)
(** ** [Model.load_model.convert] (lines 58-63) *)

Definition convert_keep (k : string) : bool :=
  PyStr.contains "module." k
  && negb (PyStr.contains "attn_mask" k)
  && negb (PyStr.contains "HW" k).

Definition convert_key (k : string) : string :=
  PyStr.replace "module." "" k.

Definition convert {V : Type} (param : PyDict.dict V) : PyDict.dict V :=
  PyDict.comprehension convert_key convert_keep param.

(** The filter the specification words: keep the keys that contain
    [requiredSubstring] and none of [excludedSubstrings], and strip the
    marker as a prefix of each retained key. *)
Definition filterAndStrip_spec {V : Type} (requiredSubstring : string)
           (excludedSubstrings : list string) (rawMapping : PyDict.dict V)
  : PyDict.dict V :=
  PyDict.comprehension
    (PyStr.strip_prefix requiredSubstring)
    (fun k => PyStr.contains requiredSubstring k
              && forallb (fun x => negb (PyStr.contains x k)) excludedSubstrings)
    rawMapping.

(* ================================================================= *)
(** ** Tensors

    A tensor is a scalar or a sequence of tensors along its leading axis;
    its rank and sizes are those of the value, as in Python.  The operations
    are the ones the class calls: [flip], [torch.cat], indexing,
    [unsqueeze], elementwise addition and division by a scalar. *)

Section Tensor.
Variable A : Type.

#[warning="-register-all"] Inductive tensor : Type :=
| Sc (x : A)
| Nd (l : list tensor).

Fixpoint shape (t : tensor) : list nat :=
  match t with
  | Sc _ => []
  | Nd l => List.length l :: match l with
                        | [] => []
                        | x :: _ => shape x
                        end
  end.

Fixpoint shape_eqb (s1 s2 : list nat) : bool :=
  match s1, s2 with
  | [], [] => true
  | n :: s1', m :: s2' => Nat.eqb n m && shape_eqb s1' s2'
  | _, _ => false
  end.

(** [has_shape sh t]: [t] is rectangular with sizes [sh]. *)
Fixpoint has_shape (sh : list nat) (t : tensor) : bool :=
  match sh, t with
  | [], Sc _ => true
  | n :: sh', Nd l => Nat.eqb (List.length l) n && forallb (has_shape sh') l
  | _, _ => false
  end.

(** [t.flip(d)]: reverse axis [d]; an axis the tensor does not have is an
    [IndexError]. *)
Fixpoint flip (d : nat) (t : tensor) : res tensor :=
  match t with
  | Sc _ => Raise IndexError
  | Nd l =>
      match d with
      | O => Ok (Nd (rev l))
      | S d' => (l' <- mapM (flip d') l ;; Ok (Nd l'))%res
      end
  end.

(** Whether the elements of two sequences have the same sizes; an empty
    sequence keeps no sizes for its elements and goes with any other. *)
Definition same_sizes (la lb : list tensor) : bool :=
  match la, lb with
  | x :: _, y :: _ => shape_eqb (shape x) (shape y)
  | _, _ => true
  end.

(** [torch.cat((a, b), d)]: the sizes must agree except along [d]. *)
Fixpoint cat2 (d : nat) (a b : tensor) : res tensor :=
  match a, b with
  | Nd la, Nd lb =>
      match d with
      | O =>
          if same_sizes la lb
          then Ok (Nd (la ++ lb))
          else Raise RuntimeError
      | S d' => (l <- zipM (cat2 d') la lb ;; Ok (Nd l))%res
      end
  | _, _ => Raise RuntimeError
  end.

Definition cat (ts : list tensor) (d : nat) : res tensor :=
  match ts with
  | [] => Raise RuntimeError
  | t :: rest => fold_left (fun acc x => (a <- acc ;; cat2 d a x)%res) rest (Ok t)
  end.

(** [t[i]] *)
Definition tindex (t : tensor) (i : nat) : res tensor :=
  match t with
  | Sc _ => Raise IndexError
  | Nd l =>
      match nth_error l i with
      | Some x => Ok x
      | None => Raise IndexError
      end
  end.

(** [t.unsqueeze(d)] *)
Fixpoint unsqueeze (d : nat) (t : tensor) : res tensor :=
  match d with
  | O => Ok (Nd [t])
  | S d' =>
      match t with
      | Sc _ => Raise IndexError
      | Nd l => (l' <- mapM (unsqueeze d') l ;; Ok (Nd l'))%res
      end
  end.

(** Elementwise map: [t / c], [t * c]. *)
Fixpoint tmap (f : A -> A) (t : tensor) : tensor :=
  match t with
  | Sc x => Sc (f x)
  | Nd l => Nd (map (tmap f) l)
  end.

(** [a + b] for operands of one shape, the only case the class has;
    broadcasting is not modelled and operands of different shapes are
    rejected. *)
Fixpoint tadd (add : A -> A -> A) (a b : tensor) : res tensor :=
  match a, b with
  | Sc x, Sc y => Ok (Sc (add x y))
  | Nd la, Nd lb =>
      (l <- (fix go (la lb : list tensor) : res (list tensor) :=
               match la, lb with
               | [], [] => Ok []
               | x :: la', y :: lb' =>
                   (z <- tadd add x y ;; r <- go la' lb' ;; Ok (z :: r))
               | _, _ => Raise RuntimeError
               end) la lb ;;
       Ok (Nd l))%res
  | _, _ => Raise RuntimeError
  end.

End Tensor.

Arguments Sc {A} x.
Arguments Nd {A} l.

(* ================================================================= *)
(** ** Numbers and the optimizer's private state

    Tensor elements and Python floats are kept abstract: a carrier with the
    three arithmetic operations the class uses and the constants it writes.
    Nothing is assumed about them, so what is proved holds for IEEE
    arithmetic as well as for exact arithmetic. *)

Class TorchTypes : Type := {
  num : Type;
  fadd : num -> num -> num;
  fmul : num -> num -> num;
  fdiv : num -> num -> num;
  f_0_5 : num;       (* 0.5 *)
  f_1 : num;         (* 1 *)
  f_2 : num;         (* 2, 2. *)
  f_2e_4 : num;      (* 2e-4 *)
  f_1e_4 : num;      (* 1e-4 *)
  optim_state : Type (* AdamW's moments and step counts *)
}.

Abbreviation Tensor := (tensor num).

Section State.
Context {TT : TorchTypes}.

(** [t / c] and [t * c] with a Python scalar [c]. *)
Definition tdiv (t : Tensor) (c : num) : Tensor := tmap (fun x => fdiv x c) t.
Definition tmul (t : Tensor) (c : num) : Tensor := tmap (fun x => fmul x c) t.

(** A [torch.nn.Parameter]. *)
Record Param : Type := mkParam {
  data : Tensor;
  requires_grad : bool;
  grad : option Tensor
}.

(** The composed network, as the class sees it: parameters and buffers under
    their qualified names ([gmflow.*], [feature_bone.*], [block.*], [unet.*],
    ...), the train/eval flag, the device, and whether [self.net] is the
    [DistributedDataParallel] wrapper. *)
Record Net : Type := mkNet {
  named_parameters : list (string * Param);
  named_buffers : list (string * Tensor);
  training : bool;
  on_cuda : bool;
  ddp : bool
}.

Record param_group : Type := mkGroup {
  pg_lr : num;
  pg_weight_decay : num;
  pg_params : list string      (* the parameters it refers to, by name *)
}.

(** [AdamW]: it refers to the network's parameters, it does not copy them. *)
Record AdamW : Type := mkAdamW {
  param_groups : list param_group;
  opt_state : optim_state
}.

(** The values returned by [self.net(imgs, timestep=timestep)]. *)
Record fwd_out : Type := mkOut {
  out_flow : Tensor;
  out_mask : Tensor;
  out_merged : list Tensor;
  out_pred : Tensor;
  out_flow_matching_s : Tensor
}.

(** A checkpoint file: a dict with the keys ['epoch'], ['model'] and
    ['optimizer'], each of which may be missing. *)
Record ckpt : Type := mkCkpt {
  ck_epoch : option Z;
  ck_model : option (PyDict.dict Tensor);
  ck_optimizer : option AdamW
}.

Inductive net_entry : Type := Forward | CalculateFlow | WarpAndRefine.

(** What the class asks of its collaborators, in order. *)
Inductive event : Type :=
| EvPrint (s : string)
| EvNet (e : net_entry) (grad_enabled : bool)
| EvZeroGrad
| EvBackward (loss : num)
| EvStep.

Record Model : Type := mkModel {
  net : Net;
  name : string;
  optimG : option AdamW  (* [None] until [__init__] assigns it (line 43) *)
}.

(** The process: the object [self], the checkpoint files and directories on
    disk, autograd's global switch and the trace of collaborator calls.  Of
    the file system only what the class relies on is kept: a missing file
    makes [torch.load] fail; permissions and disk space are not modelled. *)
Record state : Type := mkState {
  self : Model;
  files : PyDict.dict ckpt;
  dirs : list string;
  grad_enabled : bool;
  trace : list event
}.

Inductive interp_mode : Type := Bilinear | Nearest.

(** The loss value [update] returns: a tensor scalar when training, the
    Python integer [0] otherwise. *)
Inductive loss_value : Type :=
| LossTensor (x : num)
| LossInt (z : Z).

End State.

(** The collaborators: the network's three entry points, the Laplacian loss,
    [Tensor.mean], [F.interpolate], autograd and the AdamW update rule, and
    the two values read from [config]. *)
Class Torch {TT : TorchTypes} : Type := {
  forward : Net -> Tensor -> num -> fwd_out;
  calculate_flow : Net -> Tensor -> num -> Tensor * Tensor;
  coraseWarp_and_Refine : Net -> Tensor -> Tensor -> Tensor -> Tensor;
  LapLoss : Tensor -> Tensor -> Tensor;
  mean : Tensor -> num;
  interpolate : Tensor -> num -> interp_mode -> bool -> Tensor;
  (** [.grad] of the named parameter after [loss.backward()], for the loss
      [update] builds from [imgs], [timestep] and [gt]; its last argument is
      the [.grad] accumulated so far. *)
  autograd : Net -> Tensor -> num -> Tensor -> string -> option Tensor -> Tensor;
  (** One AdamW update of a parameter: learning rate, weight decay, optimizer
      state, name, value, gradient. *)
  adamw_update : num -> num -> optim_state -> string -> Tensor -> Tensor -> Tensor;
  adamw_next_state : optim_state -> list (string * Param) -> optim_state;
  adamw_init_state : optim_state;
  (** The network [__init__] builds from [MODEL_CONFIG] (line 17). *)
  MODEL_CONFIG_net : Net;
  (** [MODEL_CONFIG['LOGNAME']] *)
  MODEL_CONFIG_LOGNAME : string
}.

(* ================================================================= *)
(** ** The class [Model] *)

Section ModelDef.
Context {TT : TorchTypes} {T : Torch}.

Definition M (A : Type) : Type := SE state A.

Local Open Scope py_scope.

(** *** Writes to the state *)

Definition with_self (f : Model -> Model) (s : state) : state :=
  mkState (f (self s)) (files s) (dirs s) (grad_enabled s) (trace s).

Definition with_net (f : Net -> Net) (s : state) : state :=
  with_self (fun m => mkModel (f (net m)) (name m) (optimG m)) s.

Definition with_params (f : list (string * Param) -> list (string * Param))
           (n : Net) : Net :=
  mkNet (f (named_parameters n)) (named_buffers n) (training n) (on_cuda n) (ddp n).

Definition with_files (f : PyDict.dict ckpt -> PyDict.dict ckpt) (s : state) : state :=
  mkState (self s) (f (files s)) (dirs s) (grad_enabled s) (trace s).

Definition with_dirs (f : list string -> list string) (s : state) : state :=
  mkState (self s) (files s) (f (dirs s)) (grad_enabled s) (trace s).

Definition with_grad_enabled (b : bool) (s : state) : state :=
  mkState (self s) (files s) (dirs s) b (trace s).

Definition log (e : event) (s : state) : state :=
  mkState (self s) (files s) (dirs s) (grad_enabled s) (trace s ++ [e])%list.

Definition print (msg : string) : M unit := modify (log (EvPrint msg)).

(** *** [torch.load], [torch.save], [os.makedirs] *)

Definition torch_load (path : string) : M ckpt :=
  fun s =>
    match PyDict.get (files s) path with
    | Some c => (Ok c, s)
    | None => (Raise (FileNotFoundError path), s)
    end.

Definition torch_save (c : ckpt) (path : string) : M unit :=
  modify (with_files (fun fs => PyDict.set fs path c)).

(** The directories on the way to [rest], [done] being the part of the path
    already read: ["log/x/ckpt"] gives ["log"], ["log/x"], ["log/x/ckpt"]. *)
Fixpoint path_prefixes (done rest : string) : list string :=
  match rest with
  | EmptyString => match done with EmptyString => [] | _ => [done] end
  | String c rest' =>
      if Ascii.eqb c "/"%char
      then (match done with EmptyString => [] | _ => [done] end
              ++ path_prefixes (done ++ "/") rest')%list
      else path_prefixes (done ++ String c EmptyString) rest'
  end.

Definition add_dir (ds : list string) (d : string) : list string :=
  if existsb (String.eqb d) ds then ds else (ds ++ [d])%list.

(** [os.makedirs(path, exist_ok=True)] *)
Definition makedirs_exist_ok (path : string) : M unit :=
  modify (with_dirs (fun ds => fold_left add_dir (path_prefixes "" path) ds)).

(** [with torch.no_grad():] and the decorator [@torch.no_grad()]: the switch
    is restored on the way out, also when the body raises. *)
Definition no_grad {A : Type} (body : M A) : M A :=
  fun s =>
    let prev := grad_enabled s in
    let (r, s') := body (with_grad_enabled false s) in
    (r, with_grad_enabled prev s').

(** *** The network's state dict *)

(** The key of a parameter in [self.net.state_dict()]: the wrapper prefixes
    every name with ["module."]. *)
Definition state_dict_key (n : Net) (k : string) : string :=
  if ddp n then "module." ++ k else k.

Definition state_dict (n : Net) : PyDict.dict Tensor :=
  (map (fun kp => (state_dict_key n (fst kp), data (snd kp))) (named_parameters n)
   ++ map (fun kb => (state_dict_key n (fst kb), snd kb)) (named_buffers n))%list.

(** The name a parameter of [self.net] has inside the sub-module [branch],
    if it belongs to it. *)
Definition sub_key (branch : string) (k : string) : option string :=
  if prefix (branch ++ ".") k
  then Some (PyStr.drop (String.length branch + 1) k)
  else None.

Definition in_branch (branch : string) (k : string) : bool :=
  prefix (branch ++ ".") k.

(** [self.net.<branch>.state_dict()] *)
Definition sub_state_dict (branch : string) (n : Net) : PyDict.dict Tensor :=
  (flat_map (fun kp => match sub_key branch (fst kp) with
                       | Some k => [(k, data (snd kp))]
                       | None => []
                       end) (named_parameters n)
   ++ flat_map (fun kb => match sub_key branch (fst kb) with
                          | Some k => [(k, snd kb)]
                          | None => []
                          end) (named_buffers n))%list.

(** The tensor [load_state_dict] finds for the entry [k], if any. *)
Definition incoming (key_of : string -> option string) (sd : PyDict.dict Tensor)
           (k : string) : option Tensor :=
  match key_of k with
  | Some k' => PyDict.get sd k'
  | None => None
  end.

Definition load_tensor (key_of : string -> option string) (sd : PyDict.dict Tensor)
           (k : string) (old : Tensor) : Tensor :=
  match incoming key_of sd k with
  | Some v => if shape_eqb (shape v) (shape old) then v else old
  | None => old
  end.

Definition size_mismatch (key_of : string -> option string) (sd : PyDict.dict Tensor)
           (k : string) (old : Tensor) : bool :=
  match incoming key_of sd k with
  | Some v => negb (shape_eqb (shape v) (shape old))
  | None => false
  end.

Definition any_size_mismatch (key_of : string -> option string)
           (sd : PyDict.dict Tensor) (n : Net) : bool :=
  existsb (fun kp => size_mismatch key_of sd (fst kp) (data (snd kp)))
          (named_parameters n)
  || existsb (fun kb => size_mismatch key_of sd (fst kb) (snd kb))
             (named_buffers n).

(** [module.load_state_dict(sd, strict=False)]: every entry of the module
    whose key is in [sd] takes the value found there, in place (the
    parameter object, its [requires_grad] and its [.grad] stay); keys on
    one side only are ignored; a size mismatch leaves that entry alone and
    makes the call raise once the others are copied. *)
Definition load_state_dict (key_of : string -> option string)
           (sd : PyDict.dict Tensor) : M unit :=
  fun s =>
    let n := net (self s) in
    let ps := map (fun kp => (fst kp,
                              mkParam (load_tensor key_of sd (fst kp) (data (snd kp)))
                                      (requires_grad (snd kp)) (grad (snd kp))))
                  (named_parameters n) in
    let bs := map (fun kb => (fst kb, load_tensor key_of sd (fst kb) (snd kb)))
                  (named_buffers n) in
    ((if any_size_mismatch key_of sd n then Raise RuntimeError else Ok tt),
     with_net (fun _ => mkNet ps bs (training n) (on_cuda n) (ddp n)) s).

(** [for param in self.net.<branch>.parameters(): param.requires_grad = False] *)
Definition set_requires_grad (branch : string) (b : bool) : M unit :=
  modify (with_net (with_params
    (map (fun kp => if in_branch branch (fst kp)
                    then (fst kp, mkParam (data (snd kp)) b (grad (snd kp)))
                    else kp)))).

(** [ckpt['model']] *)
Definition getitem_model (c : ckpt) : M (PyDict.dict Tensor) :=
  match ck_model c with
  | Some d => ret d
  | None => lift (Raise (KeyError "model"))
  end.

(** *** [train], [eval], [device] (lines 48-55) *)

Definition train : M unit :=
  modify (with_net (fun n =>
    mkNet (named_parameters n) (named_buffers n) true (on_cuda n) (ddp n))).

Definition eval : M unit :=
  modify (with_net (fun n =>
    mkNet (named_parameters n) (named_buffers n) false (on_cuda n) (ddp n))).

Definition device : M unit :=
  modify (with_net (fun n =>
    mkNet (named_parameters n) (named_buffers n) (training n) true (ddp n))).

(** *** [load_model] (lines 57-70) *)

Definition load_model (name_arg : option string) (rank : Z) : M unit :=
  if (rank <=? 0)%Z then
    name' <- gets (fun s => match name_arg with
                            | None => name (self s)
                            | Some n => n
                            end) ;;
    print ("Loading " ++ name' ++ " ckpt") ;;
    ckpt <- torch_load ("log/" ++ name' ++ "/ckpt/" ++ name' ++ ".pkl") ;;
    model <- getitem_model ckpt ;;
    n <- gets (fun s => net (self s)) ;;
    load_state_dict (fun k => Some (state_dict_key n k)) (convert model)
  else ret tt.

(** *** [__init__] (lines 14-46) *)

Definition gmflow_path : string := "./pretrained/gmflow_sintel-0c07dcb3.pth".

(** [AdamW(self.net.parameters(), lr=2e-4, weight_decay=1e-4)] *)
Definition new_AdamW (n : Net) : AdamW :=
  mkAdamW [mkGroup f_2e_4 f_1e_4 (map fst (named_parameters n))] adamw_init_state.

Definition __init__ (local_rank : Z) : M unit :=
  modify (with_self (fun _ => mkModel MODEL_CONFIG_net MODEL_CONFIG_LOGNAME None)) ;;
  device ;;
  ckpt <- torch_load gmflow_path ;;
  print "Loading GMFlow ckpt" ;;
  model_dict <- gets (fun s => sub_state_dict "gmflow" (net (self s))) ;;
  raw <- getitem_model ckpt ;;
  let partial_dict :=
    PyDict.comprehension (fun k => k) (PyDict.mem model_dict) raw in
  load_state_dict (sub_key "gmflow") partial_dict ;;
  set_requires_grad "gmflow" false ;;
  print "GMFlow Parameters Loaded" ;;
  let name' := "ours-local" in
  load_model (Some name') local_rank ;;
  print (name' ++ " ckpt Loaded.") ;;
  set_requires_grad "feature_bone" false ;;
  set_requires_grad "block" false ;;
  set_requires_grad "unet" false ;;
  modify (with_self (fun m => mkModel (net m) (name m) (Some (new_AdamW (net m))))) ;;
  if negb (local_rank =? -1)%Z
  then modify (with_net (fun n =>
         mkNet (named_parameters n) (named_buffers n) (training n) (on_cuda n) true))
  else ret tt.

(** *** [save_model] (lines 72-87) *)

Definition ckpt_dir (nm : string) : string := "log/" ++ nm ++ "/ckpt".
Definition ckpt_path (nm : string) : string := "log/" ++ nm ++ "/ckpt/" ++ nm ++ ".pkl".
Definition ckpt_best_path (nm : string) : string :=
  "log/" ++ nm ++ "/ckpt/" ++ nm ++ "_best.pkl".

(** [self.optimG]: an [AttributeError] before [__init__] has assigned it. *)
Definition get_optimG : M AdamW :=
  fun s =>
    match optimG (self s) with
    | Some o => (Ok o, s)
    | None => (Raise (AttributeError "optimG"), s)
    end.

(** The dict [{'epoch': epoch, 'model': ..., 'optimizer': ...}] built at the
    point of the call. *)
Definition snapshot (epoch : Z) : M ckpt :=
  sd <- gets (fun s => state_dict (net (self s))) ;;
  o <- get_optimG ;;
  ret (mkCkpt (Some epoch) (Some sd) (Some o)).

Definition save_model (rank : Z) (epoch : Z) (best : bool) : M unit :=
  if (rank =? 0)%Z then
    nm <- gets (fun s => name (self s)) ;;
    makedirs_exist_ok (ckpt_dir nm) ;;
    c <- snapshot epoch ;;
    torch_save c (ckpt_path nm) ;;
    if best then
      c' <- snapshot epoch ;;
      torch_save c' (ckpt_best_path nm)
    else ret tt
  else ret tt.

(** *** Calls into the network

    [self.net(...)] goes through [__call__], which the
    [DistributedDataParallel] wrapper passes on to the network it wraps.
    [self.net.calculate_flow] and [self.net.coraseWarp_and_Refine] are
    attribute look-ups on [self.net]: the wrapper has no attribute of either
    name and does not pass the look-up on, so once [__init__] has wrapped the
    network (lines 45-46) they raise [AttributeError], before anything is
    called. *)

Definition call_net (imgs : Tensor) (timestep : num) : M fwd_out :=
  fun s => (Ok (forward (net (self s)) imgs timestep),
            log (EvNet Forward (grad_enabled s)) s).

Definition call_calculate_flow (imgs : Tensor) (timestep : num)
  : M (Tensor * Tensor) :=
  fun s =>
    if ddp (net (self s))
    then (Raise (AttributeError "calculate_flow"), s)
    else (Ok (calculate_flow (net (self s)) imgs timestep),
          log (EvNet CalculateFlow (grad_enabled s)) s).

Definition call_coraseWarp_and_Refine (imgs flow mask : Tensor) : M Tensor :=
  fun s =>
    if ddp (net (self s))
    then (Raise (AttributeError "coraseWarp_and_Refine"), s)
    else (Ok (coraseWarp_and_Refine (net (self s)) imgs flow mask),
          log (EvNet WarpAndRefine (grad_enabled s)) s).

(** [(preds[0] + preds[1].flip(1).flip(2)).unsqueeze(0) / 2.] *)
Definition fast_average (preds : Tensor) : res Tensor :=
  (p0 <- tindex preds 0 ;;
   p1 <- tindex preds 1 ;;
   p1' <- flip 1 p1 ;;
   p1'' <- flip 2 p1' ;;
   sum <- tadd fadd p0 p1'' ;;
   u <- unsqueeze 0 sum ;;
   Ok (tdiv u f_2))%res.

(** [x.flip(2).flip(3)] *)
Definition flip23 (x : Tensor) : res Tensor :=
  (y <- flip 2 x ;; flip 3 y)%res.

(** *** [hr_inference] (lines 89-118) *)

(** The inner function [infer] (lines 96-106). *)
Definition hr_infer (down_scale timestep : num) (imgs : Tensor) : M Tensor :=
  let imgs_down := interpolate imgs down_scale Bilinear false in
  fm <- call_calculate_flow imgs_down timestep ;;
  let flow := tmul (interpolate (fst fm) (fdiv f_1 down_scale) Bilinear false)
                   (fdiv f_1 down_scale) in
  let mask := interpolate (snd fm) (fdiv f_1 down_scale) Bilinear false in
  pred <- call_coraseWarp_and_Refine imgs flow mask ;;
  ret pred.

Definition hr_inference (img0 img1 : Tensor) (TTA : bool) (down_scale timestep : num)
           (fast_TTA : bool) : M Tensor :=
  no_grad (
    imgs <- lift (cat [img0; img1] 1) ;;
    if fast_TTA then
      imgs_ <- lift (flip23 imgs) ;;
      input <- lift (cat [imgs; imgs_] 0) ;;
      preds <- hr_infer down_scale timestep input ;;
      lift (fast_average preds)
    else if negb TTA then
      hr_infer down_scale timestep imgs
    else
      a <- hr_infer down_scale timestep imgs ;;
      imgs_ <- lift (flip23 imgs) ;;
      b <- hr_infer down_scale timestep imgs_ ;;
      b' <- lift (flip23 b) ;;
      sum <- lift (tadd fadd a b') ;;
      ret (tdiv sum f_2)).

(** *** [inference] (lines 120-137) *)

Definition inference (img0 img1 : Tensor) (TTA : bool) (timestep : num)
           (fast_TTA : bool) : M Tensor :=
  no_grad (
    imgs <- lift (cat [img0; img1] 1) ;;
    if fast_TTA then
      imgs_ <- lift (flip23 imgs) ;;
      inputs <- lift (cat [imgs; imgs_] 0) ;;
      out <- call_net inputs timestep ;;
      lift (fast_average (out_pred out))
    else
      out <- call_net imgs timestep ;;
      let pred := out_pred out in
      if negb TTA then ret pred
      else
        imgs_ <- lift (flip23 imgs) ;;
        out2 <- call_net imgs_ timestep ;;
        pred2' <- lift (flip23 (out_pred out2)) ;;
        sum <- lift (tadd fadd pred pred2') ;;
        ret (tdiv sum f_2)).

(** *** [update] (lines 139-162) *)

Definition in_groups (o : AdamW) (k : string) : bool :=
  existsb (fun g => existsb (String.eqb k) (pg_params g)) (param_groups o).

(** [for param_group in self.optimG.param_groups: param_group['lr'] = learning_rate] *)
Definition set_lr (learning_rate : num) : M unit :=
  o <- get_optimG ;;
  modify (with_self (fun m =>
    mkModel (net m) (name m)
            (Some (mkAdamW (map (fun g => mkGroup learning_rate (pg_weight_decay g)
                                                  (pg_params g))
                                (param_groups o))
                           (opt_state o))))).

(** [self.optimG.zero_grad()]: the gradients of the optimizer's parameters
    are reset to [None]. *)
Definition zero_grad : M unit :=
  o <- get_optimG ;;
  modify (log EvZeroGrad) ;;
  modify (with_net (with_params
    (map (fun kp => if in_groups o (fst kp)
                    then (fst kp, mkParam (data (snd kp)) (requires_grad (snd kp)) None)
                    else kp)))).

(** [loss_l1.backward()]: autograd writes the [.grad] of the parameters
    that require one. *)
Definition backward (imgs : Tensor) (timestep : num) (gt : Tensor) (loss : num)
  : M unit :=
  modify (log (EvBackward loss)) ;;
  modify (with_net (fun n => with_params
    (map (fun kp => if requires_grad (snd kp)
                    then (fst kp,
                          mkParam (data (snd kp)) (requires_grad (snd kp))
                                  (Some (autograd n imgs timestep gt (fst kp)
                                                  (grad (snd kp)))))
                    else kp)) n)).

(** One group's share of [self.optimG.step()]: its parameters that have a
    gradient are updated, the others are skipped. *)
Definition step_group (st : optim_state) (g : param_group)
           (ps : list (string * Param)) : list (string * Param) :=
  map (fun kp =>
         if existsb (String.eqb (fst kp)) (pg_params g) then
           match grad (snd kp) with
           | Some gr =>
               (fst kp,
                mkParam (adamw_update (pg_lr g) (pg_weight_decay g) st (fst kp)
                                      (data (snd kp)) gr)
                        (requires_grad (snd kp)) (grad (snd kp)))
           | None => kp
           end
         else kp) ps.

(** [self.optimG.step()] *)
Definition step : M unit :=
  o <- get_optimG ;;
  modify (log EvStep) ;;
  ps <- gets (fun s => named_parameters (net (self s))) ;;
  modify (with_net (with_params
    (fun ps => fold_left (fun acc g => step_group (opt_state o) g acc)
                         (param_groups o) ps))) ;;
  modify (with_self (fun m =>
    mkModel (net m) (name m)
            (Some (mkAdamW (param_groups o) (adamw_next_state (opt_state o) ps))))).

(** The loss of lines 150-153. *)
Definition total_loss (pred : Tensor) (merged : list Tensor) (gt : Tensor) : num :=
  fold_left (fun loss_l1 merge => fadd loss_l1 (fmul (mean (LapLoss merge gt)) f_0_5))
            merged
            (mean (LapLoss pred gt)).

Definition update (imgs gt : Tensor) (learning_rate timestep : num) (training : bool)
  : M (Tensor * loss_value) :=
  set_lr learning_rate ;;
  (if training then train else eval) ;;
  if training then
    out <- call_net imgs timestep ;;
    let pred := out_pred out in
    let loss_l1 := total_loss pred (out_merged out) gt in
    zero_grad ;;
    backward imgs timestep gt loss_l1 ;;
    step ;;
    ret (pred, LossTensor loss_l1)
  else
    no_grad (
      out <- call_net imgs timestep ;;
      ret (out_pred out, LossInt 0)).

(** [Model(local_rank)]: a fresh object, then [__init__]. *)
Definition blank : Model := mkModel (mkNet [] [] true false false) "" None.

Definition new_Model (local_rank : Z) (s : state) : res Model * state :=
  match __init__ local_rank (with_self (fun _ => blank) s) with
  | (Ok _, s') => (Ok (self s'), s')
  | (Raise e, s') => (Raise e, s')
  end.

End ModelDef.

(* ================================================================= *)
(** ** The quantities the properties are about *)

Section Notions.
Context {TT : TorchTypes} {T : Torch}.

(** The branches [__init__] freezes. *)
Definition frozen_branches : list string :=
  ["gmflow"; "feature_bone"; "block"; "unet"].

(** Every parameter of the branches [bs] has [requires_grad = False]. *)
Definition frozen_among (bs : list string) (n : Net) : Prop :=
  forall k p, In (k, p) (named_parameters n) ->
              existsb (fun b => in_branch b k) bs = true -> requires_grad p = false.

(** Every parameter of a frozen branch has [requires_grad = False]. *)
Definition frozen (n : Net) : Prop := frozen_among frozen_branches n.

(** The same, read off a list of names and flags. *)
Definition frozen_flags (bs : list string) (fs : list (string * bool)) : Prop :=
  forall k b, In (k, b) fs ->
              existsb (fun br => in_branch br k) bs = true -> b = false.

(** The names of the parameters with their [requires_grad] flags. *)
Definition flags (n : Net) : list (string * bool) :=
  map (fun kp => (fst kp, requires_grad (snd kp))) (named_parameters n).

(** The record a checkpoint file receives. *)
Definition saved_record (s : state) (epoch : Z) (o : AdamW) : ckpt :=
  mkCkpt (Some epoch) (Some (state_dict (net (self s)))) (Some o).

Local Open Scope py_scope.

(** The state in which [update] calls the network: the learning rate is
    written into every group, the mode is set. *)
Definition prepared (learning_rate : num) (training : bool) (s : state) : state :=
  snd ((set_lr learning_rate ;; if training then train else eval) s).

(** The flags of the network of [self]. *)
Definition fl (s : state) : list (string * bool) := flags (net (self s)).

(** The calls a client can make on a constructed [Model]. *)
Inductive call : Type :=
| CallTrain
| CallEval
| CallDevice
| CallLoadModel (name_arg : option string) (rank : Z)
| CallSaveModel (rank epoch : Z) (best : bool)
| CallHrInference (img0 img1 : Tensor) (TTA : bool) (down_scale timestep : num)
                  (fast_TTA : bool)
| CallInference (img0 img1 : Tensor) (TTA : bool) (timestep : num) (fast_TTA : bool)
| CallUpdate (imgs gt : Tensor) (learning_rate timestep : num) (training : bool).

(** The state after a call, returned or raised. *)
Definition run (c : call) (s : state) : state :=
  match c with
  | CallTrain => snd (train s)
  | CallEval => snd (eval s)
  | CallDevice => snd (device s)
  | CallLoadModel name_arg rank => snd (load_model name_arg rank s)
  | CallSaveModel rank epoch best => snd (save_model rank epoch best s)
  | CallHrInference img0 img1 TTA down_scale timestep fast_TTA =>
      snd (hr_inference img0 img1 TTA down_scale timestep fast_TTA s)
  | CallInference img0 img1 TTA timestep fast_TTA =>
      snd (inference img0 img1 TTA timestep fast_TTA s)
  | CallUpdate imgs gt learning_rate timestep training =>
      snd (update imgs gt learning_rate timestep training s)
  end.

Definition run_all (cs : list call) (s : state) : state :=
  fold_left (fun s c => run c s) cs s.

(** The network treats the samples of a batch one by one: its prediction
    for a batch is the batch of the predictions [f] makes for the samples. *)
Definition per_sample_forward (n : Net) (timestep : num) (f : Tensor -> Tensor) : Prop :=
  forall l, out_pred (forward n (Nd l) timestep) = Nd (map f l).

(** What the specification says [hrInfer] computes from the concatenated
    frame pair: downsample, flow and mask, upsample both, rescale the flow,
    warp and refine at full resolution. *)
Definition hrInfer_spec (n : Net) (imgs : Tensor) (downScale timestep : num) : Tensor :=
  let downsampled := interpolate imgs downScale Bilinear false in
  let (flow, mask) := calculate_flow n downsampled timestep in
  let flow_up := interpolate flow (fdiv f_1 downScale) Bilinear false in
  let flow_rescaled := tmul flow_up (fdiv f_1 downScale) in
  let mask_up := interpolate mask (fdiv f_1 downScale) Bilinear false in
  coraseWarp_and_Refine n imgs flow_rescaled mask_up.

(** The same for what [infer], the inner function of [hr_inference],
    computes. *)
Definition per_sample_infer (n : Net) (down_scale timestep : num)
           (g : Tensor -> Tensor) : Prop :=
  forall l, hrInfer_spec n (Nd l) down_scale timestep = Nd (map g l).

(** Full-resolution inference without the down- and up-scaling: flow and
    mask on the concatenated pair, then warp and refine. *)
Definition direct_infer (n : Net) (imgs : Tensor) (timestep : num) : Tensor :=
  let (flow, mask) := calculate_flow n imgs timestep in
  coraseWarp_and_Refine n imgs flow mask.

(** [(a + b.flip(H).flip(W)) / 2] on one sample: the average the two
    flip paths take over a prediction and a flipped-back prediction. *)
Definition average_with_flipped (a b : Tensor) : res Tensor :=
  (b' <- flip 1 b ;; b'' <- flip 2 b' ;; sum <- tadd fadd a b'' ;; Ok (tdiv sum f_2))%res.

End Notions.

(* ================================================================= *)
(** ** A small instance

    Rational numbers, a network that returns its input, a five-parameter
    model and two checkpoint files: the concrete inputs of the examples. *)

Module Sample.

Definition Qtypes : TorchTypes :=
  {| num := Q;
     fadd := Qplus; fmul := Qmult; fdiv := Qdiv;
     f_0_5 := (1 # 2)%Q; f_1 := 1%Q; f_2 := 2%Q;
     f_2e_4 := (1 # 5000)%Q; f_1e_4 := (1 # 10000)%Q;
     optim_state := nat |}.

Definition weight (q : Q) : @Param Qtypes := @mkParam Qtypes (Nd [Sc q]) true None.

Definition config_net : @Net Qtypes :=
  @mkNet Qtypes
    [("gmflow.w", weight 1); ("feature_bone.w", weight 2); ("block.w", weight 3);
     ("unet.w", weight 4); ("head.w", weight 5)]
    [("block.attn_mask", Nd [Sc 0%Q])]
    true false false.

Definition torch : @Torch Qtypes :=
  {| forward := fun _ imgs _ => @mkOut Qtypes imgs imgs [imgs] imgs imgs;
     calculate_flow := fun _ imgs _ => (imgs, imgs);
     coraseWarp_and_Refine := fun _ imgs _ _ => imgs;
     LapLoss := fun pred _ => pred;
     mean := fun _ => 1%Q;
     interpolate := fun t _ _ _ => t;
     autograd := fun _ _ _ _ _ _ => Nd [Sc 1%Q];
     adamw_update := fun lr _ _ _ w g =>
       match tadd Qplus w (tmap (fun x => Qmult (Qopp lr) x) g) with
       | Ok w' => w'
       | Raise _ => w
       end;
     adamw_next_state := fun st _ => S st;
     adamw_init_state := O;
     MODEL_CONFIG_net := config_net;
     MODEL_CONFIG_LOGNAME := "sgm" |}.

(** The same collaborators, but for a network whose prediction for every
    sample of a batch is the first sample of the batch: deterministic, and
    not sample by sample. *)
Definition torch_first : @Torch Qtypes :=
  {| forward := fun _ imgs _ =>
       let pred := match imgs with
                   | Nd (x :: l) => Nd (map (fun _ => x) (x :: l))
                   | _ => imgs
                   end in
       @mkOut Qtypes imgs imgs [pred] pred imgs;
     calculate_flow := @calculate_flow Qtypes torch;
     coraseWarp_and_Refine := @coraseWarp_and_Refine Qtypes torch;
     LapLoss := @LapLoss Qtypes torch;
     mean := @mean Qtypes torch;
     interpolate := @interpolate Qtypes torch;
     autograd := @autograd Qtypes torch;
     adamw_update := @adamw_update Qtypes torch;
     adamw_next_state := @adamw_next_state Qtypes torch;
     adamw_init_state := @adamw_init_state Qtypes torch;
     MODEL_CONFIG_net := config_net;
     MODEL_CONFIG_LOGNAME := "sgm" |}.

Definition gmflow_ckpt : @ckpt Qtypes :=
  @mkCkpt Qtypes None (Some [("w", Nd [Sc 10%Q]); ("unused", Nd [Sc 0%Q])]) None.

Definition local_ckpt : @ckpt Qtypes :=
  @mkCkpt Qtypes (Some 300%Z)
    (Some [("module.head.w", Nd [Sc 50%Q]); ("module.block.attn_mask", Nd [Sc 9%Q])])
    None.

(** A process with both pretrained checkpoints on disk. *)
Definition disk : @state Qtypes :=
  @mkState Qtypes (@blank Qtypes)
    [("./pretrained/gmflow_sintel-0c07dcb3.pth", gmflow_ckpt);
     ("log/ours-local/ckpt/ours-local.pkl", local_ckpt)]
    [] true [].

(** The state [Model(-1)] leaves on that disk. *)
Definition built : @state Qtypes := snd (@new_Model Qtypes torch (-1) disk).

(** One frame of one channel, one row and two columns, and a batch of two. *)
Definition frame (x y : Q) : tensor Q := Nd [Nd [Nd [Nd [Sc x; Sc y]]]].

Definition frames2 (x y u v : Q) : tensor Q :=
  Nd [Nd [Nd [Nd [Sc x; Sc y]]]; Nd [Nd [Nd [Sc u; Sc v]]]].

End Sample.

(* ================================================================= *)
(** ** Further notions *)

Section MoreNotions.
Context {TT : TorchTypes} {T : Torch}.

(** From [s] to [s'] only network calls were logged, all under the
    gradient switch of [s]; object, disk and switch are those of [s]. *)
Definition quiet_step (s s' : state) : Prop :=
  self s' = self s /\ files s' = files s /\ dirs s' = dirs s
  /\ grad_enabled s' = grad_enabled s
  /\ exists evs, trace s' = (trace s ++ evs)%list
                 /\ Forall (fun e => exists entry, e = EvNet entry (grad_enabled s)) evs.

Definition quiet {A : Type} (m : M A) : Prop := forall s, quiet_step s (snd (m s)).

(** From [s] to [s'] the code only observed: object, disk and gradient
    switch are unchanged and the trace grew by network calls made with
    gradients disabled. *)
Definition observed_only (s s' : state) : Prop :=
  self s' = self s /\ files s' = files s /\ dirs s' = dirs s
  /\ grad_enabled s' = grad_enabled s
  /\ exists evs, trace s' = (trace s ++ evs)%list
                 /\ Forall (fun e => exists entry, e = EvNet entry false) evs.

(** The name [load_model] reads the checkpoint of: its argument, or
    [self.name] when the argument is [None] (lines 66-67). *)
Definition chosen_name (name_arg : option string) (s : state) : string :=
  match name_arg with
  | None => name (self s)
  | Some n => n
  end.

(** What [load_model] prints, then the path it reads. *)
Definition loading_message (nm : string) : string := "Loading " ++ nm ++ " ckpt".

(** Everything of the state but the values of the network's entries and
    the trace: names, flags, gradients and sizes of the parameters, names and
    sizes of the buffers, mode, device, wrapper, model name, optimizer, disk
    and gradient switch. *)
Definition skeleton (s : state) :=
  (map (fun kp => (fst kp, requires_grad (snd kp), grad (snd kp),
                   shape (data (snd kp))))
       (named_parameters (net (self s))),
   map (fun kb => (fst kb, shape (snd kb))) (named_buffers (net (self s))),
   (training (net (self s)), on_cuda (net (self s)), ddp (net (self s))),
   (name (self s), optimG (self s)),
   (files s, dirs s, grad_enabled s)).

(** The names of the network's entries, parameters first. *)
Definition entry_names (n : Net) : list string :=
  (map fst (named_parameters n) ++ map fst (named_buffers n))%list.

End MoreNotions.

(** Integers with exact halving of even numbers, and a network that returns
    its input: an instance in which [(x + x) / 2 = x]. *)
Module SampleZ.

Definition Ztypes : TorchTypes :=
  {| num := Z;
     fadd := Z.add; fmul := Z.mul; fdiv := Z.div;
     f_0_5 := 0%Z; f_1 := 1%Z; f_2 := 2%Z;
     f_2e_4 := 0%Z; f_1e_4 := 0%Z;
     optim_state := unit |}.

Definition torch : @Torch Ztypes :=
  {| forward := fun _ imgs _ => @mkOut Ztypes imgs imgs [imgs] imgs imgs;
     calculate_flow := fun _ imgs _ => (imgs, imgs);
     coraseWarp_and_Refine := fun _ imgs _ _ => imgs;
     LapLoss := fun pred _ => pred;
     mean := fun _ => 0%Z;
     interpolate := fun t _ _ _ => t;
     autograd := fun _ _ _ _ _ _ => Nd [];
     adamw_update := fun _ _ _ _ w _ => w;
     adamw_next_state := fun st _ => st;
     adamw_init_state := tt;
     MODEL_CONFIG_net := @mkNet Ztypes [] [] true false false;
     MODEL_CONFIG_LOGNAME := "z" |}.

Definition idle : @state Ztypes := @mkState Ztypes (@blank Ztypes) [] [] true [].

Definition frame (x y : Z) : tensor Z := Nd [Nd [Nd [Nd [Sc x; Sc y]]]].

End SampleZ.

(** Two processes for a round trip through the disk: a wrapped model that
    saves, and a fresh model with entries of the same names and sizes,
    not wrapped, that finds the saved file. *)
Module SampleTrip.

Definition saver : @state Sample.Qtypes :=
  @mkState Sample.Qtypes
    (@mkModel Sample.Qtypes
       (@mkNet Sample.Qtypes [("head.w", Sample.weight 5)] [("head.scale", Nd [Sc 7%Q])]
               true true true)
       "sgm" (Some (@mkAdamW Sample.Qtypes [] O)))
    [] [] true [].

Definition loader : @state Sample.Qtypes :=
  @mkState Sample.Qtypes
    (@mkModel Sample.Qtypes
       (@mkNet Sample.Qtypes [("head.w", Sample.weight 0)] [("head.scale", Nd [Sc 0%Q])]
               true true false)
       "sgm" None)
    (files (snd (@save_model Sample.Qtypes 0 3 false saver)))
    [] true [].

(** A disk whose checkpoint for the name ["x"] was written by a model that
    was not wrapped, and one whose checkpoint has no ['model'] entry. *)
Definition bare_disk : @state Sample.Qtypes :=
  @mkState Sample.Qtypes (@blank Sample.Qtypes)
    [("log/x/ckpt/x.pkl",
      @mkCkpt Sample.Qtypes (Some 1%Z) (Some [("head.w", Nd [Sc 50%Q])]) None)]
    [] true [].

Definition hollow_disk : @state Sample.Qtypes :=
  @mkState Sample.Qtypes (@blank Sample.Qtypes)
    [("log/x/ckpt/x.pkl", @mkCkpt Sample.Qtypes (Some 1%Z) None None)]
    [] true [].

(** The state [Model(0)] leaves on the sample disk: a wrapped network. *)
Definition wrapped : @state Sample.Qtypes :=
  snd (@new_Model Sample.Qtypes Sample.torch 0 Sample.disk).

End SampleTrip.

(* ================================================================= *)
(** * Properties *)

Unset Implicit Arguments.

(* ================================================================= *)
(** ** Strings *)

Module PyStrFacts.
Import PyStr.

Lemma prefix_refl_app (p s : string) : prefix p (p ++ s) = true.
Proof.
  induction p as [|c p IH]; simpl.
  - destruct s; reflexivity.
  - destruct (ascii_dec c c) as [_|N]; [exact IH | congruence].
Qed.

Lemma drop_app (p s : string) : drop (String.length p) (p ++ s) = s.
Proof. induction p as [|c p IH]; simpl; auto. Qed.

Lemma strip_prefix_app (p s : string) : strip_prefix p (p ++ s) = s.
Proof. unfold strip_prefix. now rewrite prefix_refl_app, drop_app. Qed.

(** A string without any occurrence of [old] is left as it is. *)
Lemma replace_from_absent (old new s : string) :
  contains old s = false -> replace_from old new 0 s = s.
Proof.
  induction s as [|c s IH]; intros H; [reflexivity|].
  cbn [replace_from]. cbn [contains] in H.
  apply orb_false_iff in H as [Hp Hc].
  rewrite Hp. f_equal. auto.
Qed.

(** Once an occurrence has been found, its remaining characters are dropped. *)
Lemma replace_from_skip (old new p s : string) :
  replace_from old new (String.length p) (p ++ s) = replace_from old new 0 s.
Proof.
  induction p as [|c p IH]; simpl.
  - destruct s; reflexivity.
  - exact IH.
Qed.

(** A leading occurrence of a non-empty [old] is replaced by [new]. *)
Lemma replace_leading (c : ascii) (old new s : string) :
  replace (String c old) new (String c old ++ s)
  = (new ++ replace (String c old) new s)%string.
Proof.
  unfold replace.
  change (String c old ++ s)%string with (String c (old ++ s)).
  cbn [replace_from].
  change (String c (old ++ s)) with (String c old ++ s)%string.
  rewrite prefix_refl_app.
  f_equal.
  change (String.length (String c old) - 1) with (String.length old - 0).
  rewrite Nat.sub_0_r.
  apply replace_from_skip.
Qed.

End PyStrFacts.

(* ================================================================= *)
(** ** Dicts *)

Module PyDictFacts.
Import PyDict.

Section Facts.
Variable V : Type.
Implicit Types (d items : dict V) (k : string) (v : V).
Implicit Types (key : string -> string) (keep : string -> bool).

Lemma get_set d k v k' :
  get (set d k v) k' = if String.eqb k k' then Some v else get d k'.
Proof.
  induction d as [|[k0 v0] d IH]; simpl.
  - reflexivity.
  - destruct (String.eqb k0 k) eqn:E0.
    + apply String.eqb_eq in E0; subst k0. simpl.
      destruct (String.eqb k k'); reflexivity.
    + simpl. destruct (String.eqb k0 k') eqn:E1.
      * apply String.eqb_eq in E1; subst k0.
        rewrite String.eqb_sym, E0. reflexivity.
      * exact IH.
Qed.

Lemma get_fold key keep items : forall acc k',
  get (fold_left
         (fun acc kv => if keep (fst kv) then set acc (key (fst kv)) (snd kv) else acc)
         items acc) k'
  = match last_kept key keep items k' with
    | Some v => Some v
    | None => get acc k'
    end.
Proof.
  induction items as [|[k v] items IH]; intros acc k'; simpl; [reflexivity|].
  rewrite IH.
  destruct (last_kept key keep items k'); [reflexivity|].
  destruct (keep k); simpl; [|reflexivity].
  rewrite get_set. now destruct (String.eqb (key k) k').
Qed.

Lemma get_comprehension key keep items k' :
  get (comprehension key keep items) k' = last_kept key keep items k'.
Proof.
  unfold comprehension. rewrite get_fold.
  now destruct (last_kept key keep items k').
Qed.

(** Two comprehensions that keep the same items and rename the kept ones
    alike build the same dict. *)
Lemma comprehension_ext key1 key2 keep1 keep2 items :
  (forall k, In k (keys items) ->
             keep1 k = keep2 k /\ (keep1 k = true -> key1 k = key2 k)) ->
  comprehension key1 keep1 items = comprehension key2 keep2 items.
Proof.
  unfold comprehension. generalize (@nil (string * V)) as acc.
  induction items as [|[k v] items IH]; intros acc H; simpl; [reflexivity|].
  destruct (H k) as [Hk Hr]; [now left|].
  rewrite <- Hk.
  destruct (keep1 k) eqn:E.
  - rewrite <- (Hr eq_refl). apply IH. intros k0 Hin. apply H. now right.
  - apply IH. intros k0 Hin. apply H. now right.
Qed.

End Facts.
End PyDictFacts.

(* ================================================================= *)
(** ** [convert]: which keys are kept and how they are renamed *)

Section Convert.
Import PyStr PyStrFacts PyDict PyDictFacts.

Lemma convert_key_leading (s : string) :
  convert_key ("module." ++ s) = convert_key s.
Proof. unfold convert_key. now rewrite replace_leading. Qed.

Lemma convert_key_other (c : ascii) (s : string) :
  prefix "module." (String c s) = false ->
  convert_key (String c s) = String c (convert_key s).
Proof.
  intros H. unfold convert_key, replace. cbn [replace_from]. now rewrite H.
Qed.

Lemma convert_key_prefix_only (r : string) :
  contains "module." r = false -> convert_key ("module." ++ r) = r.
Proof.
  intros H. rewrite convert_key_leading.
  unfold convert_key, replace. now apply replace_from_absent.
Qed.

Lemma convert_keep_spec (k : string) :
  convert_keep k
  = contains "module." k
    && forallb (fun x => negb (contains x k)) ["attn_mask"; "HW"].
Proof.
  unfold convert_keep. cbn [forallb].
  now destruct (contains "module." k), (contains "attn_mask" k), (contains "HW" k).
Qed.

Example replace_example :
  PyStr.replace "module." "" "module.a.module.b" = "a.b"
  /\ PyStr.strip_prefix "module." "module.a.module.b" = "a.module.b"
  /\ PyStr.replace "module." "" "attn_module.proj" = "attn_proj".
Proof. repeat split. Qed.

Example convert_example :
  convert [("module.foo.weight", 1%Z); ("bar.attn_mask", 2%Z); ("baz", 3%Z);
           ("module.HW_buf", 4%Z); ("module.foo.weight", 5%Z)]
  = [("foo.weight", 5%Z)].
Proof. reflexivity. Qed.

(** C3, as stated, fails: [convert] does not strip a prefix, it deletes the
    marker wherever it occurs.  On the key ["module.a.module.b"] the code
    answers ["a.b"], prefix stripping answers ["a.module.b"]. *)
Lemma convert_is_not_prefix_stripping :
  convert [("module.a.module.b", 1%Z)]
  <> filterAndStrip_spec "module." ["attn_mask"; "HW"] [("module.a.module.b", 1%Z)].
Proof. vm_compute. intros H. discriminate H. Qed.

(** C3, amended: [convert] keeps exactly the items whose key contains
    ["module."] and neither ["attn_mask"] nor ["HW"]; it renames a kept key by
    deleting every occurrence of ["module."], leftmost first, and of two kept
    items renamed alike the later one stays.  When every kept key carries
    the marker once, as its prefix, this is the prefix-stripping filter; on
    the mapping of the example it yields exactly [{"foo.weight": t1}]. *)
Theorem convert_deletes_every_marker (V : Type) (raw : dict V) :
  (forall k', get (convert raw) k' = last_kept convert_key convert_keep raw k')
  /\ (forall k, convert_keep k
                = contains "module." k && negb (contains "attn_mask" k)
                  && negb (contains "HW" k))
  /\ (convert_key "" = ""
      /\ (forall s, convert_key ("module." ++ s) = convert_key s)
      /\ (forall c s, prefix "module." (String c s) = false ->
                      convert_key (String c s) = String c (convert_key s)))
  /\ ((forall k, In k (keys raw) -> convert_keep k = true ->
                 exists r, k = "module." ++ r /\ contains "module." r = false) ->
      convert raw = filterAndStrip_spec "module." ["attn_mask"; "HW"] raw)
  /\ (forall t1 t2 t3 : V,
         convert [("module.foo.weight", t1); ("bar.attn_mask", t2); ("baz", t3)]
         = [("foo.weight", t1)]).
Proof.
  split; [|split; [|split; [|split]]].
  - intros k'. apply get_comprehension.
  - reflexivity.
  - split; [reflexivity|]. split.
    + apply convert_key_leading.
    + apply convert_key_other.
  - intros H. unfold convert, filterAndStrip_spec.
    apply comprehension_ext. intros k Hin. split.
    + apply convert_keep_spec.
    + intros Hk. destruct (H k Hin Hk) as (r & -> & Hr).
      rewrite convert_key_prefix_only by exact Hr.
      symmetry. apply strip_prefix_app.
  - intros t1 t2 t3. reflexivity.
Qed.

Lemma convert_deletes_every_marker_witness :
  (forall k, In k (keys [("module.foo.weight", 1%Z); ("bar.attn_mask", 2%Z); ("baz", 3%Z)]) ->
             convert_keep k = true ->
             exists r, k = "module." ++ r /\ contains "module." r = false)
  /\ convert [("module.foo.weight", 1%Z); ("bar.attn_mask", 2%Z); ("baz", 3%Z)]
     = filterAndStrip_spec "module." ["attn_mask"; "HW"]
         [("module.foo.weight", 1%Z); ("bar.attn_mask", 2%Z); ("baz", 3%Z)].
Proof.
  assert (Hyp : forall k,
             In k (keys [("module.foo.weight", 1%Z); ("bar.attn_mask", 2%Z); ("baz", 3%Z)]) ->
             convert_keep k = true ->
             exists r, k = "module." ++ r /\ contains "module." r = false).
  { intros k [<-|[<-|[<-|[]]]] Hk.
    - exists "foo.weight". split; reflexivity.
    - discriminate Hk.
    - discriminate Hk. }
  split; [exact Hyp|].
  exact (proj1 (proj2 (proj2 (proj2 (convert_deletes_every_marker Z
           [("module.foo.weight", 1%Z); ("bar.attn_mask", 2%Z); ("baz", 3%Z)])))) Hyp).
Defined.

End Convert.

(* ================================================================= *)
(** ** Tensors: shapes are kept by the operations *)

Section ResFacts.
Context {A B C : Type}.

Lemma mapM_total (f : A -> res B) (P : A -> Prop) (Q : B -> Prop) (l : list A) :
  (forall x, P x -> exists y, f x = Ok y /\ Q y) ->
  Forall P l ->
  exists l', mapM f l = Ok l' /\ Forall Q l' /\ List.length l' = List.length l.
Proof.
  intros Hf HP. induction HP as [|x l Hx Hl IH]; simpl.
  - exists []. repeat split; constructor.
  - destruct (Hf x Hx) as (y & -> & Hy). destruct IH as (l' & -> & Hl' & Hlen).
    simpl. exists (y :: l'). repeat split; [now constructor | simpl; congruence].
Qed.

Lemma zipM_total (f : A -> B -> res C) (P : A -> Prop) (Q : B -> Prop)
      (R : C -> Prop) (la : list A) :
  (forall x y, P x -> Q y -> exists z, f x y = Ok z /\ R z) ->
  forall lb, Forall P la -> Forall Q lb -> List.length la = List.length lb ->
  exists l, zipM f la lb = Ok l /\ Forall R l /\ List.length l = List.length la.
Proof.
  intros Hf. induction la as [|x la IH]; intros [|y lb] Ha Hb Hlen;
    simpl in Hlen; try discriminate.
  - exists []. repeat split; constructor.
  - inversion Ha; subst. inversion Hb; subst.
    destruct (Hf x y) as (z & Hz & Rz); auto.
    destruct (IH lb) as (l & Hl & Rl & Ll); auto.
    exists (z :: l). simpl. rewrite Hz, Hl. simpl.
    repeat split; [now constructor | congruence].
Qed.

End ResFacts.

Section TensorFacts.
Context {A : Type}.
Implicit Types (t a b : tensor A) (l : list (tensor A)) (sh : list nat).

Example flip_example :
  flip 1 (Nd [Nd [Sc 1%Z; Sc 2%Z]; Nd [Sc 3%Z; Sc 4%Z]])
  = Ok (Nd [Nd [Sc 2%Z; Sc 1%Z]; Nd [Sc 4%Z; Sc 3%Z]])
  /\ flip 2 (Nd [Nd [Sc 1%Z; Sc 2%Z]; Nd [Sc 3%Z; Sc 4%Z]]) = Raise IndexError
  /\ cat [Nd [Nd [Sc 1%Z]]; Nd [Nd [Sc 2%Z]]] 1 = Ok (Nd [Nd [Sc 1%Z; Sc 2%Z]])
  /\ cat [Nd [Nd [Sc 1%Z]]; Nd [Nd [Sc 2%Z; Sc 3%Z]]] 0 = Raise RuntimeError.
Proof. repeat split. Qed.

(** Induction on a tensor, with the hypothesis for every element of a
    sequence. *)
Lemma tensor_induction (P : tensor A -> Prop) :
  (forall x, P (Sc x)) ->
  (forall l, Forall P l -> P (Nd l)) ->
  forall t, P t.
Proof.
  intros HSc HNd.
  fix IH 1. intros [x|l].
  - apply HSc.
  - apply HNd. induction l as [|t l IHl]; constructor; [apply IH | exact IHl].
Qed.

Lemma tmap_id (f : A -> A) :
  (forall x, f x = x) -> forall t, tmap f t = t.
Proof.
  intros Hf. induction t as [x|l IH] using tensor_induction; simpl.
  - now rewrite Hf.
  - f_equal. induction IH as [|t l Ht _ IHl]; simpl; [reflexivity|].
    now rewrite Ht, IHl.
Qed.

Lemma shape_eqb_refl sh : shape_eqb sh sh = true.
Proof. induction sh as [|n sh IH]; simpl; [reflexivity|]. now rewrite Nat.eqb_refl. Qed.

Lemma has_shape_Nd n sh l :
  has_shape (n :: sh) (Nd l) = true <->
  List.length l = n /\ Forall (fun t => has_shape sh t = true) l.
Proof.
  simpl. rewrite andb_true_iff, Nat.eqb_eq, forallb_forall, Forall_forall.
  reflexivity.
Qed.

Lemma has_shape_inv n sh t :
  has_shape (n :: sh) t = true ->
  exists l, t = Nd l /\ List.length l = n /\ Forall (fun t => has_shape sh t = true) l.
Proof.
  destruct t as [x|l]; [discriminate|].
  intros H. exists l. split; [reflexivity|]. now apply has_shape_Nd.
Qed.

(** Rectangular tensors of the same sizes have the same [shape]. *)
Lemma has_shape_shape sh : forall a b,
  has_shape sh a = true -> has_shape sh b = true -> shape a = shape b.
Proof.
  induction sh as [|n sh IH]; intros a b Ha Hb.
  - destruct a, b; try discriminate. reflexivity.
  - apply has_shape_inv in Ha as (la & -> & La & Fa).
    apply has_shape_inv in Hb as (lb & -> & Lb & Fb).
    simpl. rewrite La, Lb. f_equal.
    destruct la as [|x la], lb as [|y lb]; simpl in *; try congruence.
    inversion Fa; inversion Fb; subst. now apply IH.
Qed.

(** [flip] keeps the sizes, and succeeds on every axis the tensor has. *)
Lemma flip_has_shape d : forall sh t,
  has_shape sh t = true -> d < List.length sh ->
  exists t', flip d t = Ok t' /\ has_shape sh t' = true.
Proof.
  induction d as [|d IH]; intros [|n sh] t H Hd; simpl in Hd; try lia;
    apply has_shape_inv in H as (l & -> & Hl & Fl).
  - exists (Nd (rev l)). split; [reflexivity|].
    apply has_shape_Nd. rewrite length_rev. split; [exact Hl|].
    now apply Forall_rev.
  - destruct (@mapM_total _ _ (flip d) (fun t => has_shape sh t = true)
                          (fun t => has_shape sh t = true) l)
      as (l' & E & Fl' & Ll');
      [intros x Hx; apply IH; [exact Hx | lia] | exact Fl |].
    exists (Nd l'). simpl. rewrite E. split; [reflexivity|].
    apply has_shape_Nd. split; [congruence | exact Fl'].
Qed.

Lemma flip_S_Nd d l :
  flip (S d) (Nd l) = (l' <- mapM (flip d) l ;; Ok (Nd l'))%res.
Proof. reflexivity. Qed.

Lemma tadd_Nd (add : A -> A -> A) (la lb : list (tensor A)) :
  tadd add (Nd la) (Nd lb) = (l <- zipM (tadd add) la lb ;; Ok (Nd l))%res.
Proof.
  simpl. f_equal.
  revert lb. induction la as [|x la IH]; intros [|y lb]; try reflexivity.
  now rewrite IH.
Qed.

(** Tensors of one shape can be added, and the sum has that shape. *)
Lemma tadd_has_shape (add : A -> A -> A) sh : forall a b,
  has_shape sh a = true -> has_shape sh b = true ->
  exists c, tadd add a b = Ok c /\ has_shape sh c = true.
Proof.
  induction sh as [|n sh IH]; intros a b Ha Hb.
  - destruct a as [x|], b as [y|]; try discriminate.
    exists (Sc (add x y)). split; reflexivity.
  - apply has_shape_inv in Ha as (la & -> & La & Fa).
    apply has_shape_inv in Hb as (lb & -> & Lb & Fb).
    destruct (@zipM_total _ _ _ (tadd add) (fun t => has_shape sh t = true)
                (fun t => has_shape sh t = true) (fun t => has_shape sh t = true)
                la IH lb Fa Fb) as (l & E & Fl & Ll); [congruence|].
    exists (Nd l). rewrite tadd_Nd, E. split; [reflexivity|].
    apply has_shape_Nd. split; [congruence | exact Fl].
Qed.

Lemma tmap_has_shape (f : A -> A) sh : forall t,
  has_shape sh t = true -> has_shape sh (tmap f t) = true.
Proof.
  induction sh as [|n sh IH]; intros t H.
  - destruct t; [reflexivity | discriminate].
  - apply has_shape_inv in H as (l & -> & Hl & Fl). simpl.
    rewrite length_map, Hl, Nat.eqb_refl. simpl.
    apply forallb_forall. intros y Hy. apply in_map_iff in Hy as (x & <- & Hx).
    apply IH. rewrite Forall_forall in Fl. now apply Fl.
Qed.

(** Concatenation along the batch axis of two batches of samples of one
    shape. *)
Lemma cat_batch n m sh (la lb : list (tensor A)) :
  has_shape (n :: sh) (Nd la) = true -> has_shape (m :: sh) (Nd lb) = true ->
  cat [Nd la; Nd lb] 0 = Ok (Nd (la ++ lb))
  /\ has_shape (n + m :: sh) (Nd (la ++ lb)) = true.
Proof.
  intros Ha Hb.
  apply has_shape_Nd in Ha as [La Fa]. apply has_shape_Nd in Hb as [Lb Fb].
  split.
  - unfold cat. cbn [fold_left res_bind cat2].
    replace (same_sizes la lb) with true; [reflexivity|].
    destruct la as [|x la], lb as [|y lb]; try reflexivity.
    inversion Fa; inversion Fb; subst. simpl.
    rewrite (has_shape_shape sh x y) by assumption.
    symmetry. apply shape_eqb_refl.
  - apply has_shape_Nd. rewrite length_app. split; [congruence|].
    apply Forall_app. now split.
Qed.

End TensorFacts.

(* ================================================================= *)
(** ** Reasoning about effectful code *)

Section MonadFacts.
Context {S : Type}.

Lemma keeps_ret {A X : Type} (f : S -> X) (a : A) : keeps f (ret a).
Proof. intros s. reflexivity. Qed.

Lemma keeps_lift {A X : Type} (f : S -> X) (r : res A) : keeps f (lift r).
Proof. intros s. reflexivity. Qed.

Lemma keeps_gets {A X : Type} (f : S -> X) (g : S -> A) : keeps f (gets g).
Proof. intros s. reflexivity. Qed.

Lemma keeps_modify {X : Type} (f : S -> X) (g : S -> S) :
  (forall s, f (g s) = f s) -> keeps f (modify g).
Proof. intros H s. apply H. Qed.

Lemma keeps_bind {A B X : Type} (f : S -> X) (m : SE S A) (k : A -> SE S B) :
  keeps f m -> (forall a, keeps f (k a)) -> keeps f (bind m k).
Proof.
  intros Hm Hk s. unfold bind. specialize (Hm s).
  destruct (m s) as [[a|e] s']; simpl in *.
  - now rewrite Hk.
  - exact Hm.
Qed.

Lemma bind_Ok {A B : Type} (m : SE S A) (k : A -> SE S B) s a s' :
  m s = (Ok a, s') -> bind m k s = k a s'.
Proof. intros H. unfold bind. now rewrite H. Qed.

Lemma bind_Raise {A B : Type} (m : SE S A) (k : A -> SE S B) s e s' :
  m s = (Raise e, s') -> bind m k s = (Raise e, s').
Proof. intros H. unfold bind. now rewrite H. Qed.

Lemma bind_fst_Ok {A B : Type} (m : SE S A) (k : A -> SE S B) s a :
  fst (m s) = Ok a -> bind m k s = k a (snd (m s)).
Proof. intros H. unfold bind. destruct (m s) as [r s']. simpl in *. now subst r. Qed.

Lemma bind_modify {B : Type} (g : S -> S) (k : unit -> SE S B) s :
  bind (modify g) k s = k tt (g s).
Proof. reflexivity. Qed.

Lemma bind_gets {A B : Type} (g : S -> A) (k : A -> SE S B) s :
  bind (gets g) k s = k (g s) s.
Proof. reflexivity. Qed.

Lemma hoare_bind {A B : Type} (P : S -> Prop) (R : A -> S -> Prop)
      (Q : B -> S -> Prop) (m : SE S A) (k : A -> SE S B) :
  hoare P m R -> (forall a, hoare (R a) (k a) Q) -> hoare P (bind m k) Q.
Proof.
  intros Hm Hk s Hs. unfold bind. specialize (Hm s Hs).
  destruct (m s) as [[a|e] s']; [|exact I].
  now apply Hk.
Qed.

Lemma hoare_weaken {A : Type} (P P' : S -> Prop) (Q : A -> S -> Prop) (m : SE S A) :
  (forall s, P s -> P' s) -> hoare P' m Q -> hoare P m Q.
Proof. intros HP H s Hs. apply H. now apply HP. Qed.

Lemma hoare_trivial {A : Type} (P : S -> Prop) (m : SE S A) :
  hoare P m (fun _ _ => True).
Proof. intros s _. now destruct (m s) as [[a|e] s']. Qed.

Lemma hoare_modify (P : S -> Prop) (Q : unit -> S -> Prop) (g : S -> S) :
  (forall s, P s -> Q tt (g s)) -> hoare P (modify g) Q.
Proof. intros H s Hs. now apply H. Qed.

(** A part of the state that [m] keeps carries its properties over. *)
Lemma hoare_keeps {A X : Type} (f : S -> X) (Inv : X -> Prop) (m : SE S A) :
  keeps f m -> hoare (fun s => Inv (f s)) m (fun _ s => Inv (f s)).
Proof.
  intros Hm s Hs. specialize (Hm s).
  destruct (m s) as [[a|e] s']; [|exact I]. simpl in Hm. now rewrite Hm.
Qed.

End MonadFacts.

(* ================================================================= *)
(** ** No method changes a [requires_grad] flag *)

Section FlagFacts.
Context {TT : TorchTypes} {T : Torch}.
Local Open Scope py_scope.

Lemma keeps_no_grad {A X : Type} (f : state -> X) (body : M A) :
  (forall b s, f (with_grad_enabled b s) = f s) ->
  keeps f body -> keeps f (no_grad body).
Proof.
  intros Hf Hb s. unfold no_grad. specialize (Hb (with_grad_enabled false s)).
  destruct (body (with_grad_enabled false s)) as [r s']. simpl in *.
  now rewrite Hf, Hb, Hf.
Qed.

Lemma fl_with_grad_enabled b s : fl (with_grad_enabled b s) = fl s.
Proof. reflexivity. Qed.

Lemma flags_map (g : string * Param -> string * Param) (n : Net) :
  (forall kp, fst (g kp) = fst kp /\ requires_grad (snd (g kp)) = requires_grad (snd kp)) ->
  flags (with_params (map g) n) = flags n.
Proof.
  intros Hg. unfold flags, with_params. simpl. rewrite map_map.
  apply map_ext. intros kp. destruct (Hg kp) as [-> ->]. reflexivity.
Qed.

Lemma keeps_fl_print msg : keeps fl (print msg).
Proof. intros s. reflexivity. Qed.

Lemma keeps_fl_torch_load path : keeps fl (torch_load path).
Proof. intros s. unfold torch_load. now destruct (PyDict.get (files s) path). Qed.

Lemma keeps_fl_torch_save c path : keeps fl (torch_save c path).
Proof. intros s. reflexivity. Qed.

Lemma keeps_fl_makedirs path : keeps fl (makedirs_exist_ok path).
Proof. intros s. reflexivity. Qed.

Lemma keeps_fl_getitem_model c : keeps fl (getitem_model c).
Proof. intros s. unfold getitem_model. now destruct (ck_model c). Qed.

Lemma keeps_fl_load_state_dict key_of sd : keeps fl (load_state_dict key_of sd).
Proof.
  intros s. unfold load_state_dict, fl, flags. simpl.
  rewrite map_map. reflexivity.
Qed.

Lemma keeps_fl_train : keeps fl train.
Proof. intros s. reflexivity. Qed.

Lemma keeps_fl_eval : keeps fl eval.
Proof. intros s. reflexivity. Qed.

Lemma keeps_fl_device : keeps fl device.
Proof. intros s. reflexivity. Qed.

Lemma keeps_fl_get_optimG : keeps fl get_optimG.
Proof. intros s. unfold get_optimG. now destruct (optimG (self s)). Qed.

Lemma keeps_fl_call_net imgs timestep : keeps fl (call_net imgs timestep).
Proof. intros s. reflexivity. Qed.

Lemma keeps_fl_call_calculate_flow imgs timestep :
  keeps fl (call_calculate_flow imgs timestep).
Proof.
  intros s. unfold call_calculate_flow. now destruct (ddp (net (self s))).
Qed.

Lemma keeps_fl_call_refine imgs flow mask :
  keeps fl (call_coraseWarp_and_Refine imgs flow mask).
Proof.
  intros s. unfold call_coraseWarp_and_Refine. now destruct (ddp (net (self s))).
Qed.

Create HintDb keeps_db.

#[local] Hint Resolve keeps_ret keeps_lift keeps_gets keeps_fl_print
  keeps_fl_torch_load keeps_fl_torch_save keeps_fl_makedirs keeps_fl_getitem_model
  keeps_fl_load_state_dict keeps_fl_train keeps_fl_eval keeps_fl_device
  keeps_fl_get_optimG keeps_fl_call_net keeps_fl_call_calculate_flow
  keeps_fl_call_refine : keeps_db.

(** Walk through a sequence of statements, one [bind] at a time. *)
Ltac keeps_walk :=
  cbv zeta;
  repeat first
    [ solve [auto with keeps_db]
    | apply keeps_bind; [| intros ?]
    | apply keeps_no_grad; [exact fl_with_grad_enabled |]
    | match goal with
      | |- keeps _ (if ?b then _ else _) => destruct b
      end ].

Lemma keeps_fl_set_lr lr : keeps fl (set_lr lr).
Proof.
  unfold set_lr. keeps_walk.
Qed.

Lemma keeps_fl_zero_grad : keeps fl zero_grad.
Proof.
  unfold zero_grad. keeps_walk.
  apply keeps_modify. intros s. unfold fl. simpl. apply flags_map.
    intros [k p]. simpl. now destruct (in_groups a k).
Qed.

Lemma keeps_fl_backward imgs timestep gt loss :
  keeps fl (backward imgs timestep gt loss).
Proof.
  unfold backward. keeps_walk.
  apply keeps_modify. intros s. unfold fl. simpl. apply flags_map.
    intros [k p]. simpl. now destruct (requires_grad p) eqn:E.
Qed.

Lemma flags_step_group st g (n : Net) :
  flags (with_params (step_group st g) n) = flags n.
Proof.
  unfold step_group. apply flags_map. intros [k p]. simpl.
  destruct (existsb (String.eqb k) (pg_params g)); [|now split].
  now destruct (grad p).
Qed.

Lemma flags_step_groups st gs : forall (n : Net),
  flags (with_params (fun ps => fold_left (fun acc g => step_group st g acc) gs ps) n)
  = flags n.
Proof.
  induction gs as [|g gs IH]; intros n; [reflexivity|].
  simpl.
  specialize (IH (with_params (step_group st g) n)).
  rewrite flags_step_group in IH. rewrite <- IH. reflexivity.
Qed.

Lemma keeps_fl_step : keeps fl step.
Proof.
  unfold step. keeps_walk.
  apply keeps_modify. intros s. unfold fl. simpl. apply flags_step_groups.
Qed.

#[local] Hint Resolve keeps_fl_set_lr keeps_fl_zero_grad keeps_fl_backward
  keeps_fl_step : keeps_db.

Lemma keeps_fl_load_model name_arg rank : keeps fl (load_model name_arg rank).
Proof. unfold load_model. keeps_walk. Qed.

Lemma keeps_fl_snapshot epoch : keeps fl (snapshot epoch).
Proof. unfold snapshot. keeps_walk. Qed.

#[local] Hint Resolve keeps_fl_snapshot : keeps_db.

Lemma keeps_fl_save_model rank epoch best : keeps fl (save_model rank epoch best).
Proof. unfold save_model. keeps_walk. Qed.

Lemma keeps_fl_hr_infer down_scale timestep imgs :
  keeps fl (hr_infer down_scale timestep imgs).
Proof. unfold hr_infer. keeps_walk. Qed.

#[local] Hint Resolve keeps_fl_hr_infer : keeps_db.

Lemma keeps_fl_hr_inference img0 img1 TTA down_scale timestep fast_TTA :
  keeps fl (hr_inference img0 img1 TTA down_scale timestep fast_TTA).
Proof. unfold hr_inference. keeps_walk. Qed.

Lemma keeps_fl_inference img0 img1 TTA timestep fast_TTA :
  keeps fl (inference img0 img1 TTA timestep fast_TTA).
Proof. unfold inference. keeps_walk. Qed.

Lemma keeps_fl_update imgs gt learning_rate timestep training :
  keeps fl (update imgs gt learning_rate timestep training).
Proof. unfold update. keeps_walk. Qed.

(** Whatever the client calls, the flags stay. *)
Lemma fl_run c s : fl (run c s) = fl s.
Proof.
  destruct c; simpl.
  - apply keeps_fl_train.
  - apply keeps_fl_eval.
  - apply keeps_fl_device.
  - apply keeps_fl_load_model.
  - apply keeps_fl_save_model.
  - apply keeps_fl_hr_inference.
  - apply keeps_fl_inference.
  - apply keeps_fl_update.
Qed.

Lemma fl_run_all cs : forall s, fl (run_all cs s) = fl s.
Proof.
  induction cs as [|c cs IH]; intros s; [reflexivity|].
  unfold run_all in *. simpl. now rewrite IH, fl_run.
Qed.

End FlagFacts.

(* ================================================================= *)
(** ** Frozen branches *)

Section Frozen.
Context {TT : TorchTypes} {T : Torch}.
Local Open Scope py_scope.

Lemma frozen_among_flags bs (n : Net) :
  frozen_among bs n <-> frozen_flags bs (flags n).
Proof.
  unfold frozen_among, frozen_flags, flags. split.
  - intros H k b Hin Hb. apply in_map_iff in Hin as ([k' p] & E & Hin).
    simpl in E. injection E as Ek Ep. subst k b. eapply H; eauto.
  - intros H k p Hin Hb. apply (H k); [|exact Hb].
    apply in_map_iff. exists (k, p). split; [reflexivity | exact Hin].
Qed.

(** Code that keeps the flags keeps the branches frozen. *)
Lemma hoare_frozen_keeps {A : Type} bs (m : M A) :
  keeps fl m ->
  hoare (fun s => frozen_among bs (net (self s))) m
        (fun _ s => frozen_among bs (net (self s))).
Proof.
  intros Hm.
  apply hoare_weaken with (P' := fun s => frozen_flags bs (fl s)).
  - intros s Hs. now apply frozen_among_flags.
  - intros s Hs. pose proof (@hoare_keeps _ _ _ fl (frozen_flags bs) m Hm s Hs) as H.
    destruct (m s) as [[a|e] s']; [|exact I].
    now apply frozen_among_flags.
Qed.

(** The loop [for param in self.net.<b>.parameters(): param.requires_grad =
    False] freezes the branch [b] and thaws nothing. *)
Lemma hoare_set_requires_grad_false bs b :
  hoare (fun s => frozen_among bs (net (self s)))
        (set_requires_grad b false)
        (fun _ s => frozen_among (bs ++ [b]) (net (self s))).
Proof.
  apply hoare_modify. intros s Hs k p Hin Hk. simpl in Hin.
  apply in_map_iff in Hin as ([k0 p0] & E & Hin). simpl in E.
  destruct (in_branch b k0) eqn:Eb.
  - injection E as Ek Ep. subst k p. reflexivity.
  - injection E as Ek Ep. subst k p.
    apply (Hs k0 p0 Hin).
    rewrite existsb_app in Hk. simpl in Hk. rewrite Eb in Hk.
    now rewrite !orb_false_r in Hk.
Qed.

Lemma init_freezes (local_rank : Z) :
  hoare (fun _ => True) (__init__ local_rank) (fun _ s => frozen (net (self s))).
Proof.
  unfold __init__.
  do 7 (eapply hoare_bind; [apply hoare_trivial | intros ?]).
  eapply hoare_bind.
  { eapply hoare_weaken; [|apply (hoare_set_requires_grad_false [] "gmflow")].
    intros s ? k p ? Hk. discriminate Hk. }
  intros ?.
  eapply hoare_bind; [apply hoare_frozen_keeps, keeps_fl_print | intros ?].
  eapply hoare_bind; [apply hoare_frozen_keeps, keeps_fl_load_model | intros ?].
  eapply hoare_bind; [apply hoare_frozen_keeps, keeps_fl_print | intros ?].
  eapply hoare_bind; [apply hoare_set_requires_grad_false | intros ?].
  eapply hoare_bind; [apply hoare_set_requires_grad_false | intros ?].
  eapply hoare_bind; [apply hoare_set_requires_grad_false | intros ?].
  eapply hoare_bind.
  { apply hoare_frozen_keeps. apply keeps_modify. reflexivity. }
  intros ?. apply hoare_frozen_keeps.
  destruct (negb (local_rank =? -1)%Z).
  - apply keeps_modify. reflexivity.
  - apply keeps_ret.
Qed.

(** C2: after [Model(local_rank)] has returned, every parameter of the
    branches [gmflow], [feature_bone], [block] and [unet] has
    [requires_grad = False], and it stays so after [load_model] and after any
    sequence of calls on the object, returned or raised: no method changes
    a flag. *)
Theorem frozen_for_life (local_rank : Z) (s s1 : state) (m : Model) :
  new_Model local_rank s = (Ok m, s1) ->
  frozen (net m)
  /\ (forall name_arg rank,
         frozen (net (self (snd (load_model name_arg rank s1)))))
  /\ (forall cs, frozen (net (self (run_all cs s1)))
                 /\ flags (net (self (run_all cs s1))) = flags (net m)).
Proof.
  intros H. unfold new_Model in H.
  pose proof (@init_freezes local_rank (with_self (fun _ => blank) s) I) as Hi.
  destruct (__init__ local_rank (with_self (fun _ => blank) s)) as [[a|e] s'];
    [|discriminate].
  injection H as <- <-.
  split; [exact Hi|]. split.
  - intros name_arg rank. apply frozen_among_flags.
    change (flags (net (self (snd (load_model name_arg rank s')))))
      with (fl (snd (load_model name_arg rank s'))).
    rewrite keeps_fl_load_model. now apply frozen_among_flags.
  - intros cs. pose proof (fl_run_all cs s') as E. unfold fl in E. split.
    + apply frozen_among_flags. rewrite E. now apply frozen_among_flags.
    + exact E.
Qed.

End Frozen.

(* ================================================================= *)
(** ** Paths and directories *)

Section PathFacts.
Context {TT : TorchTypes} {T : Torch}.

Lemma append_inj_l (p a b : string) : (p ++ a = p ++ b)%string -> a = b.
Proof.
  induction p as [|c p IH]; simpl; intros H; [exact H|].
  injection H as H. auto.
Qed.

Lemma append_assoc (a b c : string) : ((a ++ b) ++ c = a ++ (b ++ c))%string.
Proof. induction a as [|x a IH]; simpl; [reflexivity | now rewrite IH]. Qed.

Lemma append_not_empty (a : string) (c : ascii) (b : string) :
  (a ++ String c b)%string <> EmptyString.
Proof. destruct a; discriminate. Qed.

(** The two checkpoint paths of a model differ, whatever its name. *)
Lemma ckpt_paths_differ (nm : string) : ckpt_path nm <> ckpt_best_path nm.
Proof.
  unfold ckpt_path, ckpt_best_path. intros H.
  apply append_inj_l, append_inj_l, append_inj_l, append_inj_l in H.
  discriminate H.
Qed.

Example path_prefixes_example :
  path_prefixes "" "log/sgm/ckpt" = ["log"; "log/sgm"; "log/sgm/ckpt"].
Proof. reflexivity. Qed.

(** The path itself is the last of its prefixes. *)
Lemma path_prefixes_full (rest : string) : forall done,
  (done ++ rest)%string <> EmptyString ->
  In (done ++ rest)%string (path_prefixes done rest).
Proof.
  induction rest as [|c rest IH]; intros done H; simpl.
  - replace (done ++ "")%string with done in *
      by (clear; induction done as [|x d IHd]; simpl; congruence).
    destruct done; [congruence | now left].
  - replace (done ++ String c rest)%string
      with ((done ++ String c EmptyString) ++ rest)%string
      by (now rewrite append_assoc).
    assert (Hne : ((done ++ String c EmptyString) ++ rest)%string <> EmptyString).
    { rewrite append_assoc. apply append_not_empty. }
    destruct (Ascii.eqb c "/") eqn:E.
    + apply Ascii.eqb_eq in E. subst c.
      apply in_or_app. right. now apply IH.
    + now apply IH.
Qed.

Lemma add_dir_incl ds d x : In x ds -> In x (add_dir ds d).
Proof.
  unfold add_dir. destruct (existsb (String.eqb d) ds); [auto|].
  intros H. apply in_or_app. now left.
Qed.

Lemma add_dir_in ds d : In d (add_dir ds d).
Proof.
  unfold add_dir. destruct (existsb (String.eqb d) ds) eqn:E.
  - apply existsb_exists in E as (x & Hx & Ex).
    apply String.eqb_eq in Ex. now subst x.
  - apply in_or_app. right. now left.
Qed.

Lemma add_dir_present ds d : In d ds -> add_dir ds d = ds.
Proof.
  intros H. unfold add_dir.
  replace (existsb (String.eqb d) ds) with true; [reflexivity|].
  symmetry. apply existsb_exists. exists d. split; [exact H | apply String.eqb_refl].
Qed.

Lemma makedirs_incl l : forall ds x, In x ds -> In x (fold_left add_dir l ds).
Proof.
  induction l as [|d l IH]; intros ds x H; simpl; [exact H|].
  apply IH. now apply add_dir_incl.
Qed.

Lemma makedirs_creates l : forall ds d, In d l -> In d (fold_left add_dir l ds).
Proof.
  induction l as [|d0 l IH]; intros ds d H; simpl; [contradiction|].
  destruct H as [->|H].
  - apply makedirs_incl, add_dir_in.
  - now apply IH.
Qed.

Lemma makedirs_present l : forall ds,
  (forall d, In d l -> In d ds) -> fold_left add_dir l ds = ds.
Proof.
  induction l as [|d0 l IH]; intros ds H; simpl; [reflexivity|].
  rewrite add_dir_present by (apply H; now left).
  apply IH. intros d Hd. apply H. now right.
Qed.

(** [os.makedirs(path, exist_ok=True)] is idempotent. *)
Lemma makedirs_idempotent l ds :
  fold_left add_dir l (fold_left add_dir l ds) = fold_left add_dir l ds.
Proof. apply makedirs_present. intros d Hd. now apply makedirs_creates. Qed.

End PathFacts.

(* ================================================================= *)
(** ** [save_model] *)

Section SaveModel.
Context {TT : TorchTypes} {T : Torch}.
Import PyDict PyDictFacts.

(** C8: with a rank other than 0, [save_model] changes nothing; with rank 0
    it makes the checkpoint directory (a second call makes no further
    directory), writes the record [{epoch, model state, optimizer state}] to
    the primary path, and writes the same record to the [_best] path, another
    file of the same directory, exactly when [best] holds; nothing else on
    disk and nothing of the object changes. *)
Theorem save_model_writes (s : state) (epoch : Z) (best : bool) :
  (forall rank, rank <> 0%Z -> save_model rank epoch best s = (Ok tt, s))
  /\ (forall o, optimG (self s) = Some o ->
      let nm := name (self s) in
      let c := saved_record s epoch o in
      let s' := snd (save_model 0 epoch best s) in
      fst (save_model 0 epoch best s) = Ok tt
      /\ In (ckpt_dir nm) (dirs s')
      /\ (forall d, In d (dirs s) -> In d (dirs s'))
      /\ dirs (snd (save_model 0 epoch best s')) = dirs s'
      /\ get (files s') (ckpt_path nm) = Some c
      /\ get (files s') (ckpt_best_path nm)
         = (if best then Some c else get (files s) (ckpt_best_path nm))
      /\ ckpt_path nm <> ckpt_best_path nm
      /\ ckpt_path nm = (ckpt_dir nm ++ "/" ++ nm ++ ".pkl")%string
      /\ ckpt_best_path nm = (ckpt_dir nm ++ "/" ++ nm ++ "_best.pkl")%string
      /\ (forall path, path <> ckpt_path nm -> path <> ckpt_best_path nm ->
                       get (files s') path = get (files s) path)
      /\ self s' = self s /\ trace s' = trace s /\ grad_enabled s' = grad_enabled s).
Proof.
  split.
  - intros rank Hr. unfold save_model.
    apply Z.eqb_neq in Hr. now rewrite Hr.
  - intros o Ho nm c s'.
    assert (E : save_model 0 epoch best s
                = (Ok tt,
                   with_files (fun fs => if best
                                         then set (set fs (ckpt_path nm) c)
                                                  (ckpt_best_path nm) c
                                         else set fs (ckpt_path nm) c)
                     (with_dirs (fun ds => fold_left add_dir
                                             (path_prefixes "" (ckpt_dir nm)) ds) s))).
    { unfold save_model, snapshot, bind, gets, get_optimG, makedirs_exist_ok,
        torch_save, modify, ret. simpl. rewrite Ho.
      destruct best; simpl; rewrite ?Ho; reflexivity. }
    assert (Hne : ckpt_path nm <> ckpt_best_path nm) by apply ckpt_paths_differ.
    subst s'. rewrite E.
    unfold with_files, with_dirs. cbn [fst snd self files dirs trace grad_enabled].
    split; [reflexivity|].
    split.
    { apply makedirs_creates.
      apply (path_prefixes_full (ckpt_dir nm) ""). discriminate. }
    split; [intros d Hd; now apply makedirs_incl|].
    split.
    { unfold save_model, snapshot, bind, gets, get_optimG, makedirs_exist_ok,
        torch_save, modify, ret. simpl. rewrite Ho.
      destruct best; simpl; rewrite ?Ho; simpl;
        apply (makedirs_idempotent (path_prefixes "" (ckpt_dir nm))). }
    split.
    { destruct best; rewrite ?get_set.
      - apply String.eqb_neq in Hne. rewrite String.eqb_sym, Hne.
        now rewrite String.eqb_refl.
      - now rewrite String.eqb_refl. }
    split.
    { destruct best; rewrite ?get_set.
      - now rewrite String.eqb_refl.
      - apply String.eqb_neq in Hne. now rewrite Hne. }
    split; [exact Hne|].
    split; [unfold ckpt_path, ckpt_dir; now rewrite !append_assoc|].
    split; [unfold ckpt_best_path, ckpt_dir; now rewrite !append_assoc|].
    split; [|repeat split].
    intros path H1 H2. apply not_eq_sym in H1, H2.
    apply String.eqb_neq in H1, H2.
    destruct best; rewrite ?get_set, ?H1, ?H2; reflexivity.
Qed.

End SaveModel.

(* ================================================================= *)
(** ** Construction without its checkpoints *)

Section MissingCheckpoint.
Context {TT : TorchTypes} {T : Torch}.
Import PyDict.

Lemma torch_load_found path c s :
  get (files s) path = Some c -> torch_load path s = (Ok c, s).
Proof. intros H. unfold torch_load. now rewrite H. Qed.

Lemma torch_load_missing path s :
  get (files s) path = None -> torch_load path s = (Raise (FileNotFoundError path), s).
Proof. intros H. unfold torch_load. now rewrite H. Qed.

Lemma getitem_model_found c raw s :
  ck_model c = Some raw -> getitem_model c s = (Ok raw, s).
Proof. intros H. unfold getitem_model. now rewrite H. Qed.

Lemma load_state_dict_fits key_of sd s :
  any_size_mismatch key_of sd (net (self s)) = false ->
  fst (load_state_dict key_of sd s) = Ok tt.
Proof. intros H. unfold load_state_dict. now rewrite H. Qed.

(** C9: when the GMFlow checkpoint is not on disk, [Model(local_rank)]
    raises [FileNotFoundError], an [IOError]; when it is there and loads,
    and the local-branch checkpoint is not on disk, a process of rank 0 or
    -1 raises [FileNotFoundError] for that path.  In both cases no object
    is returned and nothing is written to disk. *)
Theorem missing_checkpoint_is_fatal (local_rank : Z) (s : state) :
  (get (files s) gmflow_path = None ->
   exists s', new_Model local_rank s = (Raise (FileNotFoundError gmflow_path), s')
              /\ is_IOError (FileNotFoundError gmflow_path) = true
              /\ files s' = files s)
  /\ (forall c raw,
         get (files s) gmflow_path = Some c ->
         ck_model c = Some raw ->
         any_size_mismatch (sub_key "gmflow")
           (comprehension (fun k => k)
                          (mem (sub_state_dict "gmflow" MODEL_CONFIG_net)) raw)
           MODEL_CONFIG_net = false ->
         (local_rank <= 0)%Z ->
         get (files s) (ckpt_path "ours-local") = None ->
         exists s',
           new_Model local_rank s
           = (Raise (FileNotFoundError (ckpt_path "ours-local")), s')
           /\ is_IOError (FileNotFoundError (ckpt_path "ours-local")) = true
           /\ files s' = files s).
Proof.
  split.
  - intros H. unfold new_Model, __init__.
    rewrite bind_modify. unfold device at 1. rewrite bind_modify.
    erewrite bind_Raise; cycle 1.
    + apply torch_load_missing. exact H.
    + eexists. split; [reflexivity|]. split; reflexivity.
  - intros c raw Hc Hraw Hsz Hrank Hlocal.
    unfold new_Model, __init__.
    rewrite bind_modify. unfold device at 1. rewrite bind_modify.
    erewrite bind_Ok; [|apply torch_load_found; exact Hc].
    unfold print at 1. rewrite bind_modify, bind_gets.
    erewrite bind_Ok; [|apply getitem_model_found; exact Hraw].
    erewrite bind_fst_Ok; [|apply load_state_dict_fits; exact Hsz].
    unfold set_requires_grad at 1. rewrite bind_modify.
    unfold print at 1. rewrite bind_modify.
    erewrite bind_Raise; cycle 1.
    + unfold load_model. apply Z.leb_le in Hrank. rewrite Hrank.
      rewrite bind_gets. unfold print at 1. rewrite bind_modify.
      apply bind_Raise, torch_load_missing. exact Hlocal.
    + eexists. split; [reflexivity|]. split; reflexivity.
Qed.

End MissingCheckpoint.

(* ================================================================= *)
(** ** [update] *)

Section Update.
Context {TT : TorchTypes} {T : Torch}.
Local Open Scope py_scope.

Lemma total_loss_nil pred gt : total_loss pred [] gt = mean (LapLoss pred gt).
Proof. reflexivity. Qed.

Lemma total_loss_snoc pred merged merge gt :
  total_loss pred (merged ++ [merge]) gt
  = fadd (total_loss pred merged gt) (fmul (mean (LapLoss merge gt)) f_0_5).
Proof. unfold total_loss. now rewrite fold_left_app. Qed.

(** C4: [update(imgs, gt, learning_rate, timestep, training=True)] returns
    the prediction and the loss; the loss is the mean Laplacian loss of the
    prediction plus, for each merged prediction in turn, 0.5 times its mean
    Laplacian loss, all against [gt]; and after the forward pass the class
    zeroes the gradients, backpropagates that loss and takes one optimizer
    step, in this order and nothing else. *)
Theorem update_training_step (s : state) (imgs gt : Tensor)
        (learning_rate timestep : num) (o : AdamW) :
  optimG (self s) = Some o ->
  let s0 := prepared learning_rate true s in
  let out := forward (net (self s0)) imgs timestep in
  let pred := out_pred out in
  let loss := total_loss pred (out_merged out) gt in
  update imgs gt learning_rate timestep true s
  = (Ok (pred, LossTensor loss),
     snd ((zero_grad ;; backward imgs timestep gt loss ;; step)
            (snd (call_net imgs timestep s0))))
  /\ fst ((zero_grad ;; backward imgs timestep gt loss ;; step)
            (snd (call_net imgs timestep s0))) = Ok tt
  /\ trace (snd (update imgs gt learning_rate timestep true s))
     = (trace s ++ [EvNet Forward (grad_enabled s); EvZeroGrad;
                    EvBackward loss; EvStep])%list
  /\ total_loss pred [] gt = mean (LapLoss pred gt)
  /\ (forall merged merge,
         total_loss pred (merged ++ [merge]) gt
         = fadd (total_loss pred merged gt)
                (fmul (mean (LapLoss merge gt)) f_0_5)).
Proof.
  intros Ho s0 out pred loss.
  assert (E : update imgs gt learning_rate timestep true s
              = (Ok (pred, LossTensor loss),
                 snd ((zero_grad ;; backward imgs timestep gt loss ;; step)
                        (snd (call_net imgs timestep s0))))).
  { subst loss pred out s0.
    unfold prepared, update, set_lr, train, zero_grad, backward, step, call_net,
      bind, get_optimG, modify, gets, ret.
    cbn [fst snd self optimG with_self with_net log]. rewrite Ho.
    cbn [fst snd self optimG with_self with_net log]. reflexivity. }
  split; [exact E|]. split.
  { subst loss pred out s0.
    unfold prepared, set_lr, train, zero_grad, backward, step, call_net,
      bind, get_optimG, modify, gets, ret.
    cbn [fst snd self optimG with_self with_net log]. rewrite Ho.
    cbn [fst snd self optimG with_self with_net log]. reflexivity. }
  split.
  { rewrite E. subst loss pred out s0.
    unfold prepared, set_lr, train, zero_grad, backward, step, call_net,
      bind, get_optimG, modify, gets, ret.
    cbn [fst snd self optimG with_self with_net log]. rewrite Ho.
    cbn [fst snd self optimG with_self with_net log trace grad_enabled].
    rewrite <- !app_assoc. reflexivity. }
  split; [apply total_loss_nil | intros; apply total_loss_snoc].
Qed.

(** C5: [update(imgs, gt, learning_rate, timestep, training=False)] runs the
    forward pass with gradients disabled and returns the prediction and the
    integer 0; no parameter (value, flag or gradient) and no buffer of the
    network has changed, nor anything on disk; the network is left in
    evaluation mode. *)
Theorem update_eval_is_read_only (s : state) (imgs gt : Tensor)
        (learning_rate timestep : num) (o : AdamW) :
  optimG (self s) = Some o ->
  let s' := snd (update imgs gt learning_rate timestep false s) in
  fst (update imgs gt learning_rate timestep false s)
  = Ok (out_pred (forward (net (self (prepared learning_rate false s))) imgs timestep),
        LossInt 0)
  /\ named_parameters (net (self s')) = named_parameters (net (self s))
  /\ named_buffers (net (self s')) = named_buffers (net (self s))
  /\ training (net (self s')) = false
  /\ trace s' = (trace s ++ [EvNet Forward false])%list
  /\ grad_enabled s' = grad_enabled s
  /\ files s' = files s /\ dirs s' = dirs s.
Proof.
  intros Ho s'. subst s'.
  unfold prepared, update, set_lr, eval, no_grad, call_net,
    bind, get_optimG, modify, gets, ret.
  cbn [fst snd self optimG with_self with_net log with_grad_enabled]. rewrite Ho.
  cbn [fst snd self optimG with_self with_net log with_grad_enabled
       net named_parameters named_buffers training trace grad_enabled files dirs].
  repeat split.
Qed.

End Update.

(* ================================================================= *)
(** ** [hr_inference]: the down-scaled path *)

Section HrInference.
Context {TT : TorchTypes} {T : Torch}.
Local Open Scope py_scope.

Lemma state_eta (s : state) :
  with_grad_enabled (grad_enabled s) (with_grad_enabled false s) = s.
Proof. now destruct s. Qed.

(** On a network that is not wrapped the inner function [infer] returns what
    the specification describes, after one call of [calculate_flow] and one
    of [coraseWarp_and_Refine]. *)
Lemma hr_infer_spec (down_scale timestep : num) (imgs : Tensor) (s : state) :
  ddp (net (self s)) = false ->
  hr_infer down_scale timestep imgs s
  = (Ok (hrInfer_spec (net (self s)) imgs down_scale timestep),
     log (EvNet WarpAndRefine (grad_enabled s))
         (log (EvNet CalculateFlow (grad_enabled s)) s)).
Proof.
  intros Hd.
  unfold hr_infer, hrInfer_spec, call_calculate_flow, call_coraseWarp_and_Refine,
    bind, ret.
  rewrite Hd. cbn [fst snd self net log grad_enabled]. rewrite Hd.
  now destruct (calculate_flow (net (self s))
                  (interpolate imgs down_scale Bilinear false) timestep).
Qed.

(** On a wrapped network it stops at the first attribute look-up. *)
Lemma hr_infer_wrapped (down_scale timestep : num) (imgs : Tensor) (s : state) :
  ddp (net (self s)) = true ->
  hr_infer down_scale timestep imgs s = (Raise (AttributeError "calculate_flow"), s).
Proof.
  intros Hd. unfold hr_infer, call_calculate_flow, bind. now rewrite Hd.
Qed.

Lemma hr_inference_plain_run (s : state) (img0 img1 : Tensor)
      (down_scale timestep : num) :
  ddp (net (self s)) = false ->
  hr_inference img0 img1 false down_scale timestep false s
  = match cat [img0; img1] 1 with
    | Ok imgs =>
        (Ok (hrInfer_spec (net (self s)) imgs down_scale timestep),
         with_grad_enabled (grad_enabled s)
           (log (EvNet WarpAndRefine false)
                (log (EvNet CalculateFlow false) (with_grad_enabled false s))))
    | Raise e => (Raise e, with_grad_enabled (grad_enabled s) (with_grad_enabled false s))
    end.
Proof.
  intros Hd. unfold hr_inference, no_grad, bind, lift.
  destruct (cat [img0; img1] 1) as [imgs|e]; [|reflexivity].
  cbn [negb]. now rewrite (hr_infer_spec _ _ _ (with_grad_enabled false s) Hd).
Qed.

(** Without [fast_TTA], the first thing [hr_inference] does with the
    concatenated pair is to call [infer]: on a wrapped network the call
    raises and the state is the one before the call. *)
Lemma hr_inference_wrapped_run (s : state) (img0 img1 imgs : Tensor) (TTA : bool)
      (down_scale timestep : num) :
  ddp (net (self s)) = true ->
  cat [img0; img1] 1 = Ok imgs ->
  hr_inference img0 img1 TTA down_scale timestep false s
  = (Raise (AttributeError "calculate_flow"), s).
Proof.
  intros Hd Hcat. unfold hr_inference, no_grad, bind, lift. rewrite Hcat.
  assert (Hd' : ddp (net (self (with_grad_enabled false s))) = true) by exact Hd.
  destruct TTA; cbn [negb];
    rewrite (hr_infer_wrapped _ _ _ (with_grad_enabled false s) Hd');
    now rewrite state_eta.
Qed.

(** The state [hr_inference] leaves differs from the one it found in the
    trace only. *)
Lemma hr_inference_plain_frame (s : state) (img0 img1 : Tensor)
      (down_scale timestep : num) :
  self (snd (hr_inference img0 img1 false down_scale timestep false s)) = self s
  /\ grad_enabled (snd (hr_inference img0 img1 false down_scale timestep false s))
     = grad_enabled s.
Proof.
  destruct (ddp (net (self s))) eqn:Hd.
  - destruct (cat [img0; img1] 1) as [imgs|e] eqn:Hcat.
    + rewrite (hr_inference_wrapped_run s img0 img1 imgs false _ _ Hd Hcat).
      split; reflexivity.
    + unfold hr_inference, no_grad, bind, lift. rewrite Hcat. split; reflexivity.
  - rewrite (hr_inference_plain_run _ _ _ _ _ Hd).
    split; now destruct (cat [img0; img1] 1).
Qed.

(** C6, amended: on a model whose network is not wrapped, [hr_inference] without the
    TTA flags concatenates the two frames along the channel axis and
    returns: the warp-and-refine stage applied to the full-resolution pair,
    to the flow computed on the pair downsampled by [down_scale] (bilinear,
    corners not aligned), upsampled by [1/down_scale] and multiplied by
    [1/down_scale], and to the mask upsampled by [1/down_scale] and otherwise
    untouched; the two network calls run with gradients disabled.  On a
    model whose network [__init__] has wrapped, the call raises
    [AttributeError] once the frames are concatenated, and no network call
    is made.  In both cases the object is unchanged. *)
Theorem hr_inference_plain (s : state) (img0 img1 : Tensor) (down_scale timestep : num) :
  (ddp (net (self s)) = false ->
   fst (hr_inference img0 img1 false down_scale timestep false s)
   = (imgs <- cat [img0; img1] 1 ;;
      Ok (hrInfer_spec (net (self s)) imgs down_scale timestep))%res
   /\ (forall imgs, cat [img0; img1] 1 = Ok imgs ->
          trace (snd (hr_inference img0 img1 false down_scale timestep false s))
          = (trace s ++ [EvNet CalculateFlow false; EvNet WarpAndRefine false])%list))
  /\ (forall imgs flow mask,
         calculate_flow (net (self s))
                        (interpolate imgs down_scale Bilinear false) timestep
         = (flow, mask) ->
         hrInfer_spec (net (self s)) imgs down_scale timestep
         = coraseWarp_and_Refine (net (self s)) imgs
             (tmul (interpolate flow (fdiv f_1 down_scale) Bilinear false)
                   (fdiv f_1 down_scale))
             (interpolate mask (fdiv f_1 down_scale) Bilinear false))
  /\ (ddp (net (self s)) = true ->
      forall imgs, cat [img0; img1] 1 = Ok imgs ->
        hr_inference img0 img1 false down_scale timestep false s
        = (Raise (AttributeError "calculate_flow"), s))
  /\ self (snd (hr_inference img0 img1 false down_scale timestep false s)) = self s
  /\ grad_enabled (snd (hr_inference img0 img1 false down_scale timestep false s))
     = grad_enabled s.
Proof.
  split.
  { intros Hd. rewrite (hr_inference_plain_run _ _ _ _ _ Hd).
    split; [now destruct (cat [img0; img1] 1)|].
    intros imgs E. rewrite E. cbn. now rewrite <- app_assoc. }
  split.
  { intros imgs flow mask E. unfold hrInfer_spec. now rewrite E. }
  split.
  { intros Hd imgs Hcat. exact (hr_inference_wrapped_run s _ _ imgs false _ _ Hd Hcat). }
  apply hr_inference_plain_frame.
Qed.

(** At scale one the down- and up-scaling disappear. *)
Lemma hrInfer_spec_scale_one (n : Net) (imgs : Tensor) (timestep : num) :
  (forall t, interpolate t f_1 Bilinear false = t) ->
  fdiv f_1 f_1 = f_1 ->
  (forall x, fmul x f_1 = x) ->
  hrInfer_spec n imgs f_1 timestep = direct_infer n imgs timestep.
Proof.
  intros Hi Hd Hm. unfold hrInfer_spec, direct_infer.
  rewrite Hd, Hi.
  destruct (calculate_flow n imgs timestep) as [flow mask].
  rewrite !Hi. unfold tmul. now rewrite (tmap_id _ Hm).
Qed.

(** C7, amended: when interpolation by the factor 1 returns its argument, and
    [1/1 = 1] and [x * 1 = x] hold for the numbers, [hr_inference] with
    [down_scale = 1] on a model whose network is not wrapped returns what
    full-resolution inference returns: [calculate_flow] on the concatenated
    pair, then warp and refine.  On a model whose network is wrapped it
    returns nothing: it raises [AttributeError]. *)
Theorem hr_inference_at_scale_one (s : state) (img0 img1 : Tensor) (timestep : num) :
  (forall t, interpolate t f_1 Bilinear false = t) ->
  fdiv f_1 f_1 = f_1 ->
  (forall x, fmul x f_1 = x) ->
  (ddp (net (self s)) = false ->
   fst (hr_inference img0 img1 false f_1 timestep false s)
   = (imgs <- cat [img0; img1] 1 ;;
      Ok (direct_infer (net (self s)) imgs timestep))%res)
  /\ (ddp (net (self s)) = true ->
      forall imgs, cat [img0; img1] 1 = Ok imgs ->
        fst (hr_inference img0 img1 false f_1 timestep false s)
        = Raise (AttributeError "calculate_flow")).
Proof.
  intros Hi Hd Hm. split.
  - intros Hu. rewrite (hr_inference_plain_run _ _ _ _ _ Hu).
    destruct (cat [img0; img1] 1) as [imgs|e]; [|reflexivity].
    cbn [res_bind fst]. now rewrite hrInfer_spec_scale_one.
  - intros Hw imgs Hcat.
    now rewrite (hr_inference_wrapped_run s _ _ imgs false _ _ Hw Hcat).
Qed.

End HrInference.

(* ================================================================= *)
(** ** The two flip-averaged paths *)

Section FlipPaths.
Context {TT : TorchTypes} {T : Torch}.
Local Open Scope py_scope.

(** [flip(2).flip(3)] of a batch of one sample flips the sample along its
    own axes 1 and 2. *)
Lemma flip23_single (x : Tensor) :
  flip23 (Nd [x]) = (y <- flip 1 x ;; z <- flip 2 y ;; Ok (Nd [z]))%res.
Proof.
  unfold flip23. rewrite flip_S_Nd. cbn [mapM res_bind].
  destruct (flip 1 x) as [y|e]; cbn [res_bind]; [|reflexivity].
  rewrite flip_S_Nd. cbn [mapM res_bind].
  now destruct (flip 2 y).
Qed.

(** The fast path reads the first two predictions of the batch, and no
    other. *)
Lemma fast_average_first_two (a b : Tensor) (rest : list Tensor) :
  fast_average (Nd (a :: b :: rest))
  = (r <- average_with_flipped a b ;; Ok (Nd [r]))%res.
Proof.
  unfold fast_average, average_with_flipped.
  cbn [tindex nth_error res_bind].
  destruct (flip 1 b) as [b'|e]; cbn [res_bind]; [|reflexivity].
  destruct (flip 2 b') as [b''|e]; cbn [res_bind]; [|reflexivity].
  destruct (tadd fadd a b'') as [sum|e]; cbn [res_bind]; reflexivity.
Qed.

(** The averaging of the TTA path, on batches of one prediction. *)
Lemma tta_average_single (a b : Tensor) :
  (b' <- flip23 (Nd [b]) ;; sum <- tadd fadd (Nd [a]) b' ;; Ok (tdiv sum f_2))%res
  = (r <- average_with_flipped a b ;; Ok (Nd [r]))%res.
Proof.
  rewrite flip23_single. unfold average_with_flipped.
  destruct (flip 1 b) as [b'|e]; cbn [res_bind]; [|reflexivity].
  destruct (flip 2 b') as [b''|e]; cbn [res_bind]; [|reflexivity].
  rewrite tadd_Nd. cbn [zipM res_bind].
  destruct (tadd fadd a b'') as [sum|e]; cbn [res_bind]; reflexivity.
Qed.

(** Flipping a batch of frames succeeds and keeps its sizes. *)
Lemma flip23_batch (B c h w : nat) (l : list Tensor) :
  has_shape [B; c; h; w] (Nd l) = true ->
  exists l', flip23 (Nd l) = Ok (Nd l') /\ has_shape [B; c; h; w] (Nd l') = true.
Proof.
  intros H. unfold flip23.
  destruct (@flip_has_shape _ 2 [B; c; h; w] (Nd l) H) as (y & Ey & Hy); [simpl; lia|].
  destruct (@flip_has_shape _ 3 [B; c; h; w] y Hy) as (z & Ez & Hz); [simpl; lia|].
  destruct (has_shape_inv _ _ _ Hz) as (l' & -> & _).
  exists l'. rewrite Ey. cbn [res_bind]. now split.
Qed.

(** Two predictions of one shape can be averaged. *)
Lemma average_with_flipped_ok (c h w : nat) (a b : Tensor) :
  has_shape [c; h; w] a = true -> has_shape [c; h; w] b = true ->
  exists r, average_with_flipped a b = Ok r /\ has_shape [c; h; w] r = true.
Proof.
  intros Ha Hb. unfold average_with_flipped.
  destruct (@flip_has_shape _ 1 [c; h; w] b Hb) as (b' & -> & Hb'); [simpl; lia|].
  cbn [res_bind].
  destruct (@flip_has_shape _ 2 [c; h; w] b' Hb') as (b'' & -> & Hb''); [simpl; lia|].
  cbn [res_bind].
  destruct (@tadd_has_shape _ fadd [c; h; w] a b'' Ha Hb'') as (sum & -> & Hs).
  cbn [res_bind]. exists (tdiv sum f_2). split; [reflexivity|].
  now apply tmap_has_shape.
Qed.

(** What the four flip paths return, once the tensor operations on the
    inputs have succeeded. *)
Lemma inference_fast_run s (img0 img1 : Tensor) timestep (imgs imgs_ inputs : Tensor) :
  cat [img0; img1] 1 = Ok imgs -> flip23 imgs = Ok imgs_ ->
  cat [imgs; imgs_] 0 = Ok inputs ->
  fst (inference img0 img1 false timestep true s)
  = fast_average (out_pred (forward (net (self s)) inputs timestep)).
Proof.
  intros E1 E2 E3. unfold inference, no_grad, bind, lift, call_net.
  rewrite E1. cbv beta iota. rewrite E2. cbv beta iota. rewrite E3.
  reflexivity.
Qed.

Lemma hr_inference_fast_run s (img0 img1 : Tensor) down_scale timestep
      (imgs imgs_ inputs : Tensor) :
  ddp (net (self s)) = false ->
  cat [img0; img1] 1 = Ok imgs -> flip23 imgs = Ok imgs_ ->
  cat [imgs; imgs_] 0 = Ok inputs ->
  fst (hr_inference img0 img1 false down_scale timestep true s)
  = fast_average (hrInfer_spec (net (self s)) inputs down_scale timestep).
Proof.
  intros Hd E1 E2 E3. unfold hr_inference, no_grad, bind, lift.
  rewrite E1. cbv beta iota. rewrite E2. cbv beta iota. rewrite E3.
  cbv beta iota. rewrite (hr_infer_spec _ _ _ (with_grad_enabled false s) Hd).
  reflexivity.
Qed.

(** On a wrapped network the fast path raises as soon as the doubled batch
    is built. *)
Lemma hr_inference_fast_wrapped s (img0 img1 : Tensor) (TTA : bool) down_scale timestep
      (imgs imgs_ inputs : Tensor) :
  ddp (net (self s)) = true ->
  cat [img0; img1] 1 = Ok imgs -> flip23 imgs = Ok imgs_ ->
  cat [imgs; imgs_] 0 = Ok inputs ->
  hr_inference img0 img1 TTA down_scale timestep true s
  = (Raise (AttributeError "calculate_flow"), s).
Proof.
  intros Hd E1 E2 E3. unfold hr_inference, no_grad, bind, lift.
  rewrite E1. cbv beta iota. rewrite E2. cbv beta iota. rewrite E3.
  cbv beta iota. rewrite (hr_infer_wrapped _ _ _ (with_grad_enabled false s) Hd).
  now rewrite state_eta.
Qed.

Lemma inference_TTA_run s (img0 img1 : Tensor) timestep (imgs : Tensor) :
  cat [img0; img1] 1 = Ok imgs ->
  fst (inference img0 img1 true timestep false s)
  = (imgs_ <- flip23 imgs ;;
     b' <- flip23 (out_pred (forward (net (self s)) imgs_ timestep)) ;;
     sum <- tadd fadd (out_pred (forward (net (self s)) imgs timestep)) b' ;;
     Ok (tdiv sum f_2))%res.
Proof.
  intros E1. unfold inference, no_grad, bind, lift, call_net, ret.
  rewrite E1. cbn [negb]. cbv beta iota.
  destruct (flip23 imgs) as [imgs_|e]; cbn [res_bind]; [|reflexivity].
  cbn [self net with_grad_enabled log].
  destruct (flip23 _) as [b'|e]; cbn [res_bind]; [|reflexivity].
  now destruct (tadd fadd _ b').
Qed.

Lemma hr_inference_TTA_run s (img0 img1 : Tensor) down_scale timestep (imgs : Tensor) :
  ddp (net (self s)) = false ->
  cat [img0; img1] 1 = Ok imgs ->
  fst (hr_inference img0 img1 true down_scale timestep false s)
  = (imgs_ <- flip23 imgs ;;
     b' <- flip23 (hrInfer_spec (net (self s)) imgs_ down_scale timestep) ;;
     sum <- tadd fadd (hrInfer_spec (net (self s)) imgs down_scale timestep) b' ;;
     Ok (tdiv sum f_2))%res.
Proof.
  intros Hd E1. unfold hr_inference, no_grad, bind, lift, ret.
  rewrite E1. cbn [negb]. cbv beta iota.
  rewrite (hr_infer_spec _ _ _ (with_grad_enabled false s) Hd).
  destruct (flip23 imgs) as [imgs_|e]; cbn [res_bind]; [|reflexivity].
  rewrite hr_infer_spec by exact Hd. cbn [self net with_grad_enabled log].
  destruct (flip23 _) as [b'|e]; cbn [res_bind]; [|reflexivity].
  now destruct (tadd fadd _ b').
Qed.

End FlipPaths.

(* ================================================================= *)
(** ** The fast path against the TTA path *)

Section FastAgainstTTA.
Context {TT : TorchTypes} {T : Torch}.

(** C1, amended: for a frame pair of batch size one and a network that
    treats the samples of a batch one by one, [fast_TTA] and [TTA] end in
    the same way, in [inference] and in [hr_inference].  In [inference], and
    in [hr_inference] on a model whose network is not wrapped, both return
    the batch of one sample that averages the prediction for the sample and
    the flipped-back prediction for the flipped sample; it is computed
    whenever the predictions are rectangular, its leading axis is the batch
    axis of size one, and the fast path has no further axis.  In
    [hr_inference] on a wrapped network both raise [AttributeError]. *)
Theorem fast_TTA_agrees_on_one_sample (s : state) (img0 img1 smp : Tensor)
        (down_scale timestep : num) (c h w : nat) (f g : Tensor -> Tensor) :
  cat [img0; img1] 1 = Ok (Nd [smp]) ->
  has_shape [c; h; w] smp = true ->
  per_sample_forward (net (self s)) timestep f ->
  per_sample_infer (net (self s)) down_scale timestep g ->
  exists smp',
    flip23 (Nd [smp]) = Ok (Nd [smp'])
    /\ fst (inference img0 img1 false timestep true s)
       = fst (inference img0 img1 true timestep false s)
    /\ fst (inference img0 img1 false timestep true s)
       = (r <- average_with_flipped (f smp) (f smp') ;; Ok (Nd [r]))%res
    /\ (forall c' h' w',
           has_shape [c'; h'; w'] (f smp) = true ->
           has_shape [c'; h'; w'] (f smp') = true ->
           exists r, fst (inference img0 img1 false timestep true s) = Ok (Nd [r])
                     /\ has_shape [1; c'; h'; w'] (Nd [r]) = true)
    /\ fst (hr_inference img0 img1 false down_scale timestep true s)
       = fst (hr_inference img0 img1 true down_scale timestep false s)
    /\ (ddp (net (self s)) = false ->
        fst (hr_inference img0 img1 false down_scale timestep true s)
        = (r <- average_with_flipped (g smp) (g smp') ;; Ok (Nd [r]))%res
        /\ (forall c' h' w',
               has_shape [c'; h'; w'] (g smp) = true ->
               has_shape [c'; h'; w'] (g smp') = true ->
               exists r, fst (hr_inference img0 img1 false down_scale timestep true s)
                         = Ok (Nd [r])
                         /\ has_shape [1; c'; h'; w'] (Nd [r]) = true))
    /\ (ddp (net (self s)) = true ->
        fst (hr_inference img0 img1 false down_scale timestep true s)
        = Raise (AttributeError "calculate_flow")).
Proof.
  intros Hcat Hsh Hf Hg.
  assert (H1 : has_shape [1; c; h; w] (Nd [smp]) = true).
  { apply has_shape_Nd. split; [reflexivity|]. now constructor. }
  destruct (flip23_batch 1 c h w [smp] H1) as (l' & Hflip & H1').
  assert (Hl' : exists smp', l' = [smp']).
  { apply has_shape_Nd in H1' as [Hlen _].
    destruct l' as [|x [|y l']]; try discriminate Hlen. now exists x. }
  destruct Hl' as (smp' & ->). exists smp'.
  destruct (cat_batch 1 1 [c; h; w] [smp] [smp'] H1 H1') as [Hcat2 _].
  cbn [app] in Hcat2.
  split; [exact Hflip|].
  assert (Hhr : ddp (net (self s)) = false ->
                fst (hr_inference img0 img1 false down_scale timestep true s)
                = (r <- average_with_flipped (g smp) (g smp') ;; Ok (Nd [r]))%res
                /\ fst (hr_inference img0 img1 true down_scale timestep false s)
                   = (r <- average_with_flipped (g smp) (g smp') ;; Ok (Nd [r]))%res).
  { intros Hd.
    rewrite (hr_inference_fast_run s img0 img1 down_scale timestep _ _ _
               Hd Hcat Hflip Hcat2).
    rewrite (hr_inference_TTA_run s img0 img1 down_scale timestep _ Hd Hcat).
    rewrite Hflip. cbn [res_bind]. rewrite !Hg. cbn [map].
    rewrite fast_average_first_two, tta_average_single. split; reflexivity. }
  assert (Hwr : ddp (net (self s)) = true ->
                fst (hr_inference img0 img1 false down_scale timestep true s)
                = Raise (AttributeError "calculate_flow")
                /\ fst (hr_inference img0 img1 true down_scale timestep false s)
                   = Raise (AttributeError "calculate_flow")).
  { intros Hd.
    rewrite (hr_inference_fast_wrapped s img0 img1 false down_scale timestep _ _ _
               Hd Hcat Hflip Hcat2).
    rewrite (hr_inference_wrapped_run s img0 img1 _ true down_scale timestep Hd Hcat).
    split; reflexivity. }
  rewrite (inference_fast_run s img0 img1 timestep _ _ _ Hcat Hflip Hcat2).
  rewrite (inference_TTA_run s img0 img1 timestep _ Hcat).
  rewrite Hflip. cbn [res_bind].
  rewrite !Hf. cbn [map].
  rewrite !fast_average_first_two, !tta_average_single.
  assert (Hone : forall p0 p1 c' h' w',
             has_shape [c'; h'; w'] p0 = true ->
             has_shape [c'; h'; w'] p1 = true ->
             exists r, (r <- average_with_flipped p0 p1 ;; Ok (Nd [r]))%res = Ok (Nd [r])
                       /\ has_shape [1; c'; h'; w'] (Nd [r]) = true).
  { intros p0 p1 c' h' w' Hp0 Hp1.
    destruct (average_with_flipped_ok c' h' w' p0 p1 Hp0 Hp1) as (r & -> & Hr).
    exists r. split; [reflexivity|].
    apply has_shape_Nd. split; [reflexivity|]. now constructor. }
  split; [reflexivity|]. split; [reflexivity|].
  split; [intros c' h' w'; apply Hone|].
  split.
  { destruct (ddp (net (self s))) eqn:Hd.
    - destruct (Hwr eq_refl) as [-> ->]. reflexivity.
    - destruct (Hhr eq_refl) as [-> ->]. reflexivity. }
  split.
  - intros Hd. destruct (Hhr Hd) as [-> _].
    split; [reflexivity|]. intros c' h' w'; apply Hone.
  - intros Hd. exact (proj1 (Hwr Hd)).
Qed.

(** C10, amended: for a batch of [B >= 1] frame pairs, the fast path of
    [inference], and that of [hr_inference] on a model whose network is not
    wrapped, hand the network the [2B] samples "originals, then flipped
    originals"; of the predictions they read the first two, [p0] and [p1],
    and no other, and they return the batch of the single sample
    [(p0 + p1 flipped) / 2], whose leading axis has size 1.  The sample at
    index 1 of the network's input is the second original when [B >= 2]; it
    is the flipped first original only when [B = 1].  On a wrapped network
    the fast path of [hr_inference] raises [AttributeError]. *)
Theorem fast_TTA_reads_first_two (s : state) (img0 img1 : Tensor)
        (down_scale timestep : num) (B c h w : nat) (samples : list Tensor) :
  cat [img0; img1] 1 = Ok (Nd samples) ->
  has_shape [B; c; h; w] (Nd samples) = true ->
  1 <= B ->
  exists flipped,
    flip23 (Nd samples) = Ok (Nd flipped)
    /\ List.length (samples ++ flipped) = 2 * B
    /\ (forall p0 p1 rest,
           out_pred (forward (net (self s)) (Nd (samples ++ flipped)) timestep)
           = Nd (p0 :: p1 :: rest) ->
           fst (inference img0 img1 false timestep true s)
           = (r <- average_with_flipped p0 p1 ;; Ok (Nd [r]))%res
           /\ forall c' h' w',
               has_shape [c'; h'; w'] p0 = true ->
               has_shape [c'; h'; w'] p1 = true ->
               exists r, fst (inference img0 img1 false timestep true s) = Ok (Nd [r])
                         /\ has_shape [1; c'; h'; w'] (Nd [r]) = true)
    /\ (ddp (net (self s)) = false ->
        forall p0 p1 rest,
           hrInfer_spec (net (self s)) (Nd (samples ++ flipped)) down_scale timestep
           = Nd (p0 :: p1 :: rest) ->
           fst (hr_inference img0 img1 false down_scale timestep true s)
           = (r <- average_with_flipped p0 p1 ;; Ok (Nd [r]))%res
           /\ forall c' h' w',
               has_shape [c'; h'; w'] p0 = true ->
               has_shape [c'; h'; w'] p1 = true ->
               exists r, fst (hr_inference img0 img1 false down_scale timestep true s)
                         = Ok (Nd [r])
                         /\ has_shape [1; c'; h'; w'] (Nd [r]) = true)
    /\ (ddp (net (self s)) = true ->
        fst (hr_inference img0 img1 false down_scale timestep true s)
        = Raise (AttributeError "calculate_flow"))
    /\ (2 <= B -> nth_error (samples ++ flipped) 1 = nth_error samples 1)
    /\ (B = 1 -> nth_error (samples ++ flipped) 1 = nth_error flipped 0).
Proof.
  intros Hcat Hsh HB.
  destruct (flip23_batch B c h w samples Hsh) as (flipped & Hflip & Hsh').
  exists flipped.
  destruct (cat_batch B B [c; h; w] samples flipped Hsh Hsh') as [Hcat2 _].
  pose proof (proj1 (proj1 (has_shape_Nd _ _ _) Hsh)) as Hlen.
  pose proof (proj1 (proj1 (has_shape_Nd _ _ _) Hsh')) as Hlen'.
  split; [exact Hflip|].
  split; [rewrite length_app; lia|].
  assert (Hone : forall (x : res Tensor) p0 p1,
             x = (r <- average_with_flipped p0 p1 ;; Ok (Nd [r]))%res ->
             forall c' h' w',
               has_shape [c'; h'; w'] p0 = true ->
               has_shape [c'; h'; w'] p1 = true ->
               exists r, x = Ok (Nd [r]) /\ has_shape [1; c'; h'; w'] (Nd [r]) = true).
  { intros x p0 p1 -> c' h' w' H0 H1.
    destruct (average_with_flipped_ok c' h' w' p0 p1 H0 H1) as (r & -> & Hr).
    exists r. split; [reflexivity|].
    apply has_shape_Nd. split; [reflexivity|]. now constructor. }
  split; [|split; [|split; [|split]]].
  - intros p0 p1 rest Hp.
    rewrite (inference_fast_run s img0 img1 timestep _ _ _ Hcat Hflip Hcat2).
    rewrite Hp, fast_average_first_two.
    split; [reflexivity|]. now apply Hone.
  - intros Hd p0 p1 rest Hp.
    rewrite (hr_inference_fast_run s img0 img1 down_scale timestep _ _ _
               Hd Hcat Hflip Hcat2).
    rewrite Hp, fast_average_first_two.
    split; [reflexivity|]. now apply Hone.
  - intros Hd.
    now rewrite (hr_inference_fast_wrapped s img0 img1 false down_scale timestep
                   _ _ _ Hd Hcat Hflip Hcat2).
  - intros H2. apply nth_error_app1. lia.
  - intros ->. rewrite nth_error_app2 by lia. now rewrite Hlen.
Qed.

End FastAgainstTTA.

(* ================================================================= *)
(** ** The properties on the small instance *)

Section Examples.
Import Sample SampleTrip PyDict.
#[local] Existing Instance Qtypes.
#[local] Existing Instance torch.

Lemma Qmult_1_r_eq (x : Q) : Qmult x 1 = x.
Proof.
  destruct x as [a b]. unfold Qmult. simpl.
  now rewrite Z.mul_1_r, Pos.mul_1_r.
Defined.

Lemma sample_per_sample_forward (n : Net) (timestep : Q) :
  per_sample_forward n timestep (fun x => x).
Proof. intros l. simpl. now rewrite map_id. Defined.

Lemma sample_per_sample_infer (n : Net) (down_scale timestep : Q) :
  per_sample_infer n down_scale timestep (fun x => x).
Proof. intros l. unfold hrInfer_spec. simpl. now rewrite map_id. Defined.

(** The model built on the sample disk: the four branches are frozen, the
    head is not; the GMFlow value and the head value come from the two
    checkpoints, and the excluded [attn_mask] entry was not loaded. *)
Example built_example :
  flags (net (self built))
  = [("gmflow.w", false); ("feature_bone.w", false); ("block.w", false);
     ("unet.w", false); ("head.w", true)]
  /\ state_dict (net (self built))
     = [("gmflow.w", Nd [Sc 10%Q]); ("feature_bone.w", Nd [Sc 2%Q]);
        ("block.w", Nd [Sc 3%Q]); ("unet.w", Nd [Sc 4%Q]); ("head.w", Nd [Sc 50%Q]);
        ("block.attn_mask", Nd [Sc 0%Q])].
Proof. split; vm_compute; reflexivity. Qed.

(** C1, as stated, fails, in three ways.
    (a) On a batch of two frame pairs the fast path returns one sample, the
    average of the first prediction and the flipped second prediction (here
    1 everywhere), where the TTA path returns two samples (0 everywhere,
    then 2 everywhere).
    (b) On one frame pair the two paths return the same tensor, of the same
    rank: the fast result has no further leading axis.
    (c) For a deterministic network that does not treat the samples one by
    one (every prediction is the first sample of the batch) the two paths
    differ already on one frame pair. *)
Lemma fast_TTA_differs_from_TTA :
  (fst (inference (frames2 0 0 2 2) (frames2 0 0 2 2) false 1%Q true built)
   = Ok (Nd [Nd [Nd [Nd [Sc (2 # 2)%Q; Sc (2 # 2)%Q]];
                 Nd [Nd [Sc (2 # 2)%Q; Sc (2 # 2)%Q]]]])
   /\ fst (inference (frames2 0 0 2 2) (frames2 0 0 2 2) true 1%Q false built)
      = Ok (Nd [Nd [Nd [Nd [Sc (0 # 2)%Q; Sc (0 # 2)%Q]];
                    Nd [Nd [Sc (0 # 2)%Q; Sc (0 # 2)%Q]]];
                Nd [Nd [Nd [Sc (4 # 2)%Q; Sc (4 # 2)%Q]];
                    Nd [Nd [Sc (4 # 2)%Q; Sc (4 # 2)%Q]]]])
   /\ ~ (2 # 2 == 0 # 2)%Q)
  /\ (fst (inference (frame 1 2) (frame 3 4) false 1%Q true built)
      = Ok (Nd [Nd [Nd [Nd [Sc (2 # 2)%Q; Sc (4 # 2)%Q]];
                    Nd [Nd [Sc (6 # 2)%Q; Sc (8 # 2)%Q]]]])
      /\ fst (inference (frame 1 2) (frame 3 4) true 1%Q false built)
         = Ok (Nd [Nd [Nd [Nd [Sc (2 # 2)%Q; Sc (4 # 2)%Q]];
                       Nd [Nd [Sc (6 # 2)%Q; Sc (8 # 2)%Q]]]]))
  /\ (fst (@inference Qtypes torch_first (frame 1 2) (frame 3 4) false 1%Q true built)
      = Ok (Nd [Nd [Nd [Nd [Sc (3 # 2)%Q; Sc (3 # 2)%Q]];
                    Nd [Nd [Sc (7 # 2)%Q; Sc (7 # 2)%Q]]]])
      /\ fst (@inference Qtypes torch_first (frame 1 2) (frame 3 4) true 1%Q false built)
         = Ok (Nd [Nd [Nd [Nd [Sc (2 # 2)%Q; Sc (4 # 2)%Q]];
                       Nd [Nd [Sc (6 # 2)%Q; Sc (8 # 2)%Q]]]])
      /\ ~ (3 # 2 == 2 # 2)%Q)
  /\ ~ (forall (T' : @Torch Qtypes) (img0 img1 : tensor Q),
          exists r,
            fst (@inference Qtypes T' img0 img1 true 1%Q false built) = Ok r
            /\ (fst (@inference Qtypes T' img0 img1 false 1%Q true built) = Ok (Nd [r])
                \/ fst (@inference Qtypes T' img0 img1 false 1%Q true built) = Ok r)).
Proof.
  split; [|split; [|split]].
  - split; [vm_compute; reflexivity|].
    split; [vm_compute; reflexivity|].
    intros H. vm_compute in H. discriminate H.
  - split; vm_compute; reflexivity.
  - split; [vm_compute; reflexivity|].
    split; [vm_compute; reflexivity|].
    intros H. vm_compute in H. discriminate H.
  - intros H.
    destruct (H torch (frames2 0 0 2 2) (frames2 0 0 2 2)) as (r & Hr & [E|E]);
      vm_compute in Hr, E; injection Hr as <-; discriminate E.
Qed.

Lemma built_not_wrapped : ddp (net (self built)) = false.
Proof. vm_compute. reflexivity. Defined.

Lemma wrapped_is_wrapped : ddp (net (self wrapped)) = true.
Proof. vm_compute. reflexivity. Defined.

Lemma fast_TTA_agrees_on_one_sample_witness :
  (cat [frame 1 2; frame 3 4] 1 = Ok (Nd [Nd [Nd [Nd [Sc 1%Q; Sc 2%Q]];
                                              Nd [Nd [Sc 3%Q; Sc 4%Q]]]])
   /\ has_shape [2; 1; 2] (Nd [Nd [Nd [Sc 1%Q; Sc 2%Q]]; Nd [Nd [Sc 3%Q; Sc 4%Q]]]) = true
   /\ per_sample_forward (net (self built)) 1%Q (fun x => x)
   /\ per_sample_infer (net (self built)) 1%Q 1%Q (fun x => x)
   /\ ddp (net (self built)) = false)
  /\ fst (inference (frame 1 2) (frame 3 4) false 1%Q true built)
     = fst (inference (frame 1 2) (frame 3 4) true 1%Q false built)
  /\ fst (hr_inference (frame 1 2) (frame 3 4) false 1%Q 1%Q true built)
     = fst (hr_inference (frame 1 2) (frame 3 4) true 1%Q 1%Q false built)
  /\ exists smp',
      fst (hr_inference (frame 1 2) (frame 3 4) false 1%Q 1%Q true built)
      = (r <- average_with_flipped
                (Nd [Nd [Nd [Sc 1%Q; Sc 2%Q]]; Nd [Nd [Sc 3%Q; Sc 4%Q]]]) smp' ;;
         Ok (Nd [r]))%res.
Proof.
  assert (H1 : cat [frame 1 2; frame 3 4] 1
               = Ok (Nd [Nd [Nd [Nd [Sc 1%Q; Sc 2%Q]]; Nd [Nd [Sc 3%Q; Sc 4%Q]]]]))
    by reflexivity.
  assert (H2 : has_shape [2; 1; 2]
                 (Nd [Nd [Nd [Sc 1%Q; Sc 2%Q]]; Nd [Nd [Sc 3%Q; Sc 4%Q]]]) = true)
    by reflexivity.
  split.
  - split; [exact H1|]. split; [exact H2|]. split.
    + apply sample_per_sample_forward.
    + split; [apply sample_per_sample_infer | exact built_not_wrapped].
  - destruct (fast_TTA_agrees_on_one_sample built (frame 1 2) (frame 3 4) _
                1%Q 1%Q 2 1 2 (fun x => x) (fun x => x) H1 H2
                (sample_per_sample_forward _ _) (sample_per_sample_infer _ _ _))
      as (smp' & _ & E & _ & _ & Ehr & Hplain & _).
    split; [exact E|]. split; [exact Ehr|].
    exists smp'. exact (proj1 (Hplain built_not_wrapped)).
Defined.

Lemma fast_TTA_reads_first_two_witness :
  (cat [frames2 0 0 2 2; frames2 0 0 2 2] 1
   = Ok (Nd [Nd [Nd [Nd [Sc 0%Q; Sc 0%Q]]; Nd [Nd [Sc 0%Q; Sc 0%Q]]];
             Nd [Nd [Nd [Sc 2%Q; Sc 2%Q]]; Nd [Nd [Sc 2%Q; Sc 2%Q]]]])
   /\ 1 <= 2
   /\ ddp (net (self built)) = false)
  /\ exists flipped,
      flip23 (Nd [Nd [Nd [Nd [Sc 0%Q; Sc 0%Q]]; Nd [Nd [Sc 0%Q; Sc 0%Q]]];
                  Nd [Nd [Nd [Sc 2%Q; Sc 2%Q]]; Nd [Nd [Sc 2%Q; Sc 2%Q]]]])
      = Ok (Nd flipped)
      /\ nth_error ([Nd [Nd [Nd [Sc 0%Q; Sc 0%Q]]; Nd [Nd [Sc 0%Q; Sc 0%Q]]];
                     Nd [Nd [Nd [Sc 2%Q; Sc 2%Q]]; Nd [Nd [Sc 2%Q; Sc 2%Q]]]]
                      ++ flipped) 1
         = Some (Nd [Nd [Nd [Sc 2%Q; Sc 2%Q]]; Nd [Nd [Sc 2%Q; Sc 2%Q]]])
      /\ forall p0 p1 rest,
          hrInfer_spec (net (self built))
            (Nd ([Nd [Nd [Nd [Sc 0%Q; Sc 0%Q]]; Nd [Nd [Sc 0%Q; Sc 0%Q]]];
                  Nd [Nd [Nd [Sc 2%Q; Sc 2%Q]]; Nd [Nd [Sc 2%Q; Sc 2%Q]]]]
                   ++ flipped)) 1%Q 1%Q
          = Nd (p0 :: p1 :: rest) ->
          fst (hr_inference (frames2 0 0 2 2) (frames2 0 0 2 2) false 1%Q 1%Q true built)
          = (r <- average_with_flipped p0 p1 ;; Ok (Nd [r]))%res.
Proof.
  assert (H1 : cat [frames2 0 0 2 2; frames2 0 0 2 2] 1
               = Ok (Nd [Nd [Nd [Nd [Sc 0%Q; Sc 0%Q]]; Nd [Nd [Sc 0%Q; Sc 0%Q]]];
                         Nd [Nd [Nd [Sc 2%Q; Sc 2%Q]]; Nd [Nd [Sc 2%Q; Sc 2%Q]]]]))
    by reflexivity.
  split; [split; [exact H1 | split; [lia | exact built_not_wrapped]]|].
  destruct (fast_TTA_reads_first_two built (frames2 0 0 2 2) (frames2 0 0 2 2)
              1%Q 1%Q 2 2 1 2 _ H1 eq_refl (le_S 1 1 (le_n 1)))
    as (flipped & Hf & _ & _ & Hhr & _ & Hsecond & _).
  exists flipped. split; [exact Hf|].
  split; [exact (Hsecond (le_n 2))|].
  intros p0 p1 rest Hp. exact (proj1 (Hhr built_not_wrapped p0 p1 rest Hp)).
Defined.

Lemma hr_inference_plain_witness :
  ddp (net (self built)) = false
  /\ fst (hr_inference (frame 1 2) (frame 3 4) false (1 # 2)%Q 1%Q false built)
     = (imgs <- cat [frame 1 2; frame 3 4] 1 ;;
        Ok (hrInfer_spec (net (self built)) imgs (1 # 2)%Q 1%Q))%res
  /\ (ddp (net (self wrapped)) = true
      /\ cat [frame 1 2; frame 3 4] 1
         = Ok (Nd [Nd [Nd [Nd [Sc 1%Q; Sc 2%Q]]; Nd [Nd [Sc 3%Q; Sc 4%Q]]]])
      /\ hr_inference (frame 1 2) (frame 3 4) false (1 # 2)%Q 1%Q false wrapped
         = (Raise (AttributeError "calculate_flow"), wrapped)).
Proof.
  split; [exact built_not_wrapped|]. split.
  - exact (proj1 (proj1 (hr_inference_plain built (frame 1 2) (frame 3 4)
                           (1 # 2)%Q 1%Q) built_not_wrapped)).
  - split; [exact wrapped_is_wrapped|]. split; [reflexivity|].
    exact (proj1 (proj2 (proj2 (hr_inference_plain wrapped (frame 1 2) (frame 3 4)
                                  (1 # 2)%Q 1%Q)))
             wrapped_is_wrapped _ eq_refl).
Defined.

Lemma hr_inference_at_scale_one_witness :
  ((forall t, interpolate t f_1 Bilinear false = t)
   /\ fdiv f_1 f_1 = f_1
   /\ (forall x, fmul x f_1 = x)
   /\ ddp (net (self built)) = false)
  /\ fst (hr_inference (frame 1 2) (frame 3 4) false f_1 1%Q false built)
     = (imgs <- cat [frame 1 2; frame 3 4] 1 ;;
        Ok (direct_infer (net (self built)) imgs 1%Q))%res.
Proof.
  assert (Hi : forall t : Tensor, interpolate t f_1 Bilinear false = t)
    by (intros t; reflexivity).
  assert (Hd : fdiv f_1 f_1 = f_1) by reflexivity.
  assert (Hm : forall x : num, fmul x f_1 = x) by exact Qmult_1_r_eq.
  split; [split; [exact Hi | split; [exact Hd | split; [exact Hm|]]]|].
  - exact built_not_wrapped.
  - exact (proj1 (hr_inference_at_scale_one built (frame 1 2) (frame 3 4) 1%Q Hi Hd Hm)
             built_not_wrapped).
Defined.

(** C6, as stated for every call, fails on a model built with a rank other
    than -1: [Model(0)] on the sample disk returns an object whose network
    is wrapped, and on it [hr_inference] without the TTA flags raises
    [AttributeError] where the claim has it return the prediction. *)
Lemma hr_inference_raises_on_wrapped_model :
  new_Model 0 disk = (Ok (self wrapped), wrapped)
  /\ ddp (net (self wrapped)) = true
  /\ fst (hr_inference (frame 1 2) (frame 3 4) false (1 # 2)%Q 1%Q false wrapped)
     = Raise (AttributeError "calculate_flow")
  /\ fst (hr_inference (frame 1 2) (frame 3 4) false (1 # 2)%Q 1%Q false wrapped)
     <> (imgs <- cat [frame 1 2; frame 3 4] 1 ;;
         Ok (hrInfer_spec (net (self wrapped)) imgs (1 # 2)%Q 1%Q))%res.
Proof.
  split; [vm_compute; reflexivity|]. split; [vm_compute; reflexivity|].
  split; [vm_compute; reflexivity|].
  intros H. vm_compute in H. discriminate H.
Qed.

(** C7, as stated for every frame pair, fails on the same model: at
    [down_scale = 1], in an instance where interpolation by 1 and the
    arithmetic are exact, [hr_inference] raises [AttributeError] and so does
    not return what full-resolution inference computes. *)
Lemma hr_inference_at_scale_one_raises_on_wrapped_model :
  new_Model 0 disk = (Ok (self wrapped), wrapped)
  /\ (forall t : Tensor, interpolate t f_1 Bilinear false = t)
  /\ fst (hr_inference (frame 1 2) (frame 3 4) false f_1 1%Q false wrapped)
     = Raise (AttributeError "calculate_flow")
  /\ fst (hr_inference (frame 1 2) (frame 3 4) false f_1 1%Q false wrapped)
     <> (imgs <- cat [frame 1 2; frame 3 4] 1 ;;
         Ok (direct_infer (net (self wrapped)) imgs 1%Q))%res.
Proof.
  split; [vm_compute; reflexivity|]. split; [intros t; reflexivity|].
  split; [vm_compute; reflexivity|].
  intros H. vm_compute in H. discriminate H.
Qed.

(** C10, as stated for every batch size, fails at [B = 0]: the network
    returns no prediction, [preds[0]] raises [IndexError] and no tensor is
    returned, in [inference] and in [hr_inference].  It fails too for
    [hr_inference] on a wrapped network, whatever the batch size. *)
Lemma fast_TTA_returns_nothing_on_empty_batch :
  (cat [Nd [] : Tensor; Nd []] 1 = Ok (Nd [])
   /\ has_shape [0; 2; 1; 2] (Nd [] : Tensor) = true
   /\ fst (inference (Nd []) (Nd []) false 1%Q true built) = Raise IndexError
   /\ fst (hr_inference (Nd []) (Nd []) false 1%Q 1%Q true built) = Raise IndexError)
  /\ fst (hr_inference (frames2 0 0 2 2) (frames2 0 0 2 2) false 1%Q 1%Q true wrapped)
     = Raise (AttributeError "calculate_flow")
  /\ ~ (forall (s : state) (img0 img1 : Tensor),
          exists r, fst (inference img0 img1 false 1%Q true s) = Ok (Nd [r])).
Proof.
  split; [|split].
  - split; [reflexivity|]. split; [reflexivity|]. split; vm_compute; reflexivity.
  - vm_compute. reflexivity.
  - intros H. destruct (H built (Nd []) (Nd [])) as (r & Hr).
    vm_compute in Hr. discriminate Hr.
Qed.

Lemma frozen_for_life_witness :
  new_Model (-1) disk = (Ok (self built), built)
  /\ frozen (net (self built))
  /\ forall cs, frozen (net (self (run_all cs built))).
Proof.
  assert (H : new_Model (-1) disk = (Ok (self built), built))
    by (vm_compute; reflexivity).
  destruct (frozen_for_life (-1) disk built (self built) H) as (F & _ & Fcs).
  split; [exact H|]. split; [exact F|].
  intros cs. exact (proj1 (Fcs cs)).
Defined.

Lemma save_model_writes_witness :
  (1 <> 0)%Z
  /\ save_model 1 7 true built = (Ok tt, built)
  /\ exists o,
      optimG (self built) = Some o
      /\ get (files (snd (save_model 0 7 true built))) (ckpt_best_path "sgm")
         = Some (saved_record built 7 o)
      /\ In "log/sgm/ckpt" (dirs (snd (save_model 0 7 true built))).
Proof.
  assert (Hr : (1 <> 0)%Z) by discriminate.
  split; [exact Hr|].
  split; [exact (proj1 (save_model_writes built 7 true) 1%Z Hr)|].
  exists (new_AdamW (net (self built))).
  assert (Ho : optimG (self built) = Some (new_AdamW (net (self built))))
    by (vm_compute; reflexivity).
  destruct (proj2 (save_model_writes built 7 true) _ Ho)
    as (_ & Hdir & _ & _ & _ & Hbest & _).
  split; [exact Ho|]. split; [exact Hbest | exact Hdir].
Defined.

(** A disk without any checkpoint, and one with the GMFlow checkpoint only. *)
Lemma missing_checkpoint_is_fatal_witness :
  (get (files (mkState blank [] [] true [])) gmflow_path = None
   /\ exists s', new_Model 0 (mkState blank [] [] true [])
                 = (Raise (FileNotFoundError gmflow_path), s'))
  /\ (get (files (mkState blank [(gmflow_path, gmflow_ckpt)] [] true []))
          (ckpt_path "ours-local") = None
      /\ exists s', new_Model 0 (mkState blank [(gmflow_path, gmflow_ckpt)] [] true [])
                    = (Raise (FileNotFoundError (ckpt_path "ours-local")), s')).
Proof.
  split.
  - assert (H : get (files (mkState blank [] [] true [])) gmflow_path = None)
      by reflexivity.
    split; [exact H|].
    destruct (proj1 (missing_checkpoint_is_fatal 0 (mkState blank [] [] true [])) H)
      as (s' & E & _).
    exists s'. exact E.
  - assert (H : get (files (mkState blank [(gmflow_path, gmflow_ckpt)] [] true []))
                    (ckpt_path "ours-local") = None) by reflexivity.
    split; [exact H|].
    assert (Hsz : any_size_mismatch (sub_key "gmflow")
                    (comprehension (fun k => k)
                       (mem (sub_state_dict "gmflow" MODEL_CONFIG_net))
                       [("w", Nd [Sc 10%Q]); ("unused", Nd [Sc 0%Q])])
                    MODEL_CONFIG_net = false) by (vm_compute; reflexivity).
    destruct (proj2 (missing_checkpoint_is_fatal 0
                       (mkState blank [(gmflow_path, gmflow_ckpt)] [] true []))
                    gmflow_ckpt
                    [("w", Nd [Sc 10%Q]); ("unused", Nd [Sc 0%Q])]
                    eq_refl eq_refl Hsz (Z.le_refl 0) H)
      as (s' & E & _).
    exists s'. exact E.
Defined.

Lemma update_training_step_witness :
  exists o,
    optimG (self built) = Some o
    /\ trace (snd (update (frame 1 2) (frame 3 4) (1 # 10)%Q 1%Q true built))
       = (trace built
          ++ [EvNet Forward true; EvZeroGrad;
              EvBackward
                (total_loss
                   (out_pred (forward (net (self (prepared (1 # 10)%Q true built)))
                                      (frame 1 2) 1%Q))
                   (out_merged (forward (net (self (prepared (1 # 10)%Q true built)))
                                        (frame 1 2) 1%Q))
                   (frame 3 4));
              EvStep])%list.
Proof.
  exists (new_AdamW (net (self built))).
  assert (Ho : optimG (self built) = Some (new_AdamW (net (self built))))
    by (vm_compute; reflexivity).
  split; [exact Ho|].
  exact (proj1 (proj2 (proj2 (update_training_step built (frame 1 2) (frame 3 4)
                                (1 # 10)%Q 1%Q _ Ho)))).
Defined.

Lemma update_eval_is_read_only_witness :
  exists o,
    optimG (self built) = Some o
    /\ named_parameters
         (net (self (snd (update (frame 1 2) (frame 3 4) (1 # 10)%Q 1%Q false built))))
       = named_parameters (net (self built)).
Proof.
  exists (new_AdamW (net (self built))).
  assert (Ho : optimG (self built) = Some (new_AdamW (net (self built))))
    by (vm_compute; reflexivity).
  split; [exact Ho|].
  exact (proj1 (proj2 (update_eval_is_read_only built (frame 1 2) (frame 3 4)
                         (1 # 10)%Q 1%Q _ Ho))).
Defined.

End Examples.

(* ================================================================= *)
(** ** [update]: what a training step writes *)

Section ListFacts.
Context {A B C : Type}.

Lemma Forall2_map_same (R : A -> B -> Prop) (f : A -> B) (l : list A) :
  (forall x, R x (f x)) -> Forall2 R l (map f l).
Proof. intros H. induction l as [|x l IH]; simpl; constructor; auto. Qed.

Lemma Forall2_compose (R1 : A -> B -> Prop) (R2 : B -> C -> Prop)
      (R3 : A -> C -> Prop) :
  (forall x y z, R1 x y -> R2 y z -> R3 x z) ->
  forall l1 l2 l3, Forall2 R1 l1 l2 -> Forall2 R2 l2 l3 -> Forall2 R3 l1 l3.
Proof.
  intros H l1 l2 l3 H12. revert l3.
  induction H12 as [|x y l1 l2 Hxy _ IH]; intros l3 H23; inversion H23; subst.
  - constructor.
  - constructor; eauto.
Qed.

End ListFacts.

Section UpdateWrites.
Context {TT : TorchTypes} {T : Torch}.
Local Open Scope py_scope.

(** The optimizer after the loop over its groups (lines 140-141). *)
Lemma set_lr_run (s : state) (learning_rate : num) (o : AdamW) :
  optimG (self s) = Some o ->
  set_lr learning_rate s
  = (Ok tt,
     with_self (fun m =>
       mkModel (net m) (name m)
         (Some (mkAdamW (map (fun g => mkGroup learning_rate (pg_weight_decay g)
                                               (pg_params g)) (param_groups o))
                        (opt_state o)))) s).
Proof.
  intros Ho. unfold set_lr, bind, get_optimG, modify. now rewrite Ho.
Qed.

Lemma in_groups_set_lr (o : AdamW) (learning_rate : num) (k : string) :
  in_groups (mkAdamW (map (fun g => mkGroup learning_rate (pg_weight_decay g)
                                            (pg_params g)) (param_groups o))
                     (opt_state o)) k
  = in_groups o k.
Proof.
  unfold in_groups. cbn [param_groups].
  induction (param_groups o) as [|g gs IH]; [reflexivity|].
  cbn [map existsb pg_params]. now rewrite IH.
Qed.

(** One optimizer step, entry by entry: names, flags and gradients stay, and
    an entry without a gradient, or one that no group lists, keeps its
    value. *)
Lemma step_groups_spare (st : optim_state) (gs : list param_group) :
  forall ps,
    Forall2 (fun kp kp' =>
               fst kp' = fst kp
               /\ requires_grad (snd kp') = requires_grad (snd kp)
               /\ grad (snd kp') = grad (snd kp)
               /\ (grad (snd kp) = None
                   \/ existsb (fun g => existsb (String.eqb (fst kp)) (pg_params g)) gs
                      = false ->
                   data (snd kp') = data (snd kp)))
            ps (fold_left (fun acc g => step_group st g acc) gs ps).
Proof.
  induction gs as [|g gs IH]; intros ps.
  - cbn [fold_left]. rewrite <- (map_id ps) at 2.
    apply Forall2_map_same. intros kp. repeat split; auto.
  - cbn [fold_left].
    apply Forall2_compose
      with (R1 := fun kp kp' =>
                    fst kp' = fst kp
                    /\ requires_grad (snd kp') = requires_grad (snd kp)
                    /\ grad (snd kp') = grad (snd kp)
                    /\ (grad (snd kp) = None
                        \/ existsb (String.eqb (fst kp)) (pg_params g) = false ->
                        data (snd kp') = data (snd kp)))
           (R2 := fun kp kp' =>
                    fst kp' = fst kp
                    /\ requires_grad (snd kp') = requires_grad (snd kp)
                    /\ grad (snd kp') = grad (snd kp)
                    /\ (grad (snd kp) = None
                        \/ existsb (fun g => existsb (String.eqb (fst kp)) (pg_params g))
                                   gs = false ->
                        data (snd kp') = data (snd kp)))
           (l2 := step_group st g ps).
    + intros x y z (F1 & R1 & G1 & D1) (F2 & R2 & G2 & D2).
      split; [congruence|]. split; [congruence|]. split; [congruence|].
      intros H. rewrite D2, D1; [reflexivity| |].
      * destruct H as [H|H]; [now left|]. right.
        cbn [existsb] in H. apply orb_false_iff in H. tauto.
      * rewrite G1, F1. destruct H as [H|H]; [now left|]. right.
        cbn [existsb] in H. apply orb_false_iff in H. tauto.
    + unfold step_group. apply Forall2_map_same. intros kp.
      destruct (existsb (String.eqb (fst kp)) (pg_params g)) eqn:Eg.
      * destruct (grad (snd kp)) eqn:Egr; cbn [fst snd data requires_grad grad].
        -- split; [reflexivity|]. split; [reflexivity|]. split; [reflexivity|].
           intros [H|H]; discriminate H.
        -- repeat split; auto.
      * repeat split; auto.
    + apply IH.
Qed.

(** The parameters after a training step: gradients reset, gradients
    written by autograd, then the optimizer's groups applied in turn. *)
Lemma update_training_params (s : state) (imgs gt : Tensor)
      (learning_rate timestep : num) (o : AdamW) :
  optimG (self s) = Some o ->
  named_parameters (net (self (snd (update imgs gt learning_rate timestep true s))))
  = fold_left (fun acc g => step_group (opt_state o) g acc)
      (map (fun g => mkGroup learning_rate (pg_weight_decay g) (pg_params g))
           (param_groups o))
      (map (fun kp =>
              if requires_grad (snd kp)
              then (fst kp,
                    mkParam (data (snd kp)) (requires_grad (snd kp))
                      (Some (autograd
                               (net (self (snd (zero_grad
                                  (snd (call_net imgs timestep
                                          (prepared learning_rate true s)))))))
                               imgs timestep gt (fst kp) (grad (snd kp)))))
              else kp)
         (map (fun kp =>
                 if in_groups o (fst kp)
                 then (fst kp, mkParam (data (snd kp)) (requires_grad (snd kp)) None)
                 else kp)
              (named_parameters (net (self s))))).
Proof.
  intros Ho.
  unfold prepared, update, set_lr, train, zero_grad, backward, step, call_net,
    bind, get_optimG, modify, gets, ret.
  cbn [fst snd self optimG with_self with_net log]. rewrite Ho.
  cbn [fst snd self optimG with_self with_net with_params log net named_parameters
       param_groups opt_state].
  f_equal. f_equal.
  apply map_ext. intros kp. now rewrite in_groups_set_lr.
Qed.

(** X1: [update] writes [learning_rate] into every group of the optimizer,
    in training and in evaluation mode alike; the groups keep their weight
    decay and their parameters, and the network is left in the mode the call
    names. *)
Theorem update_sets_learning_rate (s : state) (imgs gt : Tensor)
        (learning_rate timestep : num) (training_arg : bool) (o : AdamW) :
  optimG (self s) = Some o ->
  exists o',
    optimG (self (snd (update imgs gt learning_rate timestep training_arg s))) = Some o'
    /\ param_groups o'
       = map (fun g => mkGroup learning_rate (pg_weight_decay g) (pg_params g))
             (param_groups o)
    /\ Forall (fun g => pg_lr g = learning_rate) (param_groups o')
    /\ (training_arg = false -> opt_state o' = opt_state o)
    /\ training (net (self (snd (update imgs gt learning_rate timestep training_arg s))))
       = training_arg.
Proof.
  intros Ho.
  assert (Hall : Forall (fun g => pg_lr g = learning_rate)
                   (map (fun g => mkGroup learning_rate (pg_weight_decay g) (pg_params g))
                        (param_groups o))).
  { apply Forall_forall. intros g Hg. apply in_map_iff in Hg as (g0 & <- & _).
    reflexivity. }
  destruct training_arg.
  - unfold update, set_lr, train, zero_grad, backward, step, call_net,
      bind, get_optimG, modify, gets, ret.
    cbn [fst snd self optimG with_self with_net log]. rewrite Ho.
    cbn [fst snd self optimG with_self with_net with_params log net training
         param_groups opt_state].
    eexists. split; [reflexivity|].
    cbn [param_groups]. split; [reflexivity|]. split; [exact Hall|].
    split; [discriminate | reflexivity].
  - unfold update, set_lr, eval, no_grad, call_net,
      bind, get_optimG, modify, gets, ret.
    cbn [fst snd self optimG with_self with_net log with_grad_enabled]. rewrite Ho.
    cbn [fst snd self optimG with_self with_net log with_grad_enabled net training].
    eexists. split; [reflexivity|].
    cbn [param_groups opt_state]. split; [reflexivity|]. split; [exact Hall|].
    split; reflexivity.
Qed.

(** X2: a training step leaves the value of every parameter with
    [requires_grad = False] as it was, keeps every name and flag, and leaves
    a parameter of that kind which the optimizer lists without a gradient. *)
Theorem update_training_spares_frozen (s : state) (imgs gt : Tensor)
        (learning_rate timestep : num) (o : AdamW) :
  optimG (self s) = Some o ->
  Forall2 (fun kp kp' =>
             fst kp' = fst kp
             /\ requires_grad (snd kp') = requires_grad (snd kp)
             /\ (requires_grad (snd kp) = false ->
                 data (snd kp') = data (snd kp)
                 /\ (in_groups o (fst kp) = true -> grad (snd kp') = None)))
          (named_parameters (net (self s)))
          (named_parameters
             (net (self (snd (update imgs gt learning_rate timestep true s))))).
Proof.
  intros Ho. rewrite (update_training_params s imgs gt learning_rate timestep o Ho).
  eapply Forall2_compose; [| |apply step_groups_spare].
  2:{ rewrite map_map. apply Forall2_map_same. intros kp.
      instantiate (1 := fun kp kp2 =>
        fst kp2 = fst kp
        /\ requires_grad (snd kp2) = requires_grad (snd kp)
        /\ (requires_grad (snd kp) = false ->
            data (snd kp2) = data (snd kp)
            /\ grad (snd kp2) = if in_groups o (fst kp) then None else grad (snd kp))).
      cbv beta.
      destruct (in_groups o (fst kp)); cbn [fst snd requires_grad data grad];
        destruct (requires_grad (snd kp)) eqn:Er;
        cbn [fst snd requires_grad data grad]; rewrite ?Er;
        repeat split; auto; discriminate. }
  cbv beta. intros x y z (F1 & R1 & D1) (F2 & R2 & G2 & D2).
  split; [congruence|]. split; [congruence|].
  intros Hx. destruct (D1 Hx) as [Dy Gy].
  assert (Hin : existsb (fun g => existsb (String.eqb (fst y)) (pg_params g))
                  (map (fun g => mkGroup learning_rate (pg_weight_decay g) (pg_params g))
                       (param_groups o))
                = in_groups o (fst x)).
  { rewrite F1. apply (in_groups_set_lr o learning_rate (fst x)). }
  destruct (in_groups o (fst x)) eqn:Ei.
  - split.
    + rewrite D2; [exact Dy | now left].
    + intros _. now rewrite G2.
  - split.
    + rewrite D2; [exact Dy | now right].
    + discriminate.
Qed.

(** X3: with the optimizer [__init__] builds (one group), a training step
    gives every parameter that requires a gradient and is listed in the
    group a fresh gradient, computed without what its [.grad] held before,
    and the value AdamW computes from it with the learning rate passed to
    this call. *)
Theorem update_training_moves_trainable (s : state) (imgs gt : Tensor)
        (learning_rate timestep : num) (o : AdamW) (g : param_group) :
  optimG (self s) = Some o ->
  param_groups o = [g] ->
  Forall2 (fun kp kp' =>
             requires_grad (snd kp) = true ->
             existsb (String.eqb (fst kp)) (pg_params g) = true ->
             let fresh :=
               autograd (net (self (snd (zero_grad
                           (snd (call_net imgs timestep
                                   (prepared learning_rate true s)))))))
                        imgs timestep gt (fst kp) None in
             grad (snd kp') = Some fresh
             /\ data (snd kp')
                = adamw_update learning_rate (pg_weight_decay g) (opt_state o)
                               (fst kp) (data (snd kp)) fresh)
          (named_parameters (net (self s)))
          (named_parameters
             (net (self (snd (update imgs gt learning_rate timestep true s))))).
Proof.
  intros Ho Hg. rewrite (update_training_params s imgs gt learning_rate timestep o Ho).
  rewrite Hg. cbn [map fold_left]. unfold step_group. rewrite !map_map.
  apply Forall2_map_same. intros kp Hrg Hin. cbv zeta.
  unfold in_groups. rewrite Hg. cbn [existsb]. rewrite Hin. cbn [orb fst snd requires_grad].
  rewrite Hrg. cbn [fst snd pg_params grad data pg_lr pg_weight_decay]. rewrite Hin.
  split; reflexivity.
Qed.

End UpdateWrites.

(* ================================================================= *)
(** ** The inference paths only observe *)

Section InferenceObserves.
Context {TT : TorchTypes} {T : Torch}.
Local Open Scope py_scope.

Lemma quiet_step_refl s : quiet_step s s.
Proof.
  repeat split. exists []. split; [now rewrite app_nil_r | constructor].
Qed.

Lemma quiet_step_trans s1 s2 s3 :
  quiet_step s1 s2 -> quiet_step s2 s3 -> quiet_step s1 s3.
Proof.
  intros (A1 & B1 & C1 & D1 & e1 & E1 & F1) (A2 & B2 & C2 & D2 & e2 & E2 & F2).
  repeat split; try congruence.
  exists (e1 ++ e2)%list. split.
  - rewrite E2, E1. now rewrite app_assoc.
  - apply Forall_app. split; [exact F1|]. now rewrite <- D1.
Qed.

Lemma quiet_ret {A : Type} (a : A) : quiet (ret a).
Proof. intros s. apply quiet_step_refl. Qed.

Lemma quiet_lift {A : Type} (r : res A) : quiet (lift r).
Proof. intros s. apply quiet_step_refl. Qed.

Lemma quiet_bind {A B : Type} (m : M A) (k : A -> M B) :
  quiet m -> (forall a, quiet (k a)) -> quiet (bind m k).
Proof.
  intros Hm Hk s. unfold bind. specialize (Hm s).
  destruct (m s) as [[a|e] s']; cbn [snd] in *; [|exact Hm].
  eapply quiet_step_trans; [exact Hm | apply Hk].
Qed.

Lemma quiet_log_net entry s :
  quiet_step s (log (EvNet entry (grad_enabled s)) s).
Proof.
  repeat split. exists [EvNet entry (grad_enabled s)]. split; [reflexivity|].
  constructor; [now exists entry | constructor].
Qed.

Lemma quiet_call_net imgs timestep : quiet (call_net imgs timestep).
Proof. intros s. apply quiet_log_net. Qed.

Lemma quiet_call_calculate_flow imgs timestep :
  quiet (call_calculate_flow imgs timestep).
Proof.
  intros s. unfold call_calculate_flow.
  destruct (ddp (net (self s))); [apply quiet_step_refl | apply quiet_log_net].
Qed.

Lemma quiet_call_refine imgs flow mask :
  quiet (call_coraseWarp_and_Refine imgs flow mask).
Proof.
  intros s. unfold call_coraseWarp_and_Refine.
  destruct (ddp (net (self s))); [apply quiet_step_refl | apply quiet_log_net].
Qed.

Create HintDb quiet_db.

#[local] Hint Resolve quiet_ret quiet_lift quiet_call_net quiet_call_calculate_flow
  quiet_call_refine : quiet_db.

Ltac quiet_walk :=
  cbv zeta;
  repeat first
    [ solve [auto with quiet_db]
    | apply quiet_bind; [| intros ?]
    | match goal with
      | |- quiet (if ?b then _ else _) => destruct b
      end ].

Lemma quiet_hr_infer down_scale timestep imgs :
  quiet (hr_infer down_scale timestep imgs).
Proof. unfold hr_infer. quiet_walk. Qed.

#[local] Hint Resolve quiet_hr_infer : quiet_db.

(** Under [torch.no_grad()] a quiet body only observes. *)
Lemma no_grad_observes {A : Type} (body : M A) (s : state) :
  quiet body -> observed_only s (snd (no_grad body s)).
Proof.
  intros Hb. unfold no_grad.
  destruct (Hb (with_grad_enabled false s)) as (H1 & H2 & H3 & H4 & evs & H5 & H6).
  destruct (body (with_grad_enabled false s)) as [r s']. cbn [snd] in *.
  repeat split; try assumption.
  exists evs. split; assumption.
Qed.

(** X4: whatever the flags and whether it returns or raises, [inference]
    and [hr_inference] change nothing of the object or of the disk, leave the
    gradient switch as they found it, and call the network with gradients
    disabled only. *)
Theorem inference_only_observes (s : state) (img0 img1 : Tensor)
        (TTA fast_TTA : bool) (down_scale timestep : num) :
  observed_only s (snd (inference img0 img1 TTA timestep fast_TTA s))
  /\ observed_only s (snd (hr_inference img0 img1 TTA down_scale timestep fast_TTA s)).
Proof.
  split.
  - unfold inference. apply no_grad_observes. quiet_walk.
  - unfold hr_inference. apply no_grad_observes. quiet_walk.
Qed.

End InferenceObserves.

(* ================================================================= *)
(** ** Edge cases of the inference paths *)

Section InferenceEdges.
Context {TT : TorchTypes} {T : Torch}.
Local Open Scope py_scope.

(** Concatenating samples along their leading axis fails in one way only. *)
Lemma cat2_0_raises (a b : Tensor) (e : exn) :
  cat2 0 a b = Raise e -> e = RuntimeError.
Proof.
  destruct a as [x|la], b as [y|lb]; cbn [cat2]; try (intros H; now injection H).
  destruct (same_sizes la lb); intros H; [discriminate H | now injection H].
Qed.

Lemma zipM_cat2_lengths (la : list Tensor) : forall lb,
  List.length la <> List.length lb ->
  zipM (cat2 0) la lb = Raise RuntimeError.
Proof.
  induction la as [|x la IH]; intros [|y lb] H; cbn [zipM]; try reflexivity.
  - now contradiction H.
  - destruct (cat2 0 x y) as [z|e] eqn:E; cbn [res_bind].
    + rewrite IH; [reflexivity|]. cbn [List.length] in H. congruence.
    + now rewrite (cat2_0_raises x y e E).
Qed.

(** Frames with different batch sizes cannot be concatenated along the
    channel axis. *)
Lemma cat_frames_lengths (la lb : list Tensor) :
  List.length la <> List.length lb ->
  cat [Nd la; Nd lb] 1 = Raise RuntimeError.
Proof.
  intros H. unfold cat. cbn [fold_left res_bind cat2].
  now rewrite zipM_cat2_lengths.
Qed.

(** X5: two frame tensors whose batch sizes differ are rejected with a
    [RuntimeError] by [inference] and by [hr_inference], whatever the flags,
    before the network is called: the state, trace included, is the one
    before the call. *)
Theorem inference_rejects_unequal_batches (s : state) (la lb : list Tensor)
        (TTA fast_TTA : bool) (down_scale timestep : num) :
  List.length la <> List.length lb ->
  inference (Nd la) (Nd lb) TTA timestep fast_TTA s = (Raise RuntimeError, s)
  /\ hr_inference (Nd la) (Nd lb) TTA down_scale timestep fast_TTA s
     = (Raise RuntimeError, s).
Proof.
  intros H. unfold inference, hr_inference, no_grad, bind, lift.
  rewrite (cat_frames_lengths la lb H). cbv beta iota.
  now rewrite state_eta.
Qed.

(** X6: on an empty batch, with a network that treats samples one by one,
    the fast path raises [IndexError] (there is no prediction to index)
    while the plain path and the TTA path return the empty batch; the same
    holds for [hr_inference] on a model whose network is not wrapped.  On a
    wrapped network the three paths of [hr_inference] raise
    [AttributeError]. *)
Theorem fast_TTA_fails_on_empty_batch (s : state) (TTA : bool)
        (down_scale timestep : num) (f g : Tensor -> Tensor) :
  per_sample_forward (net (self s)) timestep f ->
  per_sample_infer (net (self s)) down_scale timestep g ->
  (fst (inference (Nd []) (Nd []) TTA timestep true s) = Raise IndexError
   /\ fst (inference (Nd []) (Nd []) false timestep false s) = Ok (Nd [])
   /\ fst (inference (Nd []) (Nd []) true timestep false s) = Ok (Nd []))
  /\ (ddp (net (self s)) = false ->
      fst (hr_inference (Nd []) (Nd []) TTA down_scale timestep true s) = Raise IndexError
      /\ fst (hr_inference (Nd []) (Nd []) false down_scale timestep false s) = Ok (Nd [])
      /\ fst (hr_inference (Nd []) (Nd []) true down_scale timestep false s) = Ok (Nd []))
  /\ (ddp (net (self s)) = true ->
      forall fast_TTA,
        fst (hr_inference (Nd []) (Nd []) TTA down_scale timestep fast_TTA s)
        = Raise (AttributeError "calculate_flow")).
Proof.
  intros Hf Hg.
  assert (Hp : forall n' : Net, n' = net (self s) ->
                 out_pred (forward n' (Nd []) timestep) = Nd []).
  { intros n' ->. now rewrite Hf. }
  assert (Hq : hrInfer_spec (net (self s)) (Nd []) down_scale timestep = Nd []).
  { now rewrite Hg. }
  split.
  - unfold inference, no_grad, bind, lift, call_net, ret.
    cbn [cat fold_left res_bind cat2 zipM flip23 flip mapM same_sizes app
         self net with_grad_enabled log negb fst snd].
    rewrite (Hp _ eq_refl).
    cbn [fast_average tindex nth_error res_bind flip23 flip mapM tadd tdiv tmap map
         fst snd].
    split; [reflexivity|]. split; reflexivity.
  - assert (E1 : cat [@Nd num []; Nd []] 1 = Ok (Nd [])) by reflexivity.
    assert (E2 : flip23 (Nd []) = Ok (Nd [])) by reflexivity.
    assert (E3 : cat [@Nd num []; Nd []] 0 = Ok (Nd [])) by reflexivity.
    split.
    + intros Hd. split; [|split].
      * change (hr_inference (Nd []) (Nd []) TTA down_scale timestep true s)
          with (hr_inference (Nd []) (Nd []) false down_scale timestep true s).
        rewrite (hr_inference_fast_run s _ _ down_scale timestep _ _ _ Hd E1 E2 E3).
        now rewrite Hq.
      * rewrite (hr_inference_plain_run s _ _ _ _ Hd), E1. cbn [fst]. now rewrite Hq.
      * rewrite (hr_inference_TTA_run s _ _ down_scale timestep _ Hd E1), E2.
        cbn [res_bind]. rewrite Hq. reflexivity.
    + intros Hd [|].
      * now rewrite (hr_inference_fast_wrapped s _ _ TTA down_scale timestep _ _ _
                       Hd E1 E2 E3).
      * now rewrite (hr_inference_wrapped_run s _ _ _ TTA down_scale timestep Hd E1).
Qed.

End InferenceEdges.

(* ================================================================= *)
(** ** TTA on a network that commutes with the flip *)

Section TensorDoubling.
Context {A : Type}.

Lemma tmap_tmap (f g : A -> A) (t : tensor A) :
  tmap f (tmap g t) = tmap (fun x => f (g x)) t.
Proof.
  induction t as [x|l IH] using tensor_induction; cbn [tmap]; [reflexivity|].
  f_equal. rewrite map_map. induction IH as [|t l Ht _ IHl]; cbn [map]; [reflexivity|].
  now rewrite Ht, IHl.
Qed.

(** A tensor can always be added to itself. *)
Lemma tadd_self (add : A -> A -> A) (t : tensor A) :
  tadd add t t = Ok (tmap (fun x => add x x) t).
Proof.
  induction t as [x|l IH] using tensor_induction; [reflexivity|].
  rewrite tadd_Nd. cbn [tmap].
  assert (E : zipM (tadd add) l l = Ok (map (tmap (fun x => add x x)) l)).
  { induction IH as [|t l Ht _ IHl]; cbn [zipM map]; [reflexivity|].
    now rewrite Ht, IHl. }
  now rewrite E.
Qed.

End TensorDoubling.

Section EquivariantTTA.
Context {TT : TorchTypes} {T : Torch}.

Lemma average_of_twice (t : Tensor) :
  (forall x, fdiv (fadd x x) f_2 = x) ->
  (sum <- tadd fadd t t ;; Ok (tdiv sum f_2))%res = Ok t.
Proof.
  intros H. rewrite tadd_self. cbn [res_bind]. unfold tdiv.
  rewrite tmap_tmap. now rewrite (tmap_id _ H).
Qed.

(** X7: when halving the double of a number gives the number back, and the
    network commutes with the flip on this input (flipping back its
    prediction for the flipped pair gives its prediction for the pair), the
    TTA path ends as the plain path does, in [inference] and in
    [hr_inference]: both return the plain prediction, but for
    [hr_inference] on a wrapped network, where both raise
    [AttributeError]. *)
Theorem TTA_is_plain_on_equivariant_network (s : state) (img0 img1 imgs imgs_ : Tensor)
        (down_scale timestep : num) :
  (forall x, fdiv (fadd x x) f_2 = x) ->
  cat [img0; img1] 1 = Ok imgs ->
  flip23 imgs = Ok imgs_ ->
  (flip23 (out_pred (forward (net (self s)) imgs_ timestep))
   = Ok (out_pred (forward (net (self s)) imgs timestep)) ->
   fst (inference img0 img1 true timestep false s)
   = Ok (out_pred (forward (net (self s)) imgs timestep))
   /\ fst (inference img0 img1 true timestep false s)
      = fst (inference img0 img1 false timestep false s))
  /\ (flip23 (hrInfer_spec (net (self s)) imgs_ down_scale timestep)
      = Ok (hrInfer_spec (net (self s)) imgs down_scale timestep) ->
      (ddp (net (self s)) = false ->
       fst (hr_inference img0 img1 true down_scale timestep false s)
       = Ok (hrInfer_spec (net (self s)) imgs down_scale timestep))
      /\ (ddp (net (self s)) = true ->
          fst (hr_inference img0 img1 true down_scale timestep false s)
          = Raise (AttributeError "calculate_flow"))
      /\ fst (hr_inference img0 img1 true down_scale timestep false s)
         = fst (hr_inference img0 img1 false down_scale timestep false s)).
Proof.
  intros Hhalf Hcat Hflip. split.
  - intros Heq.
    rewrite (inference_TTA_run s img0 img1 timestep imgs Hcat), Hflip.
    cbn [res_bind]. rewrite Heq. cbn [res_bind].
    rewrite (average_of_twice _ Hhalf). split; [reflexivity|].
    unfold inference, no_grad, bind, lift, call_net, ret.
    rewrite Hcat. reflexivity.
  - intros Heq.
    assert (Hu : ddp (net (self s)) = false ->
                 fst (hr_inference img0 img1 true down_scale timestep false s)
                 = Ok (hrInfer_spec (net (self s)) imgs down_scale timestep)).
    { intros Hd.
      rewrite (hr_inference_TTA_run s img0 img1 down_scale timestep imgs Hd Hcat), Hflip.
      cbn [res_bind]. rewrite Heq. cbn [res_bind].
      now rewrite (average_of_twice _ Hhalf). }
    assert (Hw : forall TTA, ddp (net (self s)) = true ->
                 fst (hr_inference img0 img1 TTA down_scale timestep false s)
                 = Raise (AttributeError "calculate_flow")).
    { intros TTA Hd.
      now rewrite (hr_inference_wrapped_run s img0 img1 imgs TTA down_scale timestep
                     Hd Hcat). }
    split; [exact Hu|]. split; [exact (Hw true)|].
    destruct (ddp (net (self s))) eqn:Hd.
    + now rewrite (Hw true eq_refl), (Hw false eq_refl).
    + rewrite (Hu eq_refl).
      assert (Hd' : ddp (net (self s)) = false) by exact Hd.
      rewrite (hr_inference_plain_run s img0 img1 down_scale timestep Hd'), Hcat.
      reflexivity.
Qed.

End EquivariantTTA.

(* ================================================================= *)
(** ** [load_model]: what it reads, what it leaves *)

Section LoadModel.
Context {TT : TorchTypes} {T : Torch}.
Import PyDict PyDictFacts PyStr PyStrFacts.
Local Open Scope py_scope.

Lemma shape_eqb_eq (a b : list nat) : shape_eqb a b = true -> a = b.
Proof.
  revert b. induction a as [|n a IH]; intros [|m b] H; cbn [shape_eqb] in H;
    try discriminate; [reflexivity|].
  apply andb_true_iff in H as [Hn Hs]. apply Nat.eqb_eq in Hn. f_equal; auto.
Qed.

Lemma load_tensor_shape key_of sd k (old : Tensor) :
  shape (load_tensor key_of sd k old) = shape old.
Proof.
  unfold load_tensor. destruct (incoming key_of sd k) as [v|]; [|reflexivity].
  destruct (shape_eqb (shape v) (shape old)) eqn:E; [|reflexivity].
  now apply shape_eqb_eq.
Qed.

Lemma keeps_skeleton_load_state_dict key_of sd :
  keeps skeleton (load_state_dict key_of sd).
Proof.
  intros s. unfold load_state_dict, skeleton.
  cbn [fst snd self net with_net with_self named_parameters named_buffers training
       on_cuda ddp name optimG files dirs grad_enabled].
  rewrite !map_map. cbn [fst snd requires_grad grad data].
  rewrite (map_ext _ (fun kp : string * Param =>
                        (fst kp, requires_grad (snd kp), grad (snd kp),
                         shape (data (snd kp)))))
    by (intros kp; now rewrite load_tensor_shape).
  rewrite (map_ext _ (fun kb : string * Tensor => (fst kb, shape (snd kb))))
    by (intros kb; now rewrite load_tensor_shape).
  reflexivity.
Qed.

Lemma keeps_skeleton_print msg : keeps skeleton (print msg).
Proof. intros s. reflexivity. Qed.

Lemma keeps_skeleton_torch_load path : keeps skeleton (torch_load path).
Proof. intros s. unfold torch_load. now destruct (get (files s) path). Qed.

Lemma keeps_skeleton_getitem_model c : keeps skeleton (getitem_model c).
Proof. intros s. unfold getitem_model. now destruct (ck_model c). Qed.

(** [load_model] below rank 1, with the checkpoint on disk and its ['model']
    entry present. *)
Lemma load_model_run (s : state) (name_arg : option string) (rank : Z)
      (c : ckpt) (raw : dict Tensor) :
  (rank <= 0)%Z ->
  get (files s) (ckpt_path (chosen_name name_arg s)) = Some c ->
  ck_model c = Some raw ->
  load_model name_arg rank s
  = load_state_dict (fun k => Some (state_dict_key (net (self s)) k)) (convert raw)
      (log (EvPrint (loading_message (chosen_name name_arg s))) s).
Proof.
  intros Hr Hc Hraw. unfold load_model. apply Z.leb_le in Hr. rewrite Hr.
  rewrite bind_gets. unfold print at 1. rewrite bind_modify.
  erewrite bind_Ok; [|apply torch_load_found; exact Hc].
  erewrite bind_Ok; [|apply getitem_model_found; exact Hraw].
  rewrite bind_gets. reflexivity.
Qed.

(** X8: the edges of [load_model].  Above rank 0 it does nothing at all.
    Otherwise it reads ["log/<name>/ckpt/<name>.pkl"], with [self.name] for
    [<name>] when no name is given; a missing file is a [FileNotFoundError]
    and a checkpoint without the key ['model'] a [KeyError], both raised
    after the message is printed and before the network is touched. *)
Theorem load_model_edges (s : state) (name_arg : option string) (rank : Z) :
  ((0 < rank)%Z -> load_model name_arg rank s = (Ok tt, s))
  /\ ((rank <= 0)%Z ->
      get (files s) (ckpt_path (chosen_name name_arg s)) = None ->
      load_model name_arg rank s
      = (Raise (FileNotFoundError (ckpt_path (chosen_name name_arg s))),
         log (EvPrint (loading_message (chosen_name name_arg s))) s))
  /\ ((rank <= 0)%Z ->
      forall c, get (files s) (ckpt_path (chosen_name name_arg s)) = Some c ->
                ck_model c = None ->
                load_model name_arg rank s
                = (Raise (KeyError "model"),
                   log (EvPrint (loading_message (chosen_name name_arg s))) s))
  /\ chosen_name None s = name (self s)
  /\ (forall n, chosen_name (Some n) s = n).
Proof.
  split; [|split; [|split; [|split; reflexivity]]].
  - intros Hr. unfold load_model.
    replace (rank <=? 0)%Z with false; [reflexivity|].
    symmetry. apply Z.leb_gt. exact Hr.
  - intros Hr Hnone. unfold load_model. apply Z.leb_le in Hr. rewrite Hr.
    rewrite bind_gets. unfold print at 1. rewrite bind_modify.
    apply bind_Raise, torch_load_missing. exact Hnone.
  - intros Hr c Hc Hnone. unfold load_model. apply Z.leb_le in Hr. rewrite Hr.
    rewrite bind_gets. unfold print at 1. rewrite bind_modify.
    erewrite bind_Ok; [|apply torch_load_found; exact Hc].
    apply bind_Raise. unfold getitem_model. now rewrite Hnone.
Qed.

(** X9: whether it returns or raises, [load_model] changes values only:
    the names, [requires_grad] flags, gradients and sizes of the parameters,
    the names and sizes of the buffers, the mode, the device, the wrapper, the
    model's name, the optimizer, the disk and the gradient switch are those
    before the call. *)
Theorem load_model_changes_values_only (s : state) (name_arg : option string)
        (rank : Z) :
  skeleton (snd (load_model name_arg rank s)) = skeleton s.
Proof.
  revert s. change (keeps skeleton (load_model name_arg rank)).
  unfold load_model. destruct (rank <=? 0)%Z; [|apply keeps_ret].
  apply keeps_bind; [apply keeps_gets | intros nm].
  apply keeps_bind; [apply keeps_skeleton_print | intros _].
  apply keeps_bind; [apply keeps_skeleton_torch_load | intros c].
  apply keeps_bind; [apply keeps_skeleton_getitem_model | intros raw].
  apply keeps_bind; [apply keeps_gets | intros n].
  apply keeps_skeleton_load_state_dict.
Qed.

End LoadModel.

(* ================================================================= *)
(** ** Checkpoints that load nothing *)

Section LoadsNothing.
Context {TT : TorchTypes} {T : Torch}.
Import PyDict PyDictFacts PyStr PyStrFacts.
Local Open Scope py_scope.

Lemma existsb_false {A : Type} (f : A -> bool) (l : list A) :
  (forall x, In x l -> f x = false) -> existsb f l = false.
Proof.
  intros H. induction l as [|x l IH]; [reflexivity|].
  cbn [existsb]. rewrite (H x) by now left.
  apply IH. intros y Hy. apply H. now right.
Qed.

(** When no entry of the network finds a tensor in [sd], [load_state_dict]
    returns and the state is the one before. *)
Lemma load_state_dict_nothing key_of (sd : dict Tensor) (s : state) :
  (forall k, In k (entry_names (net (self s))) -> incoming key_of sd k = None) ->
  load_state_dict key_of sd s = (Ok tt, s).
Proof.
  intros H. unfold load_state_dict.
  assert (Hp : forall kp, In kp (named_parameters (net (self s))) ->
                          incoming key_of sd (fst kp) = None).
  { intros kp Hin. apply H. unfold entry_names. apply in_or_app. left.
    now apply in_map. }
  assert (Hb : forall kb, In kb (named_buffers (net (self s))) ->
                          incoming key_of sd (fst kb) = None).
  { intros kb Hin. apply H. unfold entry_names. apply in_or_app. right.
    now apply in_map. }
  assert (Hm : any_size_mismatch key_of sd (net (self s)) = false).
  { unfold any_size_mismatch. apply orb_false_iff. split; apply existsb_false.
    - intros kp Hin. unfold size_mismatch. now rewrite (Hp kp Hin).
    - intros kb Hin. unfold size_mismatch. now rewrite (Hb kb Hin). }
  cbv zeta. rewrite Hm. f_equal.
  assert (E1 : map (fun kp : string * Param =>
                      (fst kp,
                       mkParam (load_tensor key_of sd (fst kp) (data (snd kp)))
                               (requires_grad (snd kp)) (grad (snd kp))))
                   (named_parameters (net (self s)))
               = named_parameters (net (self s))).
  { rewrite <- (map_id (named_parameters (net (self s)))) at 2.
    apply map_ext_in. intros [k [d r g]] Hin. unfold load_tensor.
    now rewrite (Hp _ Hin). }
  assert (E2 : map (fun kb : string * Tensor =>
                      (fst kb, load_tensor key_of sd (fst kb) (snd kb)))
                   (named_buffers (net (self s)))
               = named_buffers (net (self s))).
  { rewrite <- (map_id (named_buffers (net (self s)))) at 2.
    apply map_ext_in. intros [k b] Hin. unfold load_tensor.
    now rewrite (Hb _ Hin). }
  rewrite E1, E2.
  destruct s as [[[ps bs tr c d] nm o] f dd g t]. reflexivity.
Qed.

Lemma comprehension_none {V : Type} (key : string -> string) (keep : string -> bool)
      (items : dict V) :
  (forall k, In k (keys items) -> keep k = false) ->
  comprehension key keep items = [].
Proof.
  unfold comprehension. generalize (@nil (string * V)) as acc.
  induction items as [|[k v] items IH]; intros acc H; [reflexivity|].
  cbn [fold_left fst snd]. rewrite (H k) by now left.
  apply IH. intros k0 Hk0. apply H. now right.
Qed.

(** Where a kept value comes from. *)
Lemma last_kept_Some {V : Type} (key : string -> string) (keep : string -> bool)
      (items : dict V) (k' : string) (v : V) :
  last_kept key keep items k' = Some v ->
  exists k, In (k, v) items /\ keep k = true /\ key k = k'.
Proof.
  induction items as [|[k0 v0] items IH]; cbn [last_kept]; [discriminate|].
  destruct (last_kept key keep items k') as [v'|] eqn:E.
  - intros H. injection H as <-. destruct (IH eq_refl) as (k & Hin & Hk).
    exists k. split; [now right | exact Hk].
  - destruct (keep k0) eqn:Ek; cbn [andb]; [|discriminate].
    destruct (String.eqb (key k0) k') eqn:Ee; [|discriminate].
    intros H. injection H as <-. apply String.eqb_eq in Ee.
    exists k0. split; [now left | now split].
Qed.

Lemma contains_leading (p s : string) : contains p (p ++ s) = true.
Proof.
  destruct (p ++ s)%string eqn:E; cbn [contains];
    rewrite <- E, prefix_refl_app; reflexivity.
Qed.

(** X10: a checkpoint none of whose keys contains ["module."] (one written
    by a model that was not wrapped, say) converts to the empty dict, and
    [load_model] returns normally without having changed anything but the
    trace: the checkpoint is ignored in silence. *)
Theorem checkpoint_without_marker_loads_nothing (s : state)
        (name_arg : option string) (rank : Z) (c : ckpt) (raw : dict Tensor) :
  (rank <= 0)%Z ->
  get (files s) (ckpt_path (chosen_name name_arg s)) = Some c ->
  ck_model c = Some raw ->
  (forall k, In k (keys raw) -> contains "module." k = false) ->
  convert raw = []
  /\ load_model name_arg rank s
     = (Ok tt, log (EvPrint (loading_message (chosen_name name_arg s))) s).
Proof.
  intros Hr Hc Hraw Hfree.
  assert (E : convert raw = (@nil (string * Tensor))).
  { apply comprehension_none. intros k Hk. unfold convert_keep.
    now rewrite (Hfree k Hk). }
  split; [exact E|].
  rewrite (load_model_run s name_arg rank c raw Hr Hc Hraw), E.
  apply load_state_dict_nothing. intros k _. unfold incoming.
  reflexivity.
Qed.

(** X11: once [self.net] is the [DistributedDataParallel] wrapper, the
    entries answer to keys that start with ["module."], the very marker
    [convert] deletes: a checkpoint whose kept keys carry the marker once, as
    their prefix, then gives no entry a value, and [load_model] returns
    normally without having changed anything but the trace. *)
Theorem wrapped_model_loads_nothing (s : state) (name_arg : option string)
        (rank : Z) (c : ckpt) (raw : dict Tensor) :
  ddp (net (self s)) = true ->
  (rank <= 0)%Z ->
  get (files s) (ckpt_path (chosen_name name_arg s)) = Some c ->
  ck_model c = Some raw ->
  (forall k, In k (keys raw) -> convert_keep k = true ->
             exists r, k = "module." ++ r /\ contains "module." r = false) ->
  load_model name_arg rank s
  = (Ok tt, log (EvPrint (loading_message (chosen_name name_arg s))) s).
Proof.
  intros Hd Hr Hc Hraw Hfmt.
  rewrite (load_model_run s name_arg rank c raw Hr Hc Hraw).
  apply load_state_dict_nothing. intros k _. unfold incoming, state_dict_key.
  rewrite Hd. unfold convert. rewrite get_comprehension.
  destruct (last_kept convert_key convert_keep raw ("module." ++ k)) as [v|] eqn:E;
    [|reflexivity].
  exfalso.
  destruct (last_kept_Some _ _ _ _ _ E) as (k0 & Hin & Hkeep & Hkey).
  destruct (Hfmt k0) as (r & -> & Hfree); [|exact Hkeep|].
  - unfold keys. apply in_map_iff. now exists (k0, v).
  - rewrite convert_key_prefix_only in Hkey by exact Hfree. subst r.
    rewrite contains_leading in Hfree. discriminate Hfree.
Qed.

End LoadsNothing.

(* ================================================================= *)
(** ** Saving under the wrapper, loading without it *)

Section RoundTrip.
Context {TT : TorchTypes} {T : Torch}.
Import PyDict PyDictFacts PyStr PyStrFacts.
Local Open Scope py_scope.

(** The files after [save_model] on rank 0. *)
Lemma save_model_files (s : state) (epoch : Z) (best : bool) (o : AdamW) :
  optimG (self s) = Some o ->
  files (snd (save_model 0 epoch best s))
  = if best
    then set (set (files s) (ckpt_path (name (self s))) (saved_record s epoch o))
             (ckpt_best_path (name (self s))) (saved_record s epoch o)
    else set (files s) (ckpt_path (name (self s))) (saved_record s epoch o).
Proof.
  intros Ho.
  unfold save_model, snapshot, bind, gets, get_optimG, makedirs_exist_ok,
    torch_save, modify, ret. simpl. rewrite Ho.
  destruct best; simpl; rewrite ?Ho; reflexivity.
Qed.

Lemma save_model_primary (s : state) (epoch : Z) (best : bool) (o : AdamW) :
  optimG (self s) = Some o ->
  get (files (snd (save_model 0 epoch best s))) (ckpt_path (name (self s)))
  = Some (saved_record s epoch o).
Proof.
  intros Ho. rewrite (save_model_files s epoch best o Ho).
  pose proof (ckpt_paths_differ (name (self s))) as Hne.
  destruct best; rewrite ?get_set.
  - apply String.eqb_neq in Hne. rewrite String.eqb_sym, Hne.
    now rewrite String.eqb_refl.
  - now rewrite String.eqb_refl.
Qed.

(** A name free of the three substrings is kept under the wrapper's prefix
    and comes back when the prefix is deleted. *)
Lemma keep_wrapped (k : string) :
  contains "module." k = false -> contains "attn_mask" k = false ->
  contains "HW" k = false ->
  convert_keep ("module." ++ k) = true /\ convert_key ("module." ++ k) = k.
Proof.
  intros H1 H2 H3. split.
  - unfold convert_keep. rewrite contains_leading.
    replace (contains "attn_mask" ("module." ++ k)) with (contains "attn_mask" k)
      by reflexivity.
    replace (contains "HW" ("module." ++ k)) with (contains "HW" k) by reflexivity.
    now rewrite H2, H3.
  - now apply convert_key_prefix_only.
Qed.

(** The state dict of a wrapped network, converted: every entry is found
    again under its own name, provided the names are distinct and free of
    the three substrings. *)
Lemma last_kept_wrapped_absent (items : dict Tensor) (k : string) :
  (forall k0, In k0 (map fst items) ->
              contains "module." k0 = false /\ contains "attn_mask" k0 = false
              /\ contains "HW" k0 = false) ->
  ~ In k (map fst items) ->
  last_kept convert_key convert_keep
            (map (fun kv => ("module." ++ fst kv, snd kv)) items) k = None.
Proof.
  induction items as [|[k0 v0] items IH]; intros Hc Hn; [reflexivity|].
  cbn [map last_kept fst snd].
  rewrite IH; [| intros k1 H1; apply Hc; now right
               | intros H; apply Hn; now right].
  destruct (Hc k0 (or_introl eq_refl)) as (C1 & C2 & C3).
  destruct (keep_wrapped k0 C1 C2 C3) as [-> ->]. cbn [andb].
  destruct (String.eqb k0 k) eqn:E; [|reflexivity].
  apply String.eqb_eq in E. subst k0. exfalso. apply Hn. now left.
Qed.

Lemma last_kept_wrapped_present (items : dict Tensor) (k : string) (v : Tensor) :
  NoDup (map fst items) ->
  (forall k0, In k0 (map fst items) ->
              contains "module." k0 = false /\ contains "attn_mask" k0 = false
              /\ contains "HW" k0 = false) ->
  In (k, v) items ->
  last_kept convert_key convert_keep
            (map (fun kv => ("module." ++ fst kv, snd kv)) items) k = Some v.
Proof.
  induction items as [|[k0 v0] items IH]; intros Hnd Hc Hin; [contradiction|].
  cbn [map fst] in Hnd. inversion Hnd as [|? ? Hnot Hnd']; subst.
  cbn [map last_kept fst snd].
  destruct Hin as [E|Hin].
  - injection E as -> ->.
    rewrite last_kept_wrapped_absent;
      [| intros k1 H1; apply Hc; now right | exact Hnot].
    destruct (Hc k (or_introl eq_refl)) as (C1 & C2 & C3).
    destruct (keep_wrapped k C1 C2 C3) as [-> ->]. cbn [andb].
    now rewrite String.eqb_refl.
  - rewrite IH; [reflexivity | exact Hnd' | intros k1 H1; apply Hc; now right
                 | exact Hin].
Qed.

Lemma state_dict_wrapped (n : Net) :
  ddp n = true ->
  state_dict n
  = map (fun kv => ("module." ++ fst kv, snd kv))
        (map (fun kp => (fst kp, data (snd kp))) (named_parameters n)
         ++ named_buffers n)%list.
Proof.
  intros Hd. unfold state_dict, state_dict_key. rewrite Hd.
  rewrite map_app, map_map. reflexivity.
Qed.

Lemma load_tensor_found key_of (sd : dict Tensor) (k : string) (old v : Tensor) :
  incoming key_of sd k = Some v -> shape old = shape v ->
  load_tensor key_of sd k old = v /\ size_mismatch key_of sd k old = false.
Proof.
  intros Hi Hs. unfold load_tensor, size_mismatch.
  now rewrite Hi, Hs, shape_eqb_refl.
Qed.

(** Loading entry by entry: every entry that finds a tensor of its size
    takes it, and no size is reported. *)
Lemma load_params_found key_of (sd : dict Tensor)
      (ps3 ps1 : list (string * Param)) :
  Forall2 (fun kp3 kp1 =>
             incoming key_of sd (fst kp3) = Some (data (snd kp1))
             /\ fst kp3 = fst kp1
             /\ shape (data (snd kp3)) = shape (data (snd kp1))) ps3 ps1 ->
  map (fun kp => (fst kp, data (snd kp)))
      (map (fun kp : string * Param =>
              (fst kp, mkParam (load_tensor key_of sd (fst kp) (data (snd kp)))
                               (requires_grad (snd kp)) (grad (snd kp)))) ps3)
  = map (fun kp => (fst kp, data (snd kp))) ps1
  /\ existsb (fun kp => size_mismatch key_of sd (fst kp) (data (snd kp))) ps3 = false.
Proof.
  induction 1 as [|kp3 kp1 ps3 ps1 (Hi & Hk & Hs) _ [IH1 IH2]]; [now split|].
  cbn [map existsb fst snd data].
  destruct (load_tensor_found key_of sd _ _ _ Hi Hs) as [-> ->].
  cbn [orb]. rewrite IH1, Hk. now split.
Qed.

Lemma load_buffers_found key_of (sd : dict Tensor)
      (bs3 bs1 : list (string * Tensor)) :
  Forall2 (fun kb3 kb1 =>
             incoming key_of sd (fst kb3) = Some (snd kb1)
             /\ fst kb3 = fst kb1
             /\ shape (snd kb3) = shape (snd kb1)) bs3 bs1 ->
  map (fun kb : string * Tensor =>
         (fst kb, load_tensor key_of sd (fst kb) (snd kb))) bs3
  = bs1
  /\ existsb (fun kb => size_mismatch key_of sd (fst kb) (snd kb)) bs3 = false.
Proof.
  induction 1 as [|kb3 kb1 bs3 bs1 (Hi & Hk & Hs) _ [IH1 IH2]]; [now split|].
  cbn [map existsb fst snd].
  destruct (load_tensor_found key_of sd _ _ _ Hi Hs) as [-> ->].
  cbn [orb]. rewrite IH1, Hk. destruct kb1. now split.
Qed.

Lemma Forall2_impl_in {A B : Type} (R R' : A -> B -> Prop) (l1 : list A) (l2 : list B) :
  (forall x y, In y l2 -> R x y -> R' x y) -> Forall2 R l1 l2 -> Forall2 R' l1 l2.
Proof.
  intros H F. induction F as [|x y l1 l2 Hxy _ IH]; constructor.
  - apply H; [now left | exact Hxy].
  - apply IH. intros x0 y0 Hy. apply H. now right.
Qed.

(** X12: the round trip the class is made for.  A wrapped model whose entry
    names are distinct and contain none of ["module."], ["attn_mask"] and
    ["HW"] saves its checkpoint on rank 0; a model that is not wrapped, has
    the same name and entries of the same names and sizes, and finds that
    checkpoint on disk then loads it without error and holds exactly the
    saved values, parameters and buffers alike. *)
Theorem save_then_load_restores (s1 s3 : state) (epoch : Z) (best : bool) (o : AdamW) :
  optimG (self s1) = Some o ->
  ddp (net (self s1)) = true ->
  NoDup (entry_names (net (self s1))) ->
  (forall k, In k (entry_names (net (self s1))) ->
             contains "module." k = false /\ contains "attn_mask" k = false
             /\ contains "HW" k = false) ->
  files s3 = files (snd (save_model 0 epoch best s1)) ->
  name (self s3) = name (self s1) ->
  ddp (net (self s3)) = false ->
  Forall2 (fun kp3 kp1 => fst kp3 = fst kp1
                          /\ shape (data (snd kp3)) = shape (data (snd kp1)))
          (named_parameters (net (self s3))) (named_parameters (net (self s1))) ->
  Forall2 (fun kb3 kb1 => fst kb3 = fst kb1 /\ shape (snd kb3) = shape (snd kb1))
          (named_buffers (net (self s3))) (named_buffers (net (self s1))) ->
  fst (load_model None 0 s3) = Ok tt
  /\ map (fun kp => (fst kp, data (snd kp)))
         (named_parameters (net (self (snd (load_model None 0 s3)))))
     = map (fun kp => (fst kp, data (snd kp))) (named_parameters (net (self s1)))
  /\ named_buffers (net (self (snd (load_model None 0 s3))))
     = named_buffers (net (self s1)).
Proof.
  intros Ho Hd1 Hnd Hclean Hfiles Hname Hd3 Hps Hbs.
  assert (Hc : get (files s3) (ckpt_path (chosen_name None s3))
               = Some (saved_record s1 epoch o)).
  { cbn [chosen_name]. rewrite Hfiles, Hname. now apply save_model_primary. }
  rewrite (load_model_run s3 None 0 _ _ (Z.le_refl 0) Hc eq_refl).
  rewrite (state_dict_wrapped _ Hd1).
  set (items := (map (fun kp => (fst kp, data (snd kp)))
                     (named_parameters (net (self s1)))
                 ++ named_buffers (net (self s1)))%list).
  set (sd := convert (map (fun kv => ("module." ++ fst kv, snd kv)) items)).
  set (key_of := fun k => Some (state_dict_key (net (self s3)) k)).
  assert (Hnames : map fst items = entry_names (net (self s1))).
  { unfold items, entry_names. now rewrite map_app, map_map. }
  assert (Hget : forall k v, In (k, v) items -> incoming key_of sd k = Some v).
  { intros k v Hin. unfold incoming, key_of, state_dict_key. rewrite Hd3.
    unfold sd, convert. rewrite get_comprehension.
    apply last_kept_wrapped_present; [now rewrite Hnames | | exact Hin].
    intros k0 Hk0. apply Hclean. now rewrite <- Hnames. }
  assert (Fp : Forall2 (fun kp3 kp1 =>
                          incoming key_of sd (fst kp3) = Some (data (snd kp1))
                          /\ fst kp3 = fst kp1
                          /\ shape (data (snd kp3)) = shape (data (snd kp1)))
                       (named_parameters (net (self s3)))
                       (named_parameters (net (self s1)))).
  { eapply Forall2_impl_in; [|exact Hps]. cbv beta.
    intros kp3 kp1 Hin [Hk Hs]. split; [|now split].
    rewrite Hk. apply Hget. unfold items. apply in_or_app. left.
    apply in_map_iff. now exists kp1. }
  assert (Fb : Forall2 (fun kb3 kb1 =>
                          incoming key_of sd (fst kb3) = Some (snd kb1)
                          /\ fst kb3 = fst kb1
                          /\ shape (snd kb3) = shape (snd kb1))
                       (named_buffers (net (self s3)))
                       (named_buffers (net (self s1)))).
  { eapply Forall2_impl_in; [|exact Hbs]. cbv beta.
    intros kb3 kb1 Hin [Hk Hs]. split; [|now split].
    rewrite Hk. apply Hget. unfold items. apply in_or_app. right.
    now destruct kb1. }
  destruct (load_params_found key_of sd _ _ Fp) as [Ep Mp].
  destruct (load_buffers_found key_of sd _ _ Fb) as [Eb Mb].
  unfold load_state_dict, any_size_mismatch.
  cbn [fst snd self net log with_net with_self named_parameters named_buffers].
  rewrite Mp, Mb. cbn [orb].
  split; [reflexivity|]. split; [exact Ep | exact Eb].
Qed.

End RoundTrip.

(* ================================================================= *)
(** ** Successive saves *)

Section SuccessiveSaves.
Context {TT : TorchTypes} {T : Torch}.
Import PyDict PyDictFacts.
Local Open Scope py_scope.

Lemma save_model_self (s : state) (rank epoch : Z) (best : bool) :
  self (snd (save_model rank epoch best s)) = self s.
Proof.
  unfold save_model. destruct (rank =? 0)%Z; [|reflexivity].
  unfold snapshot, bind, gets, get_optimG, makedirs_exist_ok, torch_save, modify, ret.
  simpl. destruct (optimG (self s)); [|reflexivity].
  destruct best; simpl; [|reflexivity].
  destruct (optimG (self s)); reflexivity.
Qed.

(** X13: the primary file always holds the latest save, and the [_best] file
    holds the latest save made with [best] set: after a best save at epoch
    [e1] and a later ordinary save at epoch [e2], the primary file records
    [e2] and the [_best] file still records [e1]. *)
Theorem best_checkpoint_survives (s : state) (e1 e2 : Z) (o : AdamW) :
  optimG (self s) = Some o ->
  let s1 := snd (save_model 0 e1 true s) in
  let s2 := snd (save_model 0 e2 false s1) in
  get (files s1) (ckpt_path (name (self s))) = Some (saved_record s e1 o)
  /\ get (files s1) (ckpt_best_path (name (self s))) = Some (saved_record s e1 o)
  /\ get (files s2) (ckpt_path (name (self s))) = Some (saved_record s e2 o)
  /\ get (files s2) (ckpt_best_path (name (self s))) = Some (saved_record s e1 o)
  /\ (e1 <> e2 -> saved_record s e1 o <> saved_record s e2 o).
Proof.
  intros Ho s1 s2.
  pose proof (ckpt_paths_differ (name (self s))) as Hne.
  assert (Hself : self s1 = self s) by apply save_model_self.
  assert (Ho1 : optimG (self s1) = Some o) by now rewrite Hself.
  assert (F1 : files s1
               = set (set (files s) (ckpt_path (name (self s))) (saved_record s e1 o))
                     (ckpt_best_path (name (self s))) (saved_record s e1 o)).
  { apply (save_model_files s e1 true o Ho). }
  assert (F2 : files s2
               = set (files s1) (ckpt_path (name (self s))) (saved_record s e2 o)).
  { unfold s2. rewrite (save_model_files s1 e2 false o Ho1).
    unfold saved_record. now rewrite Hself. }
  assert (B1 : get (files s1) (ckpt_best_path (name (self s)))
               = Some (saved_record s e1 o)).
  { rewrite F1, get_set. now rewrite String.eqb_refl. }
  split; [apply (save_model_primary s e1 true o Ho)|].
  split; [exact B1|].
  split.
  - rewrite F2, get_set. now rewrite String.eqb_refl.
  - split.
    + rewrite F2, get_set. apply String.eqb_neq in Hne. now rewrite Hne.
    + intros He H. unfold saved_record in H. injection H as H. contradiction.
Qed.

End SuccessiveSaves.

(* ================================================================= *)
(** ** [convert] returns a dict *)

Section ConvertWellFormed.
Import PyDict PyDictFacts.

Lemma set_keys {V : Type} (d : dict V) (k : string) (v : V) :
  keys (set d k v) = if mem d k then keys d else (keys d ++ [k])%list.
Proof.
  unfold mem, keys. induction d as [|[k0 v0] d IH]; [reflexivity|].
  cbn [set get]. destruct (String.eqb k0 k) eqn:E; [reflexivity|].
  cbn [map fst]. rewrite IH. now destruct (get d k).
Qed.

Lemma mem_keys {V : Type} (d : dict V) (k : string) :
  mem d k = true <-> In k (keys d).
Proof.
  unfold mem, keys. induction d as [|[k0 v0] d IH]; cbn [get map fst In].
  - split; [discriminate | contradiction].
  - destruct (String.eqb k0 k) eqn:E.
    + apply String.eqb_eq in E. split; [now left | reflexivity].
    + apply String.eqb_neq in E. rewrite IH. split; [now right|].
      intros [H|H]; [contradiction | exact H].
Qed.

Lemma set_NoDup {V : Type} (d : dict V) (k : string) (v : V) :
  NoDup (keys d) -> NoDup (keys (set d k v)).
Proof.
  intros H. rewrite set_keys. destruct (mem d k) eqn:E; [exact H|].
  apply NoDup_app; [exact H | repeat constructor; intros [] |].
  intros x Hx [<-|[]]. apply mem_keys in Hx. congruence.
Qed.

Lemma set_In {V : Type} (d : dict V) (k : string) (v : V) (k' : string) (v' : V) :
  In (k', v') (set d k v) -> (k', v') = (k, v) \/ In (k', v') d.
Proof.
  induction d as [|[k0 v0] d IH]; cbn [set].
  - intros [H|[]]. left. now symmetry.
  - destruct (String.eqb k0 k) eqn:E.
    + apply String.eqb_eq in E. subst k0. intros [H|H].
      * left. now symmetry.
      * right. now right.
    + intros [H|H]; [right; now left|].
      destruct (IH H) as [H'|H']; [now left | right; now right].
Qed.

(** X14: whatever mapping it is given, [convert] returns a dict: no key
    occurs twice; every item of the result is a kept item of the input under
    its new key; and the result has at most as many items as the input. *)
Theorem convert_returns_a_dict (V : Type) (raw : dict V) :
  NoDup (keys (convert raw))
  /\ (forall k' v, In (k', v) (convert raw) ->
                   exists k, In (k, v) raw /\ convert_keep k = true
                             /\ convert_key k = k')
  /\ (forall k, In k (keys raw) -> convert_keep k = true ->
                In (convert_key k) (keys (convert raw)))
  /\ List.length (convert raw) <= List.length raw.
Proof.
  unfold convert, comprehension.
  assert (G : forall (items acc : dict V),
             NoDup (keys acc) ->
             let out := fold_left
                          (fun acc kv => if convert_keep (fst kv)
                                         then set acc (convert_key (fst kv)) (snd kv)
                                         else acc) items acc in
             NoDup (keys out)
             /\ (forall k' v, In (k', v) out ->
                              In (k', v) acc
                              \/ exists k, In (k, v) items /\ convert_keep k = true
                                           /\ convert_key k = k')
             /\ (forall k', In k' (keys acc) -> In k' (keys out))
             /\ (forall k, In k (keys items) -> convert_keep k = true ->
                           In (convert_key k) (keys out))
             /\ List.length out <= List.length acc + List.length items).
  { induction items as [|[k v] items IH]; intros acc Hacc; cbn [fold_left fst snd].
    - cbv zeta. split; [exact Hacc|]. split; [intros; now left|].
      split; [auto|]. split; [intros k [] | cbn [List.length]; lia].
    - destruct (convert_keep k) eqn:Ek.
      + destruct (IH (set acc (convert_key k) v) (set_NoDup _ _ _ Hacc))
          as (N & I & K & J & L).
        cbv zeta. split; [exact N|]. split; [|split; [|split]].
        * intros k' v' Hin. destruct (I k' v' Hin) as [H|(k0 & H0 & H1)].
          -- destruct (set_In _ _ _ _ _ H) as [E|H'].
             ++ injection E as -> ->. right. exists k. repeat split; auto. now left.
             ++ now left.
          -- right. exists k0. split; [now right | exact H1].
        * intros k' Hk'. apply K. rewrite set_keys.
          destruct (mem acc (convert_key k)); [exact Hk'|].
          apply in_or_app. now left.
        * intros k0 [<-|Hk0] Hkeep.
          -- apply K. rewrite set_keys.
             destruct (mem acc (convert_key k)) eqn:Em.
             ++ now apply mem_keys.
             ++ apply in_or_app. right. now left.
          -- now apply J.
        * assert (List.length (set acc (convert_key k) v) <= S (List.length acc)).
          { clear. induction acc as [|[k0 v0] acc IHa]; cbn [set List.length]; [lia|].
            destruct (String.eqb k0 (convert_key k)); cbn [List.length]; lia. }
          cbn [List.length]. lia.
      + destruct (IH acc Hacc) as (N & I & K & J & L).
        cbv zeta. split; [exact N|]. split; [|split; [|split]].
        * intros k' v' Hin. destruct (I k' v' Hin) as [H|(k0 & H0 & H1)];
            [now left|]. right. exists k0. split; [now right | exact H1].
        * exact K.
        * intros k0 [<-|Hk0] Hkeep; [cbn [fst] in Hkeep; congruence | now apply J].
        * cbn [List.length]. lia. }
  destruct (G raw [] (NoDup_nil _)) as (N & I & _ & J & L).
  split; [exact N|]. split; [|split; [exact J | exact L]].
  intros k' v Hin. destruct (I k' v Hin) as [[]|H]. exact H.
Qed.

End ConvertWellFormed.

(* ================================================================= *)
(** ** A construction that succeeds *)

Section Construction.
Context {TT : TorchTypes} {T : Torch}.
Import PyDict PyDictFacts.
Local Open Scope py_scope.

Lemma existsb_through_map {A B : Type} (f : B -> bool) (h : A -> B) (l : list A) :
  existsb f (map h l) = existsb (fun a => f (h a)) l.
Proof. induction l as [|a l IH]; [reflexivity|]. cbn [map existsb]. now rewrite IH. Qed.

(** Whether a state dict fits a network depends on the names and sizes of
    the network's entries only. *)
Lemma any_size_mismatch_shapes key_of (sd : dict Tensor) (n n' : Net) :
  map (fun kp => (fst kp, shape (data (snd kp)))) (named_parameters n)
  = map (fun kp => (fst kp, shape (data (snd kp)))) (named_parameters n') ->
  map (fun kb => (fst kb, shape (snd kb))) (named_buffers n)
  = map (fun kb => (fst kb, shape (snd kb))) (named_buffers n') ->
  any_size_mismatch key_of sd n = any_size_mismatch key_of sd n'.
Proof.
  intros Hp Hb. unfold any_size_mismatch.
  pose (g := fun ksh : string * list nat =>
               match incoming key_of sd (fst ksh) with
               | Some v => negb (shape_eqb (shape v) (snd ksh))
               | None => false
               end).
  assert (P : forall ps : list (string * Param),
             existsb (fun kp => size_mismatch key_of sd (fst kp) (data (snd kp))) ps
             = existsb g (map (fun kp => (fst kp, shape (data (snd kp)))) ps)).
  { intros ps. rewrite existsb_through_map. reflexivity. }
  assert (B : forall bs : list (string * Tensor),
             existsb (fun kb => size_mismatch key_of sd (fst kb) (snd kb)) bs
             = existsb g (map (fun kb => (fst kb, shape (snd kb))) bs)).
  { intros bs. rewrite existsb_through_map. reflexivity. }
  now rewrite !P, !B, Hp, Hb.
Qed.

Lemma names_after_freeze branch b (ps : list (string * Param)) :
  map fst (map (fun kp => if in_branch branch (fst kp)
                          then (fst kp, mkParam (data (snd kp)) b (grad (snd kp)))
                          else kp) ps)
  = map fst ps.
Proof.
  rewrite map_map. apply map_ext. intros kp. now destruct (in_branch branch (fst kp)).
Qed.

Lemma names_after_load key_of (sd : dict Tensor) (ps : list (string * Param)) :
  map fst (map (fun kp => (fst kp,
                           mkParam (load_tensor key_of sd (fst kp) (data (snd kp)))
                                   (requires_grad (snd kp)) (grad (snd kp)))) ps)
  = map fst ps.
Proof. rewrite map_map. now apply map_ext. Qed.

Lemma sizes_after_freeze branch b (ps : list (string * Param)) :
  map (fun kp => (fst kp, shape (data (snd kp))))
      (map (fun kp => if in_branch branch (fst kp)
                      then (fst kp, mkParam (data (snd kp)) b (grad (snd kp)))
                      else kp) ps)
  = map (fun kp => (fst kp, shape (data (snd kp)))) ps.
Proof.
  rewrite map_map. apply map_ext. intros kp. now destruct (in_branch branch (fst kp)).
Qed.

Lemma sizes_after_load key_of (sd : dict Tensor) (ps : list (string * Param)) :
  map (fun kp => (fst kp, shape (data (snd kp))))
      (map (fun kp => (fst kp,
                       mkParam (load_tensor key_of sd (fst kp) (data (snd kp)))
                               (requires_grad (snd kp)) (grad (snd kp)))) ps)
  = map (fun kp => (fst kp, shape (data (snd kp)))) ps.
Proof.
  rewrite map_map. apply map_ext. intros kp. cbn [fst snd data].
  now rewrite load_tensor_shape.
Qed.

Lemma buffer_sizes_after_load key_of (sd : dict Tensor) (bs : list (string * Tensor)) :
  map (fun kb => (fst kb, shape (snd kb)))
      (map (fun kb => (fst kb, load_tensor key_of sd (fst kb) (snd kb))) bs)
  = map (fun kb => (fst kb, shape (snd kb))) bs.
Proof.
  rewrite map_map. apply map_ext. intros kb. cbn [fst snd].
  now rewrite load_tensor_shape.
Qed.

Ltac names_settled :=
  cbn [self net optimG with_self with_net log modify snd fst load_state_dict];
  unfold new_AdamW, with_params; cbn [named_parameters];
  repeat (rewrite names_after_freeze || rewrite names_after_load);
  reflexivity.

(** X15: [Model(local_rank)] succeeds when the GMFlow checkpoint is on disk
    and fits and, below rank 1, the local-branch checkpoint is on disk and
    fits too; a process of rank above 0 needs the GMFlow checkpoint only.
    The object returned carries the configured name, sits on the device, is
    wrapped exactly when [local_rank] is not -1, and its optimizer is one
    group over every parameter of the network, the frozen ones included, at
    learning rate 2e-4 and weight decay 1e-4.  The disk is not written.
    (Building the network, moving it to the device and wrapping it are taken
    to succeed.) *)
Theorem construction_succeeds (local_rank : Z) (s : state) (c : ckpt)
        (raw : dict Tensor) :
  get (files s) gmflow_path = Some c ->
  ck_model c = Some raw ->
  any_size_mismatch (sub_key "gmflow")
    (comprehension (fun k => k) (mem (sub_state_dict "gmflow" MODEL_CONFIG_net)) raw)
    MODEL_CONFIG_net = false ->
  ((local_rank <= 0)%Z ->
   exists c2 raw2,
     get (files s) (ckpt_path "ours-local") = Some c2
     /\ ck_model c2 = Some raw2
     /\ any_size_mismatch (fun k => Some (state_dict_key MODEL_CONFIG_net k))
          (convert raw2) MODEL_CONFIG_net = false) ->
  exists m s',
    new_Model local_rank s = (Ok m, s')
    /\ self s' = m
    /\ name m = MODEL_CONFIG_LOGNAME
    /\ optimG m
       = Some (mkAdamW [mkGroup f_2e_4 f_1e_4
                                (map fst (named_parameters MODEL_CONFIG_net))]
                       adamw_init_state)
    /\ map fst (named_parameters (net m)) = map fst (named_parameters MODEL_CONFIG_net)
    /\ on_cuda (net m) = true
    /\ ddp (net m) = (negb (local_rank =? -1)%Z || ddp MODEL_CONFIG_net)
    /\ files s' = files s
    /\ dirs s' = dirs s.
Proof.
  intros Hc Hraw Hsz Hlocal.
  unfold new_Model, __init__.
  rewrite bind_modify. unfold device at 1. rewrite bind_modify.
  erewrite bind_Ok; [|apply torch_load_found; exact Hc].
  unfold print at 1. rewrite bind_modify, bind_gets.
  erewrite bind_Ok; [|apply getitem_model_found; exact Hraw].
  erewrite bind_fst_Ok; [|apply load_state_dict_fits; exact Hsz].
  unfold set_requires_grad at 1. rewrite bind_modify.
  unfold print at 1. rewrite bind_modify.
  destruct (Z_le_gt_dec local_rank 0) as [Hr|Hr].
  - destruct (Hlocal Hr) as (c2 & raw2 & Hc2 & Hraw2 & Hsz2).
    erewrite bind_fst_Ok; cycle 1.
    { erewrite load_model_run; [| exact Hr | exact Hc2 | exact Hraw2].
      apply load_state_dict_fits.
      rewrite <- Hsz2. apply any_size_mismatch_shapes.
      - cbn [log self net with_net with_self named_parameters with_params snd
             load_state_dict modify].
        rewrite sizes_after_freeze, sizes_after_load. reflexivity.
      - cbn [log self net with_net with_self named_buffers with_params snd
             load_state_dict modify].
        rewrite buffer_sizes_after_load. reflexivity. }
    erewrite load_model_run; [| exact Hr | exact Hc2 | exact Hraw2].
    unfold print at 1. rewrite bind_modify.
    unfold set_requires_grad. rewrite !bind_modify.
    destruct (local_rank =? -1)%Z; cbn [negb orb].
    + eexists. eexists. split; [reflexivity|]. split; [reflexivity|].
      split; [reflexivity|]. split.
      * names_settled.
      * split; [|split; [reflexivity | split; [reflexivity | split; reflexivity]]].
        names_settled.
    + eexists. eexists. split; [reflexivity|]. split; [reflexivity|].
      split; [reflexivity|]. split.
      * names_settled.
      * split; [|split; [reflexivity | split; [reflexivity | split; reflexivity]]].
        names_settled.
  - assert (Hskip : forall S, load_model (Some "ours-local") local_rank S = (Ok tt, S)).
    { intros S. unfold load_model.
      replace (local_rank <=? 0)%Z with false; [reflexivity|].
      symmetry. apply Z.leb_gt. lia. }
    erewrite bind_Ok; [|apply Hskip].
    unfold print at 1. rewrite bind_modify.
    unfold set_requires_grad. rewrite !bind_modify.
    replace (local_rank =? -1)%Z with false by (symmetry; apply Z.eqb_neq; lia).
    cbn [negb orb].
    eexists. eexists. split; [reflexivity|]. split; [reflexivity|].
    split; [reflexivity|]. split.
    + names_settled.
    + split; [|split; [reflexivity | split; [reflexivity | split; reflexivity]]].
      names_settled.
Qed.

End Construction.

(* ================================================================= *)
(** ** Further examples *)

Section MoreExamples.
Import Sample SampleTrip PyDict PyStr.
#[local] Existing Instance Qtypes.
#[local] Existing Instance torch.

Lemma built_optimizer : optimG (self built) = Some (new_AdamW (net (self built))).
Proof. vm_compute. reflexivity. Defined.

Lemma update_sets_learning_rate_witness :
  optimG (self built) = Some (new_AdamW (net (self built)))
  /\ exists o',
      optimG (self (snd (update (frame 1 2) (frame 3 4) (1 # 10)%Q 1%Q false built)))
      = Some o'
      /\ Forall (fun g => pg_lr g = (1 # 10)%Q) (param_groups o')
      /\ opt_state o' = opt_state (new_AdamW (net (self built))).
Proof.
  split; [exact built_optimizer|].
  destruct (update_sets_learning_rate built (frame 1 2) (frame 3 4) (1 # 10)%Q 1%Q
              false _ built_optimizer) as (o' & Ho' & _ & Hlr & Hst & _).
  exists o'. split; [exact Ho'|]. split; [exact Hlr | exact (Hst eq_refl)].
Defined.

Lemma update_training_spares_frozen_witness :
  optimG (self built) = Some (new_AdamW (net (self built)))
  /\ Forall2 (fun kp kp' =>
                fst kp' = fst kp
                /\ requires_grad (snd kp') = requires_grad (snd kp)
                /\ (requires_grad (snd kp) = false ->
                    data (snd kp') = data (snd kp)
                    /\ (in_groups (new_AdamW (net (self built))) (fst kp) = true ->
                        grad (snd kp') = None)))
             (named_parameters (net (self built)))
             (named_parameters
                (net (self (snd (update (frame 1 2) (frame 3 4) (1 # 10)%Q 1%Q true
                                        built))))).
Proof.
  split; [exact built_optimizer|].
  exact (update_training_spares_frozen built (frame 1 2) (frame 3 4) (1 # 10)%Q 1%Q
           _ built_optimizer).
Defined.

Lemma update_training_moves_trainable_witness :
  (optimG (self built) = Some (new_AdamW (net (self built)))
   /\ param_groups (new_AdamW (net (self built)))
      = [mkGroup f_2e_4 f_1e_4 (map fst (named_parameters (net (self built))))])
  /\ Forall2 (fun kp kp' =>
                requires_grad (snd kp) = true ->
                existsb (String.eqb (fst kp))
                        (map fst (named_parameters (net (self built)))) = true ->
                grad (snd kp') = Some (Nd [Sc 1%Q]))
             (named_parameters (net (self built)))
             (named_parameters
                (net (self (snd (update (frame 1 2) (frame 3 4) (1 # 10)%Q 1%Q true
                                        built))))).
Proof.
  assert (Hg : param_groups (new_AdamW (net (self built)))
               = [mkGroup f_2e_4 f_1e_4 (map fst (named_parameters (net (self built))))])
    by reflexivity.
  split; [split; [exact built_optimizer | exact Hg]|].
  eapply Forall2_impl;
    [|exact (update_training_moves_trainable built (frame 1 2) (frame 3 4)
               (1 # 10)%Q 1%Q _ _ built_optimizer Hg)].
  intros kp kp' H Hr Hin. exact (proj1 (H Hr Hin)).
Defined.

(** A batch of one frame against a batch of two. *)
Lemma inference_rejects_unequal_batches_witness :
  List.length [Nd [Nd [Nd [Sc 1%Q; Sc 2%Q]]] : Tensor]
  <> List.length [Nd [Nd [Nd [Sc 0%Q; Sc 0%Q]]] : Tensor; Nd [Nd [Nd [Sc 2%Q; Sc 2%Q]]]]
  /\ inference (frame 1 2) (frames2 0 0 2 2) true 1%Q false built
     = (Raise RuntimeError, built)
  /\ hr_inference (frame 1 2) (frames2 0 0 2 2) false (1 # 2)%Q 1%Q true built
     = (Raise RuntimeError, built).
Proof.
  assert (H : List.length [Nd [Nd [Nd [Sc 1%Q; Sc 2%Q]]] : Tensor]
              <> List.length [Nd [Nd [Nd [Sc 0%Q; Sc 0%Q]]] : Tensor;
                              Nd [Nd [Nd [Sc 2%Q; Sc 2%Q]]]])
    by (simpl; discriminate).
  split; [exact H|]. split.
  - exact (proj1 (inference_rejects_unequal_batches built
                    [Nd [Nd [Nd [Sc 1%Q; Sc 2%Q]]]]
                    [Nd [Nd [Nd [Sc 0%Q; Sc 0%Q]]]; Nd [Nd [Nd [Sc 2%Q; Sc 2%Q]]]] true false
                    (1 # 2)%Q 1%Q H)).
  - exact (proj2 (inference_rejects_unequal_batches built
                    [Nd [Nd [Nd [Sc 1%Q; Sc 2%Q]]]]
                    [Nd [Nd [Nd [Sc 0%Q; Sc 0%Q]]]; Nd [Nd [Nd [Sc 2%Q; Sc 2%Q]]]] false true
                    (1 # 2)%Q 1%Q H)).
Defined.

Lemma fast_TTA_fails_on_empty_batch_witness :
  (per_sample_forward (net (self built)) 1%Q (fun x => x)
   /\ per_sample_infer (net (self built)) (1 # 2)%Q 1%Q (fun x => x)
   /\ ddp (net (self built)) = false)
  /\ fst (inference (Nd []) (Nd []) false 1%Q true built) = Raise IndexError
  /\ fst (inference (Nd []) (Nd []) true 1%Q false built) = Ok (Nd [])
  /\ fst (hr_inference (Nd []) (Nd []) false (1 # 2)%Q 1%Q true built) = Raise IndexError
  /\ fst (hr_inference (Nd []) (Nd []) false (1 # 2)%Q 1%Q false built) = Ok (Nd [])
  /\ (ddp (net (self wrapped)) = true
      /\ fst (hr_inference (Nd []) (Nd []) false (1 # 2)%Q 1%Q true wrapped)
         = Raise (AttributeError "calculate_flow")).
Proof.
  split; [split; [apply sample_per_sample_forward
                 | split; [apply sample_per_sample_infer | exact built_not_wrapped]]|].
  destruct (fast_TTA_fails_on_empty_batch built false (1 # 2)%Q 1%Q
              (fun x => x) (fun x => x)
              (sample_per_sample_forward _ _) (sample_per_sample_infer _ _ _))
    as ((A & _ & B) & C & _).
  destruct (C built_not_wrapped) as (C1 & C2 & _).
  split; [exact A|]. split; [exact B|]. split; [exact C1|]. split; [exact C2|].
  split; [exact wrapped_is_wrapped|].
  exact (proj2 (proj2 (fast_TTA_fails_on_empty_batch wrapped false (1 # 2)%Q 1%Q
                         (fun x => x) (fun x => x)
                         (sample_per_sample_forward _ _)
                         (sample_per_sample_infer _ _ _)))
           wrapped_is_wrapped true).
Defined.

Lemma load_model_edges_witness :
  ((0 < 1)%Z /\ load_model None 1 built = (Ok tt, built))
  /\ ((0 <= 0)%Z
      /\ get (files built) (ckpt_path (chosen_name None built)) = None
      /\ load_model None 0 built
         = (Raise (FileNotFoundError "log/sgm/ckpt/sgm.pkl"),
            log (EvPrint "Loading sgm ckpt") built))
  /\ (ck_model (mkCkpt (Some 1%Z) None None) = None
      /\ load_model (Some "x") 0 hollow_disk
         = (Raise (KeyError "model"), log (EvPrint "Loading x ckpt") hollow_disk)).
Proof.
  assert (H1 : (0 < 1)%Z) by reflexivity.
  assert (H0 : (0 <= 0)%Z) by apply Z.le_refl.
  assert (Hn : get (files built) (ckpt_path (chosen_name None built)) = None)
    by (vm_compute; reflexivity).
  split; [split; [exact H1|]|split; [split; [exact H0 | split; [exact Hn|]]|split]].
  - exact (proj1 (load_model_edges built None 1) H1).
  - exact (proj1 (proj2 (load_model_edges built None 0)) H0 Hn).
  - reflexivity.
  - exact (proj1 (proj2 (proj2 (load_model_edges hollow_disk (Some "x") 0))) H0
             (mkCkpt (Some 1%Z) None None) eq_refl eq_refl).
Defined.

Lemma checkpoint_without_marker_loads_nothing_witness :
  (get (files bare_disk) (ckpt_path (chosen_name (Some "x") bare_disk))
   = Some (mkCkpt (Some 1%Z) (Some [("head.w", Nd [Sc 50%Q])]) None)
   /\ forall k, In k (keys [("head.w", Nd [Sc 50%Q] : Tensor)]) ->
                contains "module." k = false)
  /\ load_model (Some "x") 0 bare_disk
     = (Ok tt, log (EvPrint "Loading x ckpt") bare_disk).
Proof.
  assert (Hk : forall k, In k (keys [("head.w", Nd [Sc 50%Q] : Tensor)]) ->
                         contains "module." k = false).
  { intros k [<-|[]]. reflexivity. }
  split; [split; [reflexivity | exact Hk]|].
  exact (proj2 (checkpoint_without_marker_loads_nothing bare_disk (Some "x") 0
                  (mkCkpt (Some 1%Z) (Some [("head.w", Nd [Sc 50%Q])]) None)
                  [("head.w", Nd [Sc 50%Q])] (Z.le_refl 0) eq_refl eq_refl Hk)).
Defined.

Lemma wrapped_model_loads_nothing_witness :
  (ddp (net (self wrapped)) = true
   /\ get (files wrapped) (ckpt_path (chosen_name (Some "ours-local") wrapped))
      = Some local_ckpt)
  /\ load_model (Some "ours-local") 0 wrapped
     = (Ok tt, log (EvPrint "Loading ours-local ckpt") wrapped).
Proof.
  assert (Hd : ddp (net (self wrapped)) = true) by (vm_compute; reflexivity).
  assert (Hf : get (files wrapped) (ckpt_path (chosen_name (Some "ours-local") wrapped))
               = Some local_ckpt) by (vm_compute; reflexivity).
  split; [split; [exact Hd | exact Hf]|].
  refine (wrapped_model_loads_nothing wrapped (Some "ours-local") 0 local_ckpt
            [("module.head.w", Nd [Sc 50%Q]); ("module.block.attn_mask", Nd [Sc 9%Q])]
            Hd (Z.le_refl 0) Hf eq_refl _).
  intros k [<-|[<-|[]]] Hkeep.
  - exists "head.w". split; reflexivity.
  - exists "block.attn_mask". split; reflexivity.
Defined.

Lemma save_then_load_restores_witness :
  (optimG (self saver) = Some (mkAdamW [] O)
   /\ ddp (net (self saver)) = true
   /\ ddp (net (self loader)) = false
   /\ files loader = files (snd (save_model 0 3 false saver)))
  /\ fst (load_model None 0 loader) = Ok tt
  /\ named_buffers (net (self (snd (load_model None 0 loader))))
     = [("head.scale", Nd [Sc 7%Q])]
  /\ map (fun kp => (fst kp, data (snd kp)))
         (named_parameters (net (self (snd (load_model None 0 loader)))))
     = [("head.w", Nd [Sc 5%Q])].
Proof.
  split; [repeat split|].
  assert (Hn : NoDup (entry_names (net (self saver)))).
  { apply NoDup_cons; [intros [H|[]]; discriminate H|].
    apply NoDup_cons; [intros []|apply NoDup_nil]. }
  assert (Hk : forall k, In k (entry_names (net (self saver))) ->
                         contains "module." k = false /\ contains "attn_mask" k = false
                         /\ contains "HW" k = false).
  { intros k [<-|[<-|[]]]; repeat split. }
  assert (Hp : Forall2 (fun kp3 kp1 : string * Param =>
                          fst kp3 = fst kp1
                          /\ shape (data (snd kp3)) = shape (data (snd kp1)))
                       (named_parameters (net (self loader)))
                       (named_parameters (net (self saver)))).
  { constructor; [split; reflexivity | constructor]. }
  assert (Hb : Forall2 (fun kb3 kb1 : string * Tensor =>
                          fst kb3 = fst kb1 /\ shape (snd kb3) = shape (snd kb1))
                       (named_buffers (net (self loader)))
                       (named_buffers (net (self saver)))).
  { constructor; [split; reflexivity | constructor]. }
  destruct (save_then_load_restores saver loader 3 false _
              eq_refl eq_refl Hn Hk eq_refl eq_refl eq_refl Hp Hb)
    as (A & B & C).
  split; [exact A|]. split; [exact C | exact B].
Defined.

Lemma best_checkpoint_survives_witness :
  optimG (self built) = Some (new_AdamW (net (self built)))
  /\ get (files (snd (save_model 0 5 false (snd (save_model 0 3 true built)))))
         (ckpt_path (name (self built)))
     = Some (saved_record built 5 (new_AdamW (net (self built))))
  /\ get (files (snd (save_model 0 5 false (snd (save_model 0 3 true built)))))
         (ckpt_best_path (name (self built)))
     = Some (saved_record built 3 (new_AdamW (net (self built)))).
Proof.
  split; [exact built_optimizer|].
  destruct (best_checkpoint_survives built 3 5 _ built_optimizer)
    as (_ & _ & A & B & _).
  split; [exact A | exact B].
Defined.

Lemma convert_returns_a_dict_witness :
  (In "module.a" (keys [("module.a", 1); ("a.module.", 2); ("b", 3)])
   /\ convert_keep "module.a" = true)
  /\ In "a" (keys (convert [("module.a", 1); ("a.module.", 2); ("b", 3)]))
  /\ NoDup (keys (convert [("module.a", 1); ("a.module.", 2); ("b", 3)])).
Proof.
  assert (Hin : In "module.a" (keys [("module.a", 1); ("a.module.", 2); ("b", 3)]))
    by (left; reflexivity).
  assert (Hkeep : convert_keep "module.a" = true) by reflexivity.
  split; [split; [exact Hin | exact Hkeep]|].
  destruct (convert_returns_a_dict nat [("module.a", 1); ("a.module.", 2); ("b", 3)])
    as (N & _ & J & _).
  split; [exact (J "module.a" Hin Hkeep) | exact N].
Defined.

Lemma construction_succeeds_witness :
  (get (files disk) gmflow_path = Some gmflow_ckpt
   /\ get (files disk) (ckpt_path "ours-local") = Some local_ckpt)
  /\ (exists m s', new_Model (-1) disk = (Ok m, s')
                   /\ ddp (net m) = false /\ files s' = files disk)
  /\ (exists m s',
         new_Model 1 (mkState blank [(gmflow_path, gmflow_ckpt)] [] true []) = (Ok m, s')
         /\ ddp (net m) = true
         /\ map fst (named_parameters (net m))
            = ["gmflow.w"; "feature_bone.w"; "block.w"; "unet.w"; "head.w"]).
Proof.
  assert (Hsz : any_size_mismatch (sub_key "gmflow")
                  (comprehension (fun k => k)
                     (mem (sub_state_dict "gmflow" MODEL_CONFIG_net))
                     [("w", Nd [Sc 10%Q]); ("unused", Nd [Sc 0%Q])])
                  MODEL_CONFIG_net = false) by (vm_compute; reflexivity).
  assert (Hsz2 : any_size_mismatch (fun k => Some (state_dict_key MODEL_CONFIG_net k))
                   (convert [("module.head.w", Nd [Sc 50%Q] : Tensor);
                             ("module.block.attn_mask", Nd [Sc 9%Q])])
                   MODEL_CONFIG_net = false) by (vm_compute; reflexivity).
  split; [split; reflexivity|]. split.
  - destruct (construction_succeeds (-1) disk gmflow_ckpt
                [("w", Nd [Sc 10%Q]); ("unused", Nd [Sc 0%Q])] eq_refl eq_refl Hsz
                (fun _ => ex_intro _ local_ckpt
                            (ex_intro _ _ (conj eq_refl (conj eq_refl Hsz2)))))
      as (m & s' & E & _ & _ & _ & _ & _ & D & F & _).
    exists m, s'. split; [exact E|]. split; [exact D | exact F].
  - destruct (construction_succeeds 1
                (mkState blank [(gmflow_path, gmflow_ckpt)] [] true []) gmflow_ckpt
                [("w", Nd [Sc 10%Q]); ("unused", Nd [Sc 0%Q])] eq_refl eq_refl Hsz
                (fun H : (1 <= 0)%Z => match H eq_refl with end))
      as (m & s' & E & _ & _ & _ & N & _ & D & _).
    exists m, s'. split; [exact E|]. split; [exact D | exact N].
Defined.

End MoreExamples.

Section MoreExamplesZ.
Import SampleZ.
#[local] Existing Instance Ztypes.
#[local] Existing Instance torch.

Lemma Zhalf_double (x : Z) : (Z.div (Z.add x x) 2 = x)%Z.
Proof. replace (x + x)%Z with (x * 2)%Z by lia. apply Z.div_mul. discriminate. Defined.

Lemma TTA_is_plain_on_equivariant_network_witness :
  ((forall x, fdiv (fadd x x) f_2 = x)
   /\ cat [frame 1 2; frame 3 4] 1 = Ok (Nd [Nd [Nd [Nd [Sc 1%Z; Sc 2%Z]];
                                                 Nd [Nd [Sc 3%Z; Sc 4%Z]]]])
   /\ flip23 (Nd [Nd [Nd [Nd [Sc 1%Z; Sc 2%Z]]; Nd [Nd [Sc 3%Z; Sc 4%Z]]]])
      = Ok (Nd [Nd [Nd [Nd [Sc 2%Z; Sc 1%Z]]; Nd [Nd [Sc 4%Z; Sc 3%Z]]]])
   /\ ddp (net (self idle)) = false)
  /\ fst (inference (frame 1 2) (frame 3 4) true 1%Z false idle)
     = fst (inference (frame 1 2) (frame 3 4) false 1%Z false idle)
  /\ fst (hr_inference (frame 1 2) (frame 3 4) true 1%Z 1%Z false idle)
     = fst (hr_inference (frame 1 2) (frame 3 4) false 1%Z 1%Z false idle)
  /\ fst (hr_inference (frame 1 2) (frame 3 4) true 1%Z 1%Z false idle)
     = Ok (Nd [Nd [Nd [Nd [Sc 1%Z; Sc 2%Z]]; Nd [Nd [Sc 3%Z; Sc 4%Z]]]]).
Proof.
  assert (Hh : forall x : num, fdiv (fadd x x) f_2 = x) by exact Zhalf_double.
  assert (Hc : cat [frame 1 2; frame 3 4] 1
               = Ok (Nd [Nd [Nd [Nd [Sc 1%Z; Sc 2%Z]]; Nd [Nd [Sc 3%Z; Sc 4%Z]]]]))
    by reflexivity.
  assert (Hf : flip23 (Nd [Nd [Nd [Nd [Sc 1%Z; Sc 2%Z]]; Nd [Nd [Sc 3%Z; Sc 4%Z]]]])
               = Ok (Nd [Nd [Nd [Nd [Sc 2%Z; Sc 1%Z]]; Nd [Nd [Sc 4%Z; Sc 3%Z]]]]))
    by reflexivity.
  assert (Hd : ddp (net (self idle)) = false) by reflexivity.
  split; [split; [exact Hh | split; [exact Hc | split; [exact Hf | exact Hd]]]|].
  destruct (TTA_is_plain_on_equivariant_network idle (frame 1 2) (frame 3 4) _ _
              1%Z 1%Z Hh Hc Hf) as (A & B).
  destruct (B eq_refl) as (B1 & _ & B3).
  split; [exact (proj2 (A eq_refl))|]. split; [exact B3 | exact (B1 Hd)].
Defined.

End MoreExamplesZ.
